(** * OskarBit: the motion monitor's stream pipeline and the graph
      visualiser's ingestion scheduler

    Shallow embedding of [sketch.js] (class [DataStream], [parseMessage],
    [keyPressed]) and of the serial-ingestion part of the graph sketch
    ([draw], [clearSerialBuffer]).

    JavaScript numbers are IEEE 754 binary64 values: they are modelled by
    Rocq's primitive floats, which are the same format with the same
    correctly rounded operations.  Quantities that the program only ever
    uses as small integers (stream ids, the motion level, millisecond
    time stamps, counters) are modelled by [Z] and [nat]. *)

From Stdlib Require Import ZArith Lia List Bool Ascii String.
From Stdlib Require Import Floats.
From stdpp Require Import base option list gmap.

Set Warnings "-inexact-float".

Local Open Scope Z_scope.

(** ** JavaScript numbers *)

Module JS.

Definition number := float.
Bind Scope float_scope with number.

(** [isNaN(v)] for a value that is already a number. *)
Definition isNaN (v : number) : bool := PrimFloat.is_nan v.

(** The relational operators on numbers; every comparison with [NaN]
    is false. *)
Definition lt (a b : number) : bool := PrimFloat.ltb a b.
Definition gt (a b : number) : bool := PrimFloat.ltb b a.
Definition ge (a b : number) : bool := PrimFloat.leb b a.

(** [ToNumber] of the result of an array read: an index outside the
    array reads [undefined], which arithmetic and comparisons turn into
    [NaN]. *)
Definition toNumber (v : option number) : number :=
  match v with
  | Some f => f
  | None => PrimFloat.nan
  end.

(** [Math.max] of two numbers: [NaN] if either is, and [+0] above [-0]. *)
Definition max (a b : number) : number :=
  if PrimFloat.is_nan a || PrimFloat.is_nan b then PrimFloat.nan
  else if PrimFloat.ltb a b then b
  else if PrimFloat.ltb b a then a
  else match PrimFloat.classify a with
       | NZero => b
       | _ => a
       end.

(** [Math.min] of two numbers: [NaN] if either is, and [-0] below [+0]. *)
Definition min (a b : number) : number :=
  if PrimFloat.is_nan a || PrimFloat.is_nan b then PrimFloat.nan
  else if PrimFloat.ltb a b then a
  else if PrimFloat.ltb b a then b
  else match PrimFloat.classify a with
       | PZero => b
       | _ => a
       end.

(** [a !== 0] and [a === 0] on numbers: [NaN] differs from 0, and [-0]
    does not. *)
Definition isZero (a : number) : bool := PrimFloat.eqb a PrimFloat.zero.

(** The number of elements of an array, as a number. *)
Definition of_nat (n : nat) : number :=
  PrimFloat.of_uint63 (Uint63.of_Z (Z.of_nat n)).

(** *** Strings

    A string is a sequence of code units; the model covers the code
    units below 256, one [ascii] each. *)

(** The class [\s] on those code units: tab, line feed, vertical tab,
    form feed, carriage return, space and no-break space. *)
Definition isSpace (c : ascii) : bool :=
  let n := nat_of_ascii c in
  ((9 <=? n) && (n <=? 13) || (n =? 32) || (n =? 160))%nat.

Definition isDigit (c : ascii) : bool :=
  let n := nat_of_ascii c in
  ((48 <=? n) && (n <=? 57))%nat.

Definition digitValue (c : ascii) : Z := Z.of_nat (nat_of_ascii c) - 48.

(** The longest run of decimal digits at the start of a string, as the
    number it writes and the count of its digits, and the rest. *)
Fixpoint takeDigits (acc : Z) (count : nat) (s : string) : Z * nat * string :=
  match s with
  | String c rest =>
      if isDigit c then takeDigits (10 * acc + digitValue c) (S count) rest
      else (acc, count, s)
  | EmptyString => (acc, count, s)
  end.

Fixpoint trimStart (s : string) : string :=
  match s with
  | String c rest => if isSpace c then trimStart rest else s
  | EmptyString => s
  end.

Fixpoint trimEnd (s : string) : string :=
  match s with
  | String c rest =>
      match trimEnd rest with
      | EmptyString => if isSpace c then EmptyString else String c EmptyString
      | kept => String c kept
      end
  | EmptyString => EmptyString
  end.

(** [s.trim()]. *)
Definition trim (s : string) : string := trimEnd (trimStart s).

(** The number nearest to [a / b] for positive integers, ties to even:
    the quotient is taken with at least 64 bits and a sticky bit for
    the remainder, and then rounded once to binary64. *)
Definition roundRatio (a b : Z) : number :=
  let s := Z.max 0 (Z.log2 b + 65 - Z.log2 a) in
  let n := Z.shiftl a s in
  let q := n / b in
  let sticky := if n mod b =? 0 then 0 else 1 in
  SF2Prim (binary_normalize prec emax (2 * q + sticky) (- s - 1) false).

(** The number nearest to [m * 10^e] for a natural number [m]. *)
Definition decimalValue (m e : Z) : number :=
  if m =? 0 then PrimFloat.zero
  else if 0 <=? e then SF2Prim (binary_normalize prec emax (m * 10 ^ e) 0 false)
  else roundRatio m (10 ^ (- e)).

Definition signOf (s : string) : bool * string :=
  match s with
  | String "-" rest => (true, rest)
  | String "+" rest => (false, rest)
  | _ => (false, s)
  end.

(** [parseFloat(s)]: leading white space is skipped and the longest
    prefix that is a decimal literal (an optional sign, then
    [Infinity], or digits with an optional fraction and an optional
    exponent) is converted; [NaN] if there is none. *)
Definition parseFloat (s : string) : number :=
  let '(negative, s1) := signOf (trimStart s) in
  let magnitude :=
    if String.prefix "Infinity" s1 then PrimFloat.infinity
    else
      let '(ip, ipCount, s2) := takeDigits 0 0 s1 in
      let '(m, fpCount, s3) :=
        match s2 with
        | String "." rest => let '(m, n, r) := takeDigits ip 0 rest in (m, n, r)
        | _ => (ip, O, s2)
        end in
      if ((ipCount + fpCount)%nat =? 0)%nat then PrimFloat.nan
      else
        let exponent :=
          match s3 with
          | String c rest =>
              if Ascii.eqb c "e" || Ascii.eqb c "E" then
                let '(negativeExp, r1) := signOf rest in
                let '(e, eCount, _) := takeDigits 0 0 r1 in
                if (eCount =? 0)%nat then 0
                else if negativeExp then - e else e
              else 0
          | EmptyString => 0
          end in
        decimalValue m (exponent - Z.of_nat fpCount) in
  if negative then PrimFloat.opp magnitude else magnitude.

(** *** Integers as text *)

Definition digitChar (d : Z) : ascii := ascii_of_nat (48 + Z.to_nat d).

(** The decimal digits of a natural number, most significant first, in
    front of [tail]; [fuel] bounds the number of digits. *)
Fixpoint digitsOnto (fuel : nat) (n : Z) (tail : string) : string :=
  match fuel with
  | O => tail
  | S fuel' =>
      let tail' := String (digitChar (n mod 10)) tail in
      if n <? 10 then tail' else digitsOnto fuel' (n / 10) tail'
  end.

(** A natural number has no more decimal digits than binary ones. *)
Definition digitsFuel (n : Z) : nat := S (Z.to_nat (Z.log2 n)).

(** The text of an integer, in front of [tail]: what string
    concatenation makes of an integer-valued number below 10^21 in
    size, a minus sign for a negative one and then the decimal digits. *)
Definition integerOnto (n : Z) (tail : string) : string :=
  if n <? 0 then String "-" (digitsOnto (digitsFuel (- n)) (- n) tail)
  else digitsOnto (digitsFuel n) n tail.

Definition integerToString (n : Z) : string := integerOnto n EmptyString.

(** The number an integer is read back as: the one nearest to it. *)
Definition ofInteger (n : Z) : number :=
  if n <? 0 then PrimFloat.opp (decimalValue (- n) 0) else decimalValue n 0.

End JS.

Bind Scope float_scope with JS.number.


(** ** The stream class of [sketch.js] *)

(** One entry of [calibrationData]: the object literal [{ x, y, z }]. *)
Record Sample : Type := mkSample {
  sampleX : JS.number;
  sampleY : JS.number;
  sampleZ : JS.number
}.

(** The three texts [calibrationQuality] takes after calibration, and the
    initial ["UNKNOWN"]. *)
Inductive Quality : Type :=
| UNKNOWN
| POOR   (* "POOR - Device was moving" *)
| FAIR   (* "FAIR - Some movement detected" *)
| GOOD.  (* "GOOD - Device was steady" *)

Definition STREAM_COLORS : list (list Z) :=
  [ [100; 150; 255]; [100; 255; 150]; [255; 180; 100];
    [200; 150; 255]; [255; 150; 180]; [255; 230; 100] ].

Module DataStream.

Local Open Scope float_scope.

Record t : Type := mk {
  id : Z;
  color : list Z;
  lastUpdate : Z;
  (* display values (smoothed) *)
  x : JS.number;
  y : JS.number;
  z : JS.number;
  (* raw values *)
  rawX : JS.number;
  rawY : JS.number;
  rawZ : JS.number;
  (* calibration *)
  calibrating : bool;
  calibrationData : list Sample;
  baseX : JS.number;
  baseY : JS.number;
  baseZ : JS.number;
  deadzone : JS.number;
  calibrationNoise : JS.number;
  motionThresholds : list JS.number;
  (* motion detection *)
  motion : Z;
  distance : JS.number;
  calibrationQuality : Quality;
  lastMotionTime : Z
}.

(** [STREAM_COLORS[(id - 1) % STREAM_COLORS.length]]; the remainder has
    the sign of [id - 1], and a negative index reads [undefined],
    rendered here as the empty list. *)
Definition colorOf (id0 : Z) : list Z :=
  let i := Z.rem (id0 - 1) (Z.of_nat (length STREAM_COLORS)) in
  if (i <? 0)%Z then [] else nth (Z.to_nat i) STREAM_COLORS [].

(** [new DataStream(id)]; [now] is what [Date.now()] returns. *)
Definition new (id0 : Z) (now : Z) : t :=
  {| id := id0;
     color := colorOf id0;
     lastUpdate := now;
     x := 0; y := 0; z := 0;
     rawX := 0; rawY := 0; rawZ := 0;
     calibrating := true;
     calibrationData := [];
     baseX := 0; baseY := 0; baseZ := 0;
     deadzone := 250;
     calibrationNoise := 0;
     motionThresholds := [200; 500; 1000; 2000];
     motion := 0%Z;
     distance := 0;
     calibrationQuality := UNKNOWN;
     lastMotionTime := now |}.

Definition startCalibration (this : t) : t :=
  {| id := id this; color := color this; lastUpdate := lastUpdate this;
     x := x this; y := y this; z := z this;
     rawX := rawX this; rawY := rawY this; rawZ := rawZ this;
     calibrating := true;
     calibrationData := [];
     baseX := baseX this; baseY := baseY this; baseZ := baseZ this;
     deadzone := deadzone this;
     calibrationNoise := calibrationNoise this;
     motionThresholds := motionThresholds this;
     motion := motion this;
     distance := distance this;
     calibrationQuality := calibrationQuality this;
     lastMotionTime := lastMotionTime this |}.

(** The [for (let d of this.calibrationData)] accumulations. *)
Definition sumOf (f : Sample -> JS.number) (data : list Sample) : JS.number :=
  fold_left (fun acc d => acc + f d) data 0.

(** [Math.pow(v, 2)], taken as the product [v * v]. *)
Definition pow2 (v : JS.number) : JS.number := v * v.

Definition finishCalibration (this : t) : t :=
  let data := calibrationData this in
  let n := JS.of_nat (length data) in
  let baseX' := sumOf sampleX data / n in
  let baseY' := sumOf sampleY data / n in
  let baseZ' := sumOf sampleZ data / n in
  let varX := sumOf (fun d => pow2 (sampleX d - baseX')) data / n in
  let varY := sumOf (fun d => pow2 (sampleY d - baseY')) data / n in
  let varZ := sumOf (fun d => pow2 (sampleZ d - baseZ')) data / n in
  let stdX := PrimFloat.sqrt varX in
  let stdY := PrimFloat.sqrt varY in
  let stdZ := PrimFloat.sqrt varZ in
  let noise := PrimFloat.sqrt (stdX * stdX + stdY * stdY + stdZ * stdZ) in
  let quality :=
    if JS.gt noise 500 then POOR
    else if JS.gt noise 250 then FAIR
    else GOOD in
  let baseThreshold := JS.max 300 (noise * 4) in
  {| id := id this; color := color this; lastUpdate := lastUpdate this;
     x := baseX'; y := baseY'; z := baseZ';
     rawX := rawX this; rawY := rawY this; rawZ := rawZ this;
     calibrating := false;
     calibrationData := data;
     baseX := baseX'; baseY := baseY'; baseZ := baseZ';
     deadzone := JS.max 250 (noise * 2.5);
     calibrationNoise := noise;
     motionThresholds :=
       [ baseThreshold;
         baseThreshold * 1.8;
         baseThreshold * 3.5;
         baseThreshold * 6;
         baseThreshold * 10;
         baseThreshold * 16 ];
     motion := motion this;
     distance := distance this;
     calibrationQuality := quality;
     lastMotionTime := lastMotionTime this |}.

(** *** The pieces of [update] after calibration *)

(** [Math.sqrt(dx * dx + dy * dy + dz * dz)] for the raw sample. *)
Definition euclideanDistance (this : t) (ax ay az : JS.number) : JS.number :=
  let dx := ax - baseX this in
  let dy := ay - baseY this in
  let dz := az - baseZ this in
  PrimFloat.sqrt (dx * dx + dy * dy + dz * dz).

(** The deadzone: a distance below it counts as no distance at all. *)
Definition applyDeadzone (this : t) (euclidean : JS.number) : JS.number :=
  if JS.lt euclidean (deadzone this) then 0 else euclidean.

Definition effectiveDistance (this : t) (ax ay az : JS.number) : JS.number :=
  applyDeadzone this (euclideanDistance this ax ay az).

(** [this.motionThresholds[0] * 0.2]. *)
Definition hysteresis (this : t) : JS.number :=
  JS.toNumber (motionThresholds this !! 0%nat) * 0.2.

(** The loop [for (let level = 5; level >= 0; level--)], entered with
    [level = n - 1]: the first threshold reached from the top sets
    [newMotion = level + 1] and leaves the loop; if none is reached
    [newMotion] keeps the value it had before the loop. *)
Fixpoint scanFrom (n : nat) (thresholds : list JS.number)
         (effective : JS.number) (newMotion : Z) : Z :=
  match n with
  | O => newMotion
  | S level =>
      if JS.ge effective (JS.toNumber (thresholds !! level))
      then (Z.of_nat level + 1)%Z
      else scanFrom level thresholds effective newMotion
  end.

(** The indices of [motionThresholds] the loop reads, in order. *)
Fixpoint scanReads (n : nat) (thresholds : list JS.number)
         (effective : JS.number) : list nat :=
  match n with
  | O => []
  | S level =>
      level ::
      (if JS.ge effective (JS.toNumber (thresholds !! level))
       then []
       else scanReads level thresholds effective)
  end.

(** [newMotion] after the loop, which starts from [this.motion]. *)
Definition newMotionScan (this : t) (effective : JS.number) : Z :=
  scanFrom 6 (motionThresholds this) effective (motion this).

(** [this.motionThresholds[i]] for an integer [i]. *)
Definition thresholdAt (this : t) (i : Z) : option JS.number :=
  if (i <? 0)%Z then None else motionThresholds this !! Z.to_nat i.

(** [newMotion] after the check for decreases. *)
Definition newMotionHysteresis (this : t) (effective : JS.number) : Z :=
  let newMotion := newMotionScan this effective in
  if (newMotion <? motion this)%Z then
    let thresholdIndex := (motion this - 1)%Z in
    if (0 <=? thresholdIndex)%Z
       && JS.gt effective
                (JS.toNumber (thresholdAt this thresholdIndex) - hysteresis this)
    then motion this
    else newMotion
  else newMotion.

(** The condition under which the stuck-motion reset sets
    [newMotion = 0]. *)
Definition stuckReset (this : t) (effective : JS.number) (now : Z) : bool :=
  (0 <? motion this)%Z
  && (newMotionHysteresis this effective =? motion this)%Z
  && JS.lt effective (deadzone this)
  && (2000 <? now - lastMotionTime this)%Z.

(** [newMotion] after the stuck-motion reset. *)
Definition newMotionStuck (this : t) (effective : JS.number) (now : Z) : Z :=
  if stuckReset this effective now then 0%Z
  else newMotionHysteresis this effective.

Definition alpha : JS.number := 0.15.

(** [update(x, y, z)]; [now] is what [Date.now()] returns during the
    call. *)
Definition update (ax ay az : JS.number) (now : Z) (this : t) : t :=
  if JS.isNaN ax || JS.isNaN ay || JS.isNaN az then this
  else if calibrating this then
    let collected :=
      {| id := id this; color := color this; lastUpdate := lastUpdate this;
         x := ax; y := ay; z := az;
         rawX := ax; rawY := ay; rawZ := az;
         calibrating := true;
         calibrationData := calibrationData this ++ [mkSample ax ay az];
         baseX := baseX this; baseY := baseY this; baseZ := baseZ this;
         deadzone := deadzone this;
         calibrationNoise := calibrationNoise this;
         motionThresholds := motionThresholds this;
         motion := motion this;
         distance := distance this;
         calibrationQuality := calibrationQuality this;
         lastMotionTime := lastMotionTime this |} in
    let calibrated :=
      if (60 <=? length (calibrationData collected))%nat
      then finishCalibration collected
      else collected in
    {| id := id calibrated; color := color calibrated;
       lastUpdate := now;
       x := x calibrated; y := y calibrated; z := z calibrated;
       rawX := rawX calibrated; rawY := rawY calibrated;
       rawZ := rawZ calibrated;
       calibrating := calibrating calibrated;
       calibrationData := calibrationData calibrated;
       baseX := baseX calibrated; baseY := baseY calibrated;
       baseZ := baseZ calibrated;
       deadzone := deadzone calibrated;
       calibrationNoise := calibrationNoise calibrated;
       motionThresholds := motionThresholds calibrated;
       motion := motion calibrated;
       distance := distance calibrated;
       calibrationQuality := calibrationQuality calibrated;
       lastMotionTime := lastMotionTime calibrated |}
  else
    let euclidean := euclideanDistance this ax ay az in
    let effective := applyDeadzone this euclidean in
    let newMotion := newMotionStuck this effective now in
    {| id := id this; color := color this;
       lastUpdate := now;
       x := x this + (ax - x this) * alpha;
       y := y this + (ay - y this) * alpha;
       z := z this + (az - z this) * alpha;
       rawX := ax; rawY := ay; rawZ := az;
       calibrating := calibrating this;
       calibrationData := calibrationData this;
       baseX := baseX this; baseY := baseY this; baseZ := baseZ this;
       deadzone := deadzone this;
       calibrationNoise := calibrationNoise this;
       motionThresholds := motionThresholds this;
       motion := Z.min 5 newMotion;
       distance := euclidean;
       calibrationQuality := calibrationQuality this;
       lastMotionTime :=
         if (newMotion =? motion this)%Z then lastMotionTime this else now |}.

(** [isActive()]. *)
Definition isActive (now : Z) (this : t) : bool :=
  (now - lastUpdate this <? 5000)%Z.

(** [getMotionLabel()]: the entry at index [this.motion], [undefined]
    (here [None]) outside the array. *)
Definition getMotionLabel (this : t) : option string :=
  if (motion this <? 0)%Z then None
  else ["STILL"; "MICRO"; "SLIGHT"; "MODERATE"; "ACTIVE"; "ENERGETIC"]%string
       !! Z.to_nat (motion this).

(** [getMotionColor()]. *)
Definition getMotionColor (this : t) : option (list Z) :=
  if (motion this <? 0)%Z then None
  else [ [80; 80; 80]; [120; 120; 200]; [100; 200; 100];
         [255; 200; 0]; [255; 140; 60]; [255; 100; 100] ]%Z
       !! Z.to_nat (motion this).

(** A run of [update] calls, oldest sample first; each entry carries the
    sample and the time of its call. *)
Definition feed (samples : list (Sample * Z)) (this : t) : t :=
  fold_left
    (fun s '(d, now) => update (sampleX d) (sampleY d) (sampleZ d) now s)
    samples this.

End DataStream.

(** ** The message parser and the stream table of [sketch.js] *)

(** The regular expressions of [parseMessage], each as the function that
    returns its capture group when the expression matches. *)
Module Pattern.

(** The class [[1-6]]; the captured digit, read by [parseInt]. *)
Definition streamDigit (c : ascii) : option Z :=
  let n := nat_of_ascii c in
  if ((49 <=? n) && (n <=? 54))%nat then Some (JS.digitValue c) else None.

(** [/^S([1-6])$/]: the letter, one digit, and the end of the text. *)
Definition registration (msg : string) : option Z :=
  match msg with
  | String "S" (String d EmptyString) => streamDigit d
  | _ => None
  end.

(** [/^m([1-6])/]: the letter and one digit; whatever follows is not
    looked at. *)
Definition data (msg : string) : option Z :=
  match msg with
  | String "m" (String d _) => streamDigit d
  | _ => None
  end.

(** The longest run of characters of the class [[^,\s]]. *)
Fixpoint token (s : string) : string :=
  match s with
  | String c rest =>
      if Ascii.eqb c "," || JS.isSpace c then EmptyString
      else String c (token rest)
  | EmptyString => EmptyString
  end.

(** [/k=([^,\s]+)/] for an axis letter [k]: the first place where the
    letter and the equals sign are followed by at least one character of
    the class. *)
Fixpoint axis (k : ascii) (msg : string) : option string :=
  match msg with
  | String c rest =>
      if Ascii.eqb c k then
        match rest with
        | String "=" value =>
            match token value with
            | EmptyString => axis k rest
            | tok => Some tok
            end
        | _ => axis k rest
        end
      else axis k rest
  | EmptyString => None
  end.

End Pattern.

(** The globals [parseMessage] works on: the table [streamData], keyed by
    stream id, and [messageCount]. *)
Record Globals : Type := mkGlobals {
  streamData : gmap Z DataStream.t;
  messageCount : Z
}.

Definition initialGlobals : Globals :=
  {| streamData := ∅; messageCount := 0 |}.

(** [if (!streamData[id]) streamData[id] = new DataStream(id)]. *)
Definition ensureStream (id : Z) (now : Z)
           (table : gmap Z DataStream.t) : gmap Z DataStream.t :=
  match table !! id with
  | Some _ => table
  | None => <[id := DataStream.new id now]> table
  end.

(** [parseMessage(msg)]; [now] is what [Date.now()] returns during the
    call. *)
Definition parseMessage (msg : string) (now : Z) (g : Globals) : Globals :=
  let count := messageCount g + 1 in
  match Pattern.registration msg with
  | Some id =>
      {| streamData := ensureStream id now (streamData g);
         messageCount := count |}
  | None =>
      match Pattern.data msg with
      | Some id =>
          let table := ensureStream id now (streamData g) in
          match Pattern.axis "x" msg, Pattern.axis "y" msg,
                Pattern.axis "z" msg with
          | Some xm, Some ym, Some zm =>
              {| streamData :=
                   alter (DataStream.update (JS.parseFloat xm)
                                            (JS.parseFloat ym)
                                            (JS.parseFloat zm) now)
                         id table;
                 messageCount := count |}
          | _, _, _ => {| streamData := table; messageCount := count |}
          end
      | None => {| streamData := streamData g; messageCount := count |}
      end
  end.

(** The ['c'] / ['C'] branch of [keyPressed]: every active stream starts a
    calibration. *)
Definition recalibrateAll (now : Z) (g : Globals) : Globals :=
  {| streamData :=
       (fun s => if DataStream.isActive now s
                 then DataStream.startCalibration s else s) <$> streamData g;
     messageCount := messageCount g |}.

(** A run of [parseMessage] calls, oldest line first, each with the time
    of its call. *)
Definition parseAll (lines : list (string * Z)) (g : Globals) : Globals :=
  fold_left (fun acc '(msg, now) => parseMessage msg now acc) lines g.


(** ** The ingestion scheduler of the graph sketch

    The serial part of [draw] and [clearSerialBuffer], with the globals
    they read and write.  What is done with one line
    ([parseSerialMessage]) acts on the stream table and the message
    counter only; the scheduler is stated over any such handler. *)

(** What [port.readUntil] gives back when no complete line is buffered:
    the scheduler's two loops test for [null] and for the empty string. *)
Inductive NoData : Type :=
| ReturnsNull
| ReturnsEmptyString.

(** The serial port: whether it is open, and the complete lines received
    and not yet read, oldest first. *)
Record Port : Type := mkPort {
  opened : bool;
  pendingLines : list string
}.

(** The lines the sketch writes with [console.log] from these two
    functions. *)
Inductive LogLine : Type :=
| AutoClearing                (* "Auto-clearing buffer due to sustained backlog..." *)
| Cleared (cleared : nat)     (* "Cleared ${cleared} buffered messages ..." *)
| ExtremelyFull.              (* "Buffer was extremely full ..." *)

Definition MAX_MESSAGES_PER_FRAME : nat := 20.
Definition AUTO_CLEAR_THRESHOLD : nat := 60.
Definition MAX_CLEAR : nat := 1000.

Module Scheduler.
Section WithHandler.

Variable App : Type.
Variable parseSerialMessage : string -> App -> App.
Variable noData : NoData.

Record t : Type := mk {
  port : Port;
  app : App;
  bufferBacklogDetected : bool;
  consecutiveBacklogFrames : nat;
  console : list LogLine
}.

(** [port.readUntil("\n")]: the oldest pending line, which is taken out
    of the buffer. *)
Definition readUntil (p : Port) : option string * Port :=
  match pendingLines p with
  | line :: rest => (Some line, {| opened := opened p; pendingLines := rest |})
  | [] =>
      (match noData with
       | ReturnsNull => None
       | ReturnsEmptyString => Some EmptyString
       end, p)
  end.

(** The loop [while (messagesThisFrame < MAX_MESSAGES_PER_FRAME)] of
    [draw]; [budget] is [MAX_MESSAGES_PER_FRAME - messagesThisFrame],
    which every turn of the loop that does not leave it lowers by one. *)
Fixpoint readLoop (budget : nat) (messagesThisFrame : nat)
         (p : Port) (a : App) : nat * Port * App :=
  match budget with
  | O => (messagesThisFrame, p, a)
  | S budget' =>
      let '(data, p') := readUntil p in
      match data with
      | Some line =>
          if (0 <? String.length line)%nat
          then readLoop budget' (S messagesThisFrame) p'
                        (parseSerialMessage (JS.trim line) a)
          else (messagesThisFrame, p', a)
      | None => (messagesThisFrame, p', a)
      end
  end.

(** The loop [while (cleared < MAX_CLEAR)] of [clearSerialBuffer];
    [budget] is [MAX_CLEAR - cleared]. *)
Fixpoint clearLoop (budget : nat) (cleared : nat) (p : Port) : nat * Port :=
  match budget with
  | O => (cleared, p)
  | S budget' =>
      let '(msg, p') := readUntil p in
      match msg with
      | None => (cleared, p')
      | Some _ => clearLoop budget' (S cleared) p'
      end
  end.

(** [clearSerialBuffer()], with the count it returns. *)
Definition clearSerialBuffer (st : t) : nat * t :=
  if negb (opened (port st)) then (O, st)
  else
    let '(cleared, p) := clearLoop MAX_CLEAR 0 (port st) in
    (cleared,
     {| port := p;
        app := app st;
        bufferBacklogDetected := false;
        consecutiveBacklogFrames := 0;
        console :=
          console st ++ [Cleared cleared]
          ++ (if (MAX_CLEAR <=? cleared)%nat then [ExtremelyFull] else []) |}).

(** The serial part of [draw()]: one tick of the scheduler. *)
Definition draw (st : t) : t :=
  if opened (port st) then
    let '(messagesThisFrame, p, a) :=
      readLoop MAX_MESSAGES_PER_FRAME 0 (port st) (app st) in
    if (MAX_MESSAGES_PER_FRAME <=? messagesThisFrame)%nat then
      let frames := S (consecutiveBacklogFrames st) in
      if (AUTO_CLEAR_THRESHOLD <=? frames)%nat then
        let st1 :=
          {| port := p; app := a;
             bufferBacklogDetected := true;
             consecutiveBacklogFrames := frames;
             console := console st ++ [AutoClearing] |} in
        let st2 := snd (clearSerialBuffer st1) in
        {| port := port st2; app := app st2;
           bufferBacklogDetected := bufferBacklogDetected st2;
           consecutiveBacklogFrames := 0;
           console := console st2 |}
      else
        {| port := p; app := a;
           bufferBacklogDetected := true;
           consecutiveBacklogFrames := frames;
           console := console st |}
    else
      {| port := p; app := a;
         bufferBacklogDetected := false;
         consecutiveBacklogFrames := 0;
         console := console st |}
  else st.

(** [k] ticks in a row, with nothing arriving in between. *)
Fixpoint ticks (k : nat) (st : t) : t :=
  match k with
  | O => st
  | S k' => ticks k' (draw st)
  end.

(** The number of messages the tick hands to [parseSerialMessage]. *)
Definition drained (st : t) : nat :=
  fst (fst (readLoop MAX_MESSAGES_PER_FRAME 0 (port st) (app st))).

Definition isAutoClearing (l : LogLine) : bool :=
  match l with
  | AutoClearing => true
  | _ => false
  end.

(** The number of purges the scheduler has announced. *)
Definition purgeEvents (st : t) : nat :=
  length (List.filter isAutoClearing (console st)).

Definition pending (st : t) : nat := length (pendingLines (port st)).

End WithHandler.
End Scheduler.

Arguments Scheduler.mk {App}.
Arguments Scheduler.port {App}.
Arguments Scheduler.app {App}.
Arguments Scheduler.bufferBacklogDetected {App}.
Arguments Scheduler.consecutiveBacklogFrames {App}.
Arguments Scheduler.console {App}.
Arguments Scheduler.purgeEvents {App}.
Arguments Scheduler.pending {App}.

Definition newline : string := String (ascii_of_nat 10) EmptyString.

(** A burst: [n] copies of one data line waiting in an open port, no
    backlog counted so far, nothing logged. *)
Definition burst (n : nat) : Scheduler.t unit :=
  Scheduler.mk
    {| opened := true;
       pendingLines := repeat ("m1 x=1 y=2 z=3" ++ newline)%string n |}
    tt false 0%nat [].

(** A handler that leaves the table alone. *)
Definition ignoreLine (_ : string) (a : unit) : unit := a.

(** ** Vocabulary of the statements *)

(** The test at the head of [update], on a sample. *)
Definition rejected (ax ay az : JS.number) : bool :=
  JS.isNaN ax || JS.isNaN ay || JS.isNaN az.

(** A calibration entry that [update] does not turn away. *)
Definition validSample (d : Sample) : bool :=
  negb (rejected (sampleX d) (sampleY d) (sampleZ d)).

(** The bound of the decrease check:
    [motionThresholds[motion - 1] - hysteresis]. *)
Definition decreaseBound (this : DataStream.t) : JS.number :=
  (JS.toNumber (DataStream.thresholdAt this (DataStream.motion this - 1))
   - DataStream.hysteresis this)%float.

(** ** Streams used as examples *)

(** Stream 1 after sixty samples at rest: baseline 0, noise 0, deadzone
    250, thresholds 300, 540, 1050, 1800, 3000, 4800. *)
Definition restingStream : DataStream.t :=
  DataStream.feed (repeat (mkSample 0 0 0, 0) 60) (DataStream.new 1 0).

(** The resting stream after a sample 600 mg away: level 2. *)
Definition slightStream : DataStream.t :=
  DataStream.update 600 0 0 100 restingStream.

(** The resting stream after a sample 1100 mg away: level 3. *)
Definition moderateStream : DataStream.t :=
  DataStream.update 1100 0 0 100 restingStream.

(** ** Runs of samples *)

(** The number of calls in a run at which the stream goes from
    calibrating to calibrated.  [calibrating] is cleared at the end of
    [finishCalibration] and nowhere else, so this is the number of times
    [finishCalibration] ran. *)
Fixpoint completions (samples : list (Sample * Z)) (this : DataStream.t) : nat :=
  match samples with
  | [] => O
  | (d, now) :: rest =>
      let next := DataStream.update (sampleX d) (sampleY d) (sampleZ d) now this in
      ((if DataStream.calibrating this && negb (DataStream.calibrating next)
        then 1 else 0) + completions rest next)%nat
  end.

(** Every sample of a run passes the [isNaN] test. *)
Definition allValid (samples : list (Sample * Z)) : Prop :=
  Forall (fun entry => validSample (fst entry) = true) samples.

(** The display values. *)
Definition smoothed (this : DataStream.t) : JS.number * JS.number * JS.number :=
  (DataStream.x this, DataStream.y this, DataStream.z this).

(** What a calibration computes and a sample must not touch: the
    baseline, the noise and its quality, the deadzone, the thresholds. *)
Definition calibrationResult (this : DataStream.t) :
  JS.number * JS.number * JS.number * JS.number * Quality
  * JS.number * list JS.number :=
  (DataStream.baseX this, DataStream.baseY this, DataStream.baseZ this,
   DataStream.calibrationNoise this, DataStream.calibrationQuality this,
   DataStream.deadzone this, DataStream.motionThresholds this).

(** The coordinates of the last sample of a run, or the given display
    values when the run is empty. *)
Definition lastShown (samples : list (Sample * Z))
           (shown : JS.number * JS.number * JS.number) :
  JS.number * JS.number * JS.number :=
  match last samples with
  | Some (d, _) => (sampleX d, sampleY d, sampleZ d)
  | None => shown
  end.

(** ** Reachable streams *)

(** The streams the sketch can hold: made by the constructor, and changed
    only by [update] and [startCalibration]. *)
Inductive reachable : DataStream.t -> Prop :=
| reachable_new (id now : Z) :
    reachable (DataStream.new id now)
| reachable_update (ax ay az : JS.number) (now : Z) (this : DataStream.t) :
    reachable this -> reachable (DataStream.update ax ay az now this)
| reachable_startCalibration (this : DataStream.t) :
    reachable this -> reachable (DataStream.startCalibration this).

(** The indices at which one call of [update] reads [motionThresholds],
    in order: index 0 for the hysteresis, the indices of the scan, and
    index [motion - 1] in the decrease check; none when the sample is
    turned away or the stream is calibrating. *)
Definition thresholdReads (ax ay az : JS.number) (this : DataStream.t) : list Z :=
  if rejected ax ay az then []
  else if DataStream.calibrating this then []
  else
    let effective := DataStream.effectiveDistance this ax ay az in
    let thresholdIndex := DataStream.motion this - 1 in
    [0]
    ++ map Z.of_nat
         (DataStream.scanReads 6 (DataStream.motionThresholds this) effective)
    ++ (if (DataStream.newMotionScan this effective <? DataStream.motion this)
           && (0 <=? thresholdIndex)
        then [thresholdIndex] else []).

(** An index that is inside the array. *)
Definition inBounds (this : DataStream.t) (i : Z) : Prop :=
  0 <= i < Z.of_nat (length (DataStream.motionThresholds this)).

(** ** Still samples *)

(** A sample that [update] accepts and whose effective distance passes
    the test [effectiveDistance < this.deadzone] of the stuck-motion
    reset. *)
Definition stillSample (this : DataStream.t) (entry : Sample * Z) : Prop :=
  validSample (fst entry) = true
  /\ JS.lt (DataStream.effectiveDistance this (sampleX (fst entry))
              (sampleY (fst entry)) (sampleZ (fst entry)))
           (DataStream.deadzone this) = true.

(** No threshold is reached by the distance 0. *)
Definition thresholdsAboveZero (this : DataStream.t) : Prop :=
  Forall (fun t => JS.ge 0 t = false) (DataStream.motionThresholds this).

(** The number of calls in a run at which the stuck-motion reset sets
    [newMotion = 0]. *)
Fixpoint resetsFired (samples : list (Sample * Z)) (this : DataStream.t) : nat :=
  match samples with
  | [] => O
  | (d, now) :: rest =>
      let fired :=
        negb (rejected (sampleX d) (sampleY d) (sampleZ d))
        && negb (DataStream.calibrating this)
        && DataStream.stuckReset this
             (DataStream.effectiveDistance this (sampleX d) (sampleY d) (sampleZ d))
             now in
      ((if fired then 1 else 0)
       + resetsFired rest
           (DataStream.update (sampleX d) (sampleY d) (sampleZ d) now this))%nat
  end.

(** ** Vocabulary for the scheduler *)

(** The lines still pending once the reading loop of a tick is over,
    before any purge. *)
Definition pendingAfterDrain {App : Type}
           (parseSerialMessage : string -> App -> App) (noData : NoData)
           (st : Scheduler.t App) : nat :=
  length (pendingLines
            (snd (fst (Scheduler.readLoop App parseSerialMessage noData
                         MAX_MESSAGES_PER_FRAME 0
                         (Scheduler.port st) (Scheduler.app st))))).

(** The port is open and every pending line has at least its line end. *)
Definition linesWaiting {App : Type} (st : Scheduler.t App) : Prop :=
  opened (Scheduler.port st) = true
  /\ Forall (fun line => (0 <? String.length line)%nat = true)
            (pendingLines (Scheduler.port st)).

(** ** Reachable tables *)

(** The globals the sketch can reach: the initial ones, changed only by
    [parseMessage] and by the recalibration key. *)
Inductive reachableGlobals : Globals -> Prop :=
| reachable_initial : reachableGlobals initialGlobals
| reachable_parseMessage (msg : string) (now : Z) (g : Globals) :
    reachableGlobals g -> reachableGlobals (parseMessage msg now g)
| reachable_recalibrateAll (now : Z) (g : Globals) :
    reachableGlobals g -> reachableGlobals (recalibrateAll now g).

(** ** The two micro:bit programs and the serial part of [draw] *)

(** [microbit-sender.js]: the registration text sent at start-up and the
    data line sent in the loop, for a stream id and three integer
    accelerations in mg. *)
Module Sender.

Definition hello (id : Z) : string := ("S" ++ JS.integerToString id)%string.

Definition line (id ax ay az : Z) : string :=
  ("m" ++ JS.integerToString id
   ++ " x=" ++ JS.integerToString ax
   ++ " y=" ++ JS.integerToString ay
   ++ " z=" ++ JS.integerToString az)%string.

End Sender.

(** The receiver program: every text received by radio is written to
    the serial line with a line end. *)
Module Receiver.

Definition forward (receivedString : string) : string :=
  (receivedString ++ newline)%string.

End Receiver.

(** The serial part of [draw] in [sketch.js]: up to fifty lines a frame,
    each trimmed and parsed; the loop stops at the first read that gives
    nothing.  [clock i] is what [Date.now()] returns while line [i] of
    the frame is parsed. *)
Module Monitor.

Record t : Type := mk {
  port : Port;
  globals : Globals
}.

(** The loop [for (let i = 0; i < 50; i++)], entered at index [i] with
    [budget = 50 - i]. *)
Fixpoint readLines (noData : NoData) (clock : nat -> Z) (budget i : nat)
         (p : Port) (g : Globals) : Port * Globals :=
  match budget with
  | O => (p, g)
  | S budget' =>
      let '(data, p') := Scheduler.readUntil noData p in
      match data with
      | None => (p', g)
      | Some EmptyString => (p', g)
      | Some line =>
          readLines noData clock budget' (S i) p'
                    (parseMessage (JS.trim line) (clock i) g)
      end
  end.

Definition draw (noData : NoData) (clock : nat -> Z) (st : t) : t :=
  if opened (port st) then
    let '(p, g) := readLines noData clock 50 0 (port st) (globals st) in
    {| port := p; globals := g |}
  else st.

End Monitor.

(** The lines of a frame with the time each is parsed at, counted from
    index [i]. *)
Fixpoint stamped (clock : nat -> Z) (i : nat) (lines : list string) :
  list (string * Z) :=
  match lines with
  | [] => []
  | line :: rest => (JS.trim line, clock i) :: stamped clock (S i) rest
  end.

(** ** The stream class and the parser of the graph sketch *)

(** The two p5 helpers [finishCalibration] uses. *)
Module P5.

(** [map(n, start1, stop1, start2, stop2)], without bounds. *)
Definition map (n start1 stop1 start2 stop2 : JS.number) : JS.number :=
  ((n - start1) / (stop1 - start1) * (stop2 - start2) + start2)%float.

(** [constrain(n, low, high)]. *)
Definition constrain (n low high : JS.number) : JS.number :=
  JS.max (JS.min n high) low.

End P5.

Definition maxDataPoints : nat := 200.

Module GraphStream.

Local Open Scope float_scope.

Record t : Type := mk {
  id : Z;
  xData : list JS.number;
  yData : list JS.number;
  zData : list JS.number;
  showX : bool;
  showY : bool;
  showZ : bool;
  baselineX : JS.number;
  baselineY : JS.number;
  baselineZ : JS.number;
  isCalibrated : bool;
  maxDeviationX : JS.number;
  maxDeviationY : JS.number;
  maxDeviationZ : JS.number;
  smoothedX : JS.number;
  smoothedY : JS.number;
  smoothedZ : JS.number;
  smoothingFactor : JS.number;
  isCalibrating : bool;
  calibrationSamples : list Sample;
  calibrationFrames : nat;
  noiseThresholdX : JS.number;
  noiseThresholdY : JS.number;
  noiseThresholdZ : JS.number;
  colors : list (list Z);
  lastUpdate : Z
}.

(** [getColorGradient(id)]: the three colours of axis x, y and z; the
    empty list stands for [undefined]. *)
Definition getColorGradient (id0 : Z) : list (list Z) :=
  let gradients : list (list (list Z)) :=
    [ [ [135; 206; 250]; [70; 130; 180]; [25; 25; 112] ];
      [ [144; 238; 144]; [60; 179; 113]; [0; 100; 0] ];
      [ [255; 180; 100]; [255; 140; 60]; [255; 100; 20] ];
      [ [216; 191; 216]; [147; 112; 219]; [75; 0; 130] ];
      [ [255; 182; 193]; [255; 105; 180]; [199; 21; 133] ];
      [ [255; 255; 153]; [255; 215; 0]; [218; 165; 32] ] ]%Z in
  let i := Z.rem (id0 - 1) (Z.of_nat (length gradients)) in
  if (i <? 0)%Z then [] else nth (Z.to_nat i) gradients [].

(** [new DataStream(id)]. *)
Definition new (id0 : Z) (now : Z) : t :=
  {| id := id0;
     xData := []; yData := []; zData := [];
     showX := true; showY := true; showZ := true;
     baselineX := 0; baselineY := 0; baselineZ := 0;
     isCalibrated := false;
     maxDeviationX := 1000; maxDeviationY := 1000; maxDeviationZ := 1000;
     smoothedX := 0; smoothedY := 0; smoothedZ := 0;
     smoothingFactor := 0.2;
     isCalibrating := false;
     calibrationSamples := [];
     calibrationFrames := 0;
     noiseThresholdX := 0; noiseThresholdY := 0; noiseThresholdZ := 0;
     colors := getColorGradient id0;
     lastUpdate := now |}.

(** A value within the noise threshold of the baseline is replaced by
    the baseline. *)
Definition snap (v baseline threshold : JS.number) : JS.number :=
  if JS.lt (PrimFloat.abs (v - baseline)) threshold then baseline else v.

(** [this.xData.push(x)] and, when the x array has grown past
    [maxDataPoints], [shift()]. *)
Definition pushed (tooLong : bool) (data : list JS.number) (v : JS.number) :
  list JS.number :=
  if tooLong then drop 1 (data ++ [v]) else data ++ [v].

(** [addDataPoint(x, y, z)]. *)
Definition addDataPoint (vx vy vz : JS.number) (now : Z) (this : t) : t :=
  let calibrated := isCalibrated this in
  let vx' := if calibrated then snap vx (baselineX this) (noiseThresholdX this)
             else vx in
  let vy' := if calibrated then snap vy (baselineY this) (noiseThresholdY this)
             else vy in
  let vz' := if calibrated then snap vz (baselineZ this) (noiseThresholdZ this)
             else vz in
  let tooLong := (maxDataPoints <? length (xData this ++ [vx']))%nat in
  {| id := id this;
     xData := pushed tooLong (xData this) vx';
     yData := pushed tooLong (yData this) vy';
     zData := pushed tooLong (zData this) vz';
     showX := showX this; showY := showY this; showZ := showZ this;
     baselineX := baselineX this; baselineY := baselineY this;
     baselineZ := baselineZ this;
     isCalibrated := calibrated;
     maxDeviationX :=
       if calibrated
       then JS.max (maxDeviationX this) (PrimFloat.abs (vx' - baselineX this))
       else maxDeviationX this;
     maxDeviationY :=
       if calibrated
       then JS.max (maxDeviationY this) (PrimFloat.abs (vy' - baselineY this))
       else maxDeviationY this;
     maxDeviationZ :=
       if calibrated
       then JS.max (maxDeviationZ this) (PrimFloat.abs (vz' - baselineZ this))
       else maxDeviationZ this;
     smoothedX := smoothedX this; smoothedY := smoothedY this;
     smoothedZ := smoothedZ this;
     smoothingFactor := smoothingFactor this;
     isCalibrating := isCalibrating this;
     calibrationSamples := calibrationSamples this;
     calibrationFrames := calibrationFrames this;
     noiseThresholdX := noiseThresholdX this;
     noiseThresholdY := noiseThresholdY this;
     noiseThresholdZ := noiseThresholdZ this;
     colors := colors this;
     lastUpdate := now |}.

(** [startCalibration()]: nothing happens while the smoothed values are
    all 0. *)
Definition startCalibration (this : t) : t :=
  if negb (JS.isZero (smoothedX this)) || negb (JS.isZero (smoothedY this))
     || negb (JS.isZero (smoothedZ this))
  then
    {| id := id this;
       xData := xData this; yData := yData this; zData := zData this;
       showX := showX this; showY := showY this; showZ := showZ this;
       baselineX := baselineX this; baselineY := baselineY this;
       baselineZ := baselineZ this;
       isCalibrated := isCalibrated this;
       maxDeviationX := maxDeviationX this;
       maxDeviationY := maxDeviationY this;
       maxDeviationZ := maxDeviationZ this;
       smoothedX := smoothedX this; smoothedY := smoothedY this;
       smoothedZ := smoothedZ this;
       smoothingFactor := smoothingFactor this;
       isCalibrating := true;
       calibrationSamples := [];
       calibrationFrames := 0;
       noiseThresholdX := noiseThresholdX this;
       noiseThresholdY := noiseThresholdY this;
       noiseThresholdZ := noiseThresholdZ this;
       colors := colors this;
       lastUpdate := lastUpdate this |}
  else this.

(** [calculateStdDev(samples, axis)], the axis given as its getter. *)
Definition calculateStdDev (samples : list Sample)
           (axis : Sample -> JS.number) : JS.number :=
  let n := JS.of_nat (length samples) in
  let mean := DataStream.sumOf axis samples / n in
  let variance :=
    DataStream.sumOf (fun s => DataStream.pow2 (axis s - mean)) samples / n in
  PrimFloat.sqrt variance.

(** [finishCalibration()]. *)
Definition finishCalibration (this : t) : t :=
  let samples := calibrationSamples this in
  if (length samples <? 30)%nat then
    {| id := id this;
       xData := xData this; yData := yData this; zData := zData this;
       showX := showX this; showY := showY this; showZ := showZ this;
       baselineX := baselineX this; baselineY := baselineY this;
       baselineZ := baselineZ this;
       isCalibrated := isCalibrated this;
       maxDeviationX := maxDeviationX this;
       maxDeviationY := maxDeviationY this;
       maxDeviationZ := maxDeviationZ this;
       smoothedX := smoothedX this; smoothedY := smoothedY this;
       smoothedZ := smoothedZ this;
       smoothingFactor := smoothingFactor this;
       isCalibrating := false;
       calibrationSamples := samples;
       calibrationFrames := calibrationFrames this;
       noiseThresholdX := noiseThresholdX this;
       noiseThresholdY := noiseThresholdY this;
       noiseThresholdZ := noiseThresholdZ this;
       colors := colors this;
       lastUpdate := lastUpdate this |}
  else
    let stdX := calculateStdDev samples sampleX in
    let stdY := calculateStdDev samples sampleY in
    let stdZ := calculateStdDev samples sampleZ in
    let avgNoise := (stdX + stdY + stdZ) / 3 in
    let n := JS.of_nat (length samples) in
    let baseX := DataStream.sumOf sampleX samples / n in
    let baseY := DataStream.sumOf sampleY samples / n in
    let baseZ := DataStream.sumOf sampleZ samples / n in
    {| id := id this;
       xData := repeat baseX maxDataPoints;
       yData := repeat baseY maxDataPoints;
       zData := repeat baseZ maxDataPoints;
       showX := showX this; showY := showY this; showZ := showZ this;
       baselineX := baseX; baselineY := baseY; baselineZ := baseZ;
       isCalibrated := true;
       maxDeviationX := 100; maxDeviationY := 100; maxDeviationZ := 100;
       smoothedX := baseX; smoothedY := baseY; smoothedZ := baseZ;
       smoothingFactor :=
         P5.constrain (P5.map avgNoise 5 50 0.05 0.5) 0.05 0.5;
       isCalibrating := false;
       calibrationSamples := samples;
       calibrationFrames := calibrationFrames this;
       noiseThresholdX := stdX * 2;
       noiseThresholdY := stdY * 2;
       noiseThresholdZ := stdZ * 2;
       colors := colors this;
       lastUpdate := lastUpdate this |}.

(** [addCalibrationSample(x, y, z)]. *)
Definition addCalibrationSample (vx vy vz : JS.number) (this : t) : t :=
  let collected :=
    {| id := id this;
       xData := xData this; yData := yData this; zData := zData this;
       showX := showX this; showY := showY this; showZ := showZ this;
       baselineX := baselineX this; baselineY := baselineY this;
       baselineZ := baselineZ this;
       isCalibrated := isCalibrated this;
       maxDeviationX := maxDeviationX this;
       maxDeviationY := maxDeviationY this;
       maxDeviationZ := maxDeviationZ this;
       smoothedX := smoothedX this; smoothedY := smoothedY this;
       smoothedZ := smoothedZ this;
       smoothingFactor := smoothingFactor this;
       isCalibrating := isCalibrating this;
       calibrationSamples := calibrationSamples this ++ [mkSample vx vy vz];
       calibrationFrames := S (calibrationFrames this);
       noiseThresholdX := noiseThresholdX this;
       noiseThresholdY := noiseThresholdY this;
       noiseThresholdZ := noiseThresholdZ this;
       colors := colors this;
       lastUpdate := lastUpdate this |} in
  if (30 <=? calibrationFrames collected)%nat
  then finishCalibration collected
  else collected.

(** [isActive()]. *)
Definition isActive (now : Z) (this : t) : bool :=
  (now - lastUpdate this <? 5000)%Z.

(** [smoothValue(currentSmoothed, newValue, factor)]. *)
Definition smoothValue (currentSmoothed newValue factor : JS.number) :
  JS.number :=
  currentSmoothed + (newValue - currentSmoothed) * factor.

(** The assignment of the three smoothed values. *)
Definition withSmoothed (sx sy sz : JS.number) (this : t) : t :=
  {| id := id this;
     xData := xData this; yData := yData this; zData := zData this;
     showX := showX this; showY := showY this; showZ := showZ this;
     baselineX := baselineX this; baselineY := baselineY this;
     baselineZ := baselineZ this;
     isCalibrated := isCalibrated this;
     maxDeviationX := maxDeviationX this;
     maxDeviationY := maxDeviationY this;
     maxDeviationZ := maxDeviationZ this;
     smoothedX := sx; smoothedY := sy; smoothedZ := sz;
     smoothingFactor := smoothingFactor this;
     isCalibrating := isCalibrating this;
     calibrationSamples := calibrationSamples this;
     calibrationFrames := calibrationFrames this;
     noiseThresholdX := noiseThresholdX this;
     noiseThresholdY := noiseThresholdY this;
     noiseThresholdZ := noiseThresholdZ this;
     colors := colors this;
     lastUpdate := lastUpdate this |}.

(** What [parseSerialMessage] does with the stream once the three values
    are there: a calibrating stream collects the sample and that is
    all; otherwise the values are smoothed (the first ones are taken as
    they are) and the smoothed values are plotted. *)
Definition receive (vx vy vz : JS.number) (now : Z) (this : t) : t :=
  if isCalibrating this then addCalibrationSample vx vy vz this
  else
    let smoothed :=
      if JS.isZero (smoothedX this) && JS.isZero (smoothedY this)
         && JS.isZero (smoothedZ this)
      then withSmoothed vx vy vz this
      else
        withSmoothed
          (smoothValue (smoothedX this) vx (smoothingFactor this))
          (smoothValue (smoothedY this) vy (smoothingFactor this))
          (smoothValue (smoothedZ this) vz (smoothingFactor this))
          this in
    addDataPoint (smoothedX smoothed) (smoothedY smoothed) (smoothedZ smoothed)
                 now smoothed.

(** The assignments of [keyPressed] to one stream: the three visibility
    flags (keys 1 to 6) and the smoothing factor (keys + and -). *)
Definition withSettings (sx sy sz : bool) (factor : JS.number) (this : t) : t :=
  {| id := id this;
     xData := xData this; yData := yData this; zData := zData this;
     showX := sx; showY := sy; showZ := sz;
     baselineX := baselineX this; baselineY := baselineY this;
     baselineZ := baselineZ this;
     isCalibrated := isCalibrated this;
     maxDeviationX := maxDeviationX this;
     maxDeviationY := maxDeviationY this;
     maxDeviationZ := maxDeviationZ this;
     smoothedX := smoothedX this; smoothedY := smoothedY this;
     smoothedZ := smoothedZ this;
     smoothingFactor := factor;
     isCalibrating := isCalibrating this;
     calibrationSamples := calibrationSamples this;
     calibrationFrames := calibrationFrames this;
     noiseThresholdX := noiseThresholdX this;
     noiseThresholdY := noiseThresholdY this;
     noiseThresholdZ := noiseThresholdZ this;
     colors := colors this;
     lastUpdate := lastUpdate this |}.

(** Keys 1 to 6: all three axes on, unless all three were on. *)
Definition toggleVisibility (this : t) : t :=
  let newState := negb (showX this && showY this && showZ this) in
  withSettings newState newState newState (smoothingFactor this) this.

(** Key +: [Math.max(0.05, smoothingFactor - 0.05)]. *)
Definition increaseSmoothing (this : t) : t :=
  withSettings (showX this) (showY this) (showZ this)
               (JS.max 0.05 (smoothingFactor this - 0.05)) this.

(** Key -: [Math.min(1.0, smoothingFactor + 0.05)]. *)
Definition decreaseSmoothing (this : t) : t :=
  withSettings (showX this) (showY this) (showZ this)
               (JS.min 1.0 (smoothingFactor this + 0.05)) this.

End GraphStream.

(** The globals of the graph sketch that [parseSerialMessage] works on. *)
Record GraphGlobals : Type := mkGraphGlobals {
  streams : gmap Z GraphStream.t;
  graphMessageCount : Z
}.

(** [if (!streams[streamId]) streams[streamId] = new DataStream(streamId)]. *)
Definition ensureGraphStream (id : Z) (now : Z)
           (table : gmap Z GraphStream.t) : gmap Z GraphStream.t :=
  match table !! id with
  | Some _ => table
  | None => <[id := GraphStream.new id now]> table
  end.

(** [parseSerialMessage(message)] of the graph sketch.  An axis whose
    pattern finds nothing gives [null] and the line is dropped; an axis
    whose text is not a number gives [NaN], which is not [null]. *)
Definition parseSerialMessage (message : string) (now : Z)
           (g : GraphGlobals) : GraphGlobals :=
  let count := graphMessageCount g + 1 in
  match Pattern.registration message with
  | Some id =>
      {| streams := ensureGraphStream id now (streams g);
         graphMessageCount := count |}
  | None =>
      match Pattern.data message with
      | Some id =>
          let table := ensureGraphStream id now (streams g) in
          let vx := JS.parseFloat <$> Pattern.axis "x" message in
          let vy := JS.parseFloat <$> Pattern.axis "y" message in
          let vz := JS.parseFloat <$> Pattern.axis "z" message in
          match vx, vy, vz with
          | Some ax, Some ay, Some az =>
              {| streams := alter (GraphStream.receive ax ay az now) id table;
                 graphMessageCount := count |}
          | _, _, _ => {| streams := table; graphMessageCount := count |}
          end
      | None => {| streams := streams g; graphMessageCount := count |}
      end
  end.

(** The graph streams the sketch can hold. *)
Inductive reachableGraph : GraphStream.t -> Prop :=
| reachableGraph_new (id now : Z) :
    reachableGraph (GraphStream.new id now)
| reachableGraph_receive (vx vy vz : JS.number) (now : Z) (this : GraphStream.t) :
    reachableGraph this -> reachableGraph (GraphStream.receive vx vy vz now this)
| reachableGraph_startCalibration (this : GraphStream.t) :
    reachableGraph this -> reachableGraph (GraphStream.startCalibration this)
| reachableGraph_toggle (this : GraphStream.t) :
    reachableGraph this -> reachableGraph (GraphStream.toggleVisibility this)
| reachableGraph_increase (this : GraphStream.t) :
    reachableGraph this -> reachableGraph (GraphStream.increaseSmoothing this)
| reachableGraph_decrease (this : GraphStream.t) :
    reachableGraph this -> reachableGraph (GraphStream.decreaseSmoothing this).

(** A run of samples given to a graph stream, oldest first. *)
Definition receiveAll (samples : list (Sample * Z)) (this : GraphStream.t) :
  GraphStream.t :=
  fold_left
    (fun s '(d, now) =>
       GraphStream.receive (sampleX d) (sampleY d) (sampleZ d) now s)
    samples this.

(** What a graph stream shows: the three data arrays, the smoothed
    values, the calibration flag and the time of the last data point. *)
Definition graphShown (this : GraphStream.t) :
  list JS.number * list JS.number * list JS.number
  * (JS.number * JS.number * JS.number) * bool * Z :=
  (GraphStream.xData this, GraphStream.yData this, GraphStream.zData this,
   (GraphStream.smoothedX this, GraphStream.smoothedY this,
    GraphStream.smoothedZ this),
   GraphStream.isCalibrated this, GraphStream.lastUpdate this).

(** * Properties *)

(** ** Numbers *)

Lemma SFltb_irrefl (f : spec_float) : SFltb f f = false.
Proof.
  unfold SFltb, SFcompare.
  destruct f as [sg | sg | | sg m e];
    [destruct sg; reflexivity | destruct sg; reflexivity | reflexivity | ].
  destruct sg; cbv beta iota;
    rewrite Z.compare_refl, Pos.compare_cont_refl; reflexivity.
Qed.

(** No number is below itself. *)
Lemma lt_irrefl (a : JS.number) : JS.lt a a = false.
Proof. unfold JS.lt. rewrite ltb_spec. apply SFltb_irrefl. Qed.

Lemma gt_irrefl (a : JS.number) : JS.gt a a = false.
Proof. apply lt_irrefl. Qed.

(** ** One call of [update] *)

Section UpdateCases.

Import DataStream.

Variables (ax ay az : JS.number) (now : Z) (this : DataStream.t).

Lemma update_rejected :
  rejected ax ay az = true -> update ax ay az now this = this.
Proof. unfold update, rejected. intros ->. reflexivity. Qed.

Hypothesis Hvalid : rejected ax ay az = false.

(** While fewer than sixty samples are collected the sample is stored
    and shown, and nothing else moves. *)
Lemma update_collecting :
  calibrating this = true ->
  (S (length (calibrationData this)) < 60)%nat ->
  update ax ay az now this =
  {| id := id this; color := color this; lastUpdate := now;
     x := ax; y := ay; z := az;
     rawX := ax; rawY := ay; rawZ := az;
     calibrating := true;
     calibrationData := calibrationData this ++ [mkSample ax ay az];
     baseX := baseX this; baseY := baseY this; baseZ := baseZ this;
     deadzone := deadzone this;
     calibrationNoise := calibrationNoise this;
     motionThresholds := motionThresholds this;
     motion := motion this;
     distance := distance this;
     calibrationQuality := calibrationQuality this;
     lastMotionTime := lastMotionTime this |}.
Proof.
  intros Hcal Hlen. unfold update. fold (rejected ax ay az).
  rewrite Hvalid, Hcal. cbn [calibrationData].
  rewrite length_app, Nat.add_1_r.
  destruct (Nat.leb_spec 60 (S (length (calibrationData this)))); [lia|].
  reflexivity.
Qed.

(** The sixtieth sample runs [finishCalibration]. *)
Lemma update_finishing :
  calibrating this = true ->
  (60 <= S (length (calibrationData this)))%nat ->
  let done := update ax ay az now this in
  calibrating done = false
  /\ length (motionThresholds done) = 6%nat
  /\ calibrationData done = calibrationData this ++ [mkSample ax ay az]
  /\ motion done = motion this
  /\ lastMotionTime done = lastMotionTime this.
Proof.
  intros Hcal Hlen. unfold update. fold (rejected ax ay az).
  rewrite Hvalid, Hcal. cbn [calibrationData].
  rewrite length_app, Nat.add_1_r.
  destruct (Nat.leb_spec 60 (S (length (calibrationData this)))); [|lia].
  repeat split.
Qed.

(** After calibration a sample changes the display values, the raw
    values, the distance, the level and the two time stamps. *)
Lemma update_ready :
  calibrating this = false ->
  update ax ay az now this =
  let euclidean := euclideanDistance this ax ay az in
  let newMotion := newMotionStuck this (applyDeadzone this euclidean) now in
  {| id := id this; color := color this; lastUpdate := now;
     x := (x this + (ax - x this) * alpha)%float;
     y := (y this + (ay - y this) * alpha)%float;
     z := (z this + (az - z this) * alpha)%float;
     rawX := ax; rawY := ay; rawZ := az;
     calibrating := false;
     calibrationData := calibrationData this;
     baseX := baseX this; baseY := baseY this; baseZ := baseZ this;
     deadzone := deadzone this;
     calibrationNoise := calibrationNoise this;
     motionThresholds := motionThresholds this;
     motion := Z.min 5 newMotion;
     distance := euclidean;
     calibrationQuality := calibrationQuality this;
     lastMotionTime :=
       if (newMotion =? motion this)%Z then lastMotionTime this else now |}.
Proof.
  intros Hcal. unfold update. fold (rejected ax ay az).
  rewrite Hvalid, Hcal. reflexivity.
Qed.

End UpdateCases.

(** ** Samples that are not numbers *)

(** C2 (as amended).  A call of [update] in which one of the three
    coordinates is [NaN] leaves every field of the stream as it was.  The
    test is [isNaN]: an infinite coordinate is not turned away. *)
Theorem update_nan_unchanged (ax ay az : JS.number) (now : Z)
        (this : DataStream.t) :
  JS.isNaN ax = true \/ JS.isNaN ay = true \/ JS.isNaN az = true ->
  DataStream.update ax ay az now this = this.
Proof.
  intros H. apply update_rejected. unfold rejected.
  destruct H as [-> | [-> | ->]]; rewrite ?orb_true_r; reflexivity.
Qed.

Lemma update_nan_unchanged_witness :
  DataStream.update (JS.parseFloat "abc") 1 2 200 restingStream = restingStream.
Proof.
  apply (update_nan_unchanged (JS.parseFloat "abc") 1 2 200 restingStream).
  left. reflexivity.
Defined.

(** C2 (as stated) fails for an infinite coordinate: the text
    ["Infinity"] parses to a number that is not finite and not [NaN], and
    the sample is stored as the raw value, changes the display value and
    raises the level of the resting stream to 5. *)
Lemma update_infinity_changes_state :
  PrimFloat.is_finite (JS.parseFloat "Infinity") = false
  /\ DataStream.update (JS.parseFloat "Infinity") 0 0 200 restingStream
     <> restingStream
  /\ DataStream.rawX
       (DataStream.update (JS.parseFloat "Infinity") 0 0 200 restingStream)
     = PrimFloat.infinity
  /\ DataStream.motion restingStream = 0
  /\ DataStream.motion
       (DataStream.update (JS.parseFloat "Infinity") 0 0 200 restingStream)
     = 5.
Proof.
  split; [reflexivity|]. split; [|repeat split; reflexivity].
  intros H. apply (f_equal DataStream.motion) in H.
  vm_compute in H. discriminate H.
Qed.

(** ** The level scan and the hysteresis *)

(** The scan either reaches no threshold and keeps the value it started
    from, or sets a level between 1 and the number of levels scanned. *)
Lemma scanFrom_range (n : nat) (thresholds : list JS.number)
      (effective : JS.number) (start : Z) :
  DataStream.scanFrom n thresholds effective start = start
  \/ 1 <= DataStream.scanFrom n thresholds effective start <= Z.of_nat n.
Proof.
  induction n as [|level IH]; cbn [DataStream.scanFrom]; [left; reflexivity|].
  destruct (JS.ge effective (JS.toNumber (thresholds !! level))).
  - right. lia.
  - destruct IH as [IH | IH]; [left; exact IH | right; lia].
Qed.

Lemma newMotionScan_range (this : DataStream.t) (effective : JS.number) :
  DataStream.newMotionScan this effective = DataStream.motion this
  \/ 1 <= DataStream.newMotionScan this effective <= 6.
Proof. apply (scanFrom_range 6). Qed.

(** The value after the decrease check is the scanned one or the current
    level. *)
Lemma newMotionHysteresis_cases (this : DataStream.t) (effective : JS.number) :
  DataStream.newMotionHysteresis this effective
  = DataStream.newMotionScan this effective
  \/ DataStream.newMotionHysteresis this effective = DataStream.motion this.
Proof.
  unfold DataStream.newMotionHysteresis.
  destruct (_ <? _); [|left; reflexivity].
  destruct (_ && _); [right | left]; reflexivity.
Qed.

Lemma newMotionHysteresis_decrease (this : DataStream.t) (effective : JS.number) :
  DataStream.newMotionScan this effective < DataStream.motion this ->
  DataStream.newMotionHysteresis this effective
  = if JS.gt effective (decreaseBound this)
    then DataStream.motion this
    else DataStream.newMotionScan this effective.
Proof.
  intros Hlt. unfold DataStream.newMotionHysteresis, decreaseBound.
  destruct (Z.ltb_spec (DataStream.newMotionScan this effective)
                       (DataStream.motion this)) as [_ | Hge]; [|lia].
  destruct (newMotionScan_range this effective) as [Heq | Hrange]; [lia|].
  destruct (Z.leb_spec 0 (DataStream.motion this - 1)); [|lia].
  reflexivity.
Qed.

(** Without the stuck-motion reset the level of a calibrated stream
    never goes from a positive value to 0. *)
Lemma newMotionHysteresis_positive (this : DataStream.t) (effective : JS.number) :
  0 < DataStream.motion this ->
  0 < DataStream.newMotionHysteresis this effective.
Proof.
  intros Hpos.
  destruct (newMotionHysteresis_cases this effective) as [-> | ->]; [|exact Hpos].
  destruct (newMotionScan_range this effective) as [-> | ?]; lia.
Qed.

(** C1.  For a calibrated stream at a level above 0, a sample on which
    the stuck-motion reset does not fire leaves the level above 0; and
    when the sample reaches no threshold (its effective distance is
    below all of them) the level and the time of its last change stay
    exactly as they were.  The scan starts from the current level, not
    from 0, so the decrease check never sees a candidate 0. *)
Theorem level_zero_only_by_stuck_reset (ax ay az : JS.number) (now : Z)
        (this : DataStream.t) :
  rejected ax ay az = false ->
  DataStream.calibrating this = false ->
  0 < DataStream.motion this <= 5 ->
  DataStream.stuckReset this (DataStream.effectiveDistance this ax ay az) now
  = false ->
  let after := DataStream.update ax ay az now this in
  0 < DataStream.motion after
  /\ (DataStream.newMotionScan this (DataStream.effectiveDistance this ax ay az)
      = DataStream.motion this ->
      DataStream.motion after = DataStream.motion this
      /\ DataStream.lastMotionTime after = DataStream.lastMotionTime this).
Proof.
  intros Hvalid Hcal Hlevel Hstuck after. subst after.
  rewrite (update_ready _ _ _ _ _ Hvalid Hcal). cbn zeta.
  cbn [DataStream.motion DataStream.lastMotionTime].
  fold (DataStream.effectiveDistance this ax ay az).
  set (effective := DataStream.effectiveDistance this ax ay az) in *.
  unfold DataStream.newMotionStuck. rewrite Hstuck.
  split.
  - pose proof (newMotionHysteresis_positive this effective (proj1 Hlevel)). lia.
  - intros Hscan.
    assert (Hsame : DataStream.newMotionHysteresis this effective
                    = DataStream.motion this).
    { destruct (newMotionHysteresis_cases this effective) as [-> | ->];
        [exact Hscan | reflexivity]. }
    rewrite Hsame, Z.eqb_refl. split; [lia | reflexivity].
Qed.

(** The failing input of C1: the resting stream was raised to level 2 at
    time 100; at time 200 a sample at the baseline arrives.  Its effective
    distance 0 is below the first threshold 300 and below the decrease
    bound 540 - 60, and the level is still 2 after the call. *)
Lemma level_zero_only_by_stuck_reset_witness :
  DataStream.motion slightStream = 2
  /\ DataStream.effectiveDistance slightStream 0 0 0 = 0%float
  /\ DataStream.motionThresholds slightStream !! 0%nat = Some 300%float
  /\ JS.lt (DataStream.effectiveDistance slightStream 0 0 0)
           (decreaseBound slightStream) = true
  /\ DataStream.motion (DataStream.update 0 0 0 200 slightStream) = 2.
Proof.
  repeat (split; [reflexivity|]).
  refine (proj1 (proj2 (level_zero_only_by_stuck_reset
                          0 0 0 200 slightStream _ _ _ _) _)).
  - reflexivity.
  - reflexivity.
  - vm_compute. split; [reflexivity | discriminate].
  - reflexivity.
  - reflexivity.
Defined.

(** C3 (as amended).  For a calibrated stream whose scan gives a
    candidate below the current level, the decrease is accepted if and
    only if the effective distance is not above
    [motionThresholds[motion - 1] - 0.2 * motionThresholds[0]]; above the
    bound the stream holds its level (unless the stuck-motion reset
    fires); at exactly the bound the decrease is accepted. *)
Theorem decrease_accepted_iff_not_above_bound (ax ay az : JS.number)
        (now : Z) (this : DataStream.t) :
  rejected ax ay az = false ->
  DataStream.calibrating this = false ->
  DataStream.motion this <= 5 ->
  let effective := DataStream.effectiveDistance this ax ay az in
  let candidate := DataStream.newMotionScan this effective in
  let after := DataStream.update ax ay az now this in
  candidate < DataStream.motion this ->
  (DataStream.motion after = candidate
   <-> JS.gt effective (decreaseBound this) = false)
  /\ (JS.gt effective (decreaseBound this) = true ->
      DataStream.stuckReset this effective now = false ->
      DataStream.motion after = DataStream.motion this)
  /\ (effective = decreaseBound this -> DataStream.motion after = candidate).
Proof.
  intros Hvalid Hcal Hmax effective candidate after Hlt.
  assert (Hrange : 1 <= candidate <= 6).
  { destruct (newMotionScan_range this effective) as [Heq | Hr];
      [subst candidate; lia | exact Hr]. }
  assert (Hafter : DataStream.motion after
                   = Z.min 5 (DataStream.newMotionStuck this effective now)).
  { subst after. rewrite (update_ready _ _ _ _ _ Hvalid Hcal). reflexivity. }
  pose proof (newMotionHysteresis_decrease this effective Hlt) as Hhys.
  fold candidate in Hhys.
  assert (Haccept : JS.gt effective (decreaseBound this) = false ->
                    DataStream.motion after = candidate).
  { intros Hgt. rewrite Hgt in Hhys.
    rewrite Hafter. unfold DataStream.newMotionStuck, DataStream.stuckReset.
    rewrite Hhys.
    destruct (Z.eqb_spec candidate (DataStream.motion this)) as [Heq | _];
      [lia|].
    rewrite andb_false_r. cbn [andb]. lia. }
  split; [split|split].
  - intros Hmotion.
    destruct (JS.gt effective (decreaseBound this)) eqn:Hgt; [|reflexivity].
    exfalso.
    rewrite Hafter in Hmotion. unfold DataStream.newMotionStuck in Hmotion.
    destruct (DataStream.stuckReset this effective now).
    + lia.
    + rewrite Hhys in Hmotion. lia.
  - exact Haccept.
  - intros Hgt Hstuck. rewrite Hgt in Hhys.
    rewrite Hafter. unfold DataStream.newMotionStuck.
    rewrite Hstuck, Hhys. lia.
  - intros Heq. apply Haccept. rewrite Heq. apply gt_irrefl.
Qed.

Lemma decrease_accepted_iff_not_above_bound_witness :
  DataStream.motion moderateStream = 3
  /\ DataStream.motion (DataStream.update 990 0 0 200 moderateStream) = 2
  /\ DataStream.motion (DataStream.update (990 + 0.5) 0 0 200 moderateStream) = 3.
Proof.
  split; [reflexivity|].
  pose proof (decrease_accepted_iff_not_above_bound 990 0 0 200 moderateStream
                eq_refl eq_refl) as Hat.
  pose proof (decrease_accepted_iff_not_above_bound (990 + 0.5) 0 0 200
                moderateStream eq_refl eq_refl) as Habove.
  split.
  - refine (proj2 (proj2 (Hat _ _)) _).
    + vm_compute. discriminate.
    + reflexivity.
    + reflexivity.
  - refine (proj1 (proj2 (Habove _ _)) _ _).
    + vm_compute. discriminate.
    + reflexivity.
    + reflexivity.
    + reflexivity.
Defined.

(** C3 (as stated) fails at the bound.  The stream is at level 3, whose
    lower threshold is 1050, with hysteresis 60; a sample at distance 990
    gives the candidate 2, its effective distance equals the bound and so is
    not below it, and yet the level after the call is 2. *)
Lemma decrease_at_bound_is_accepted :
  DataStream.calibrating moderateStream = false
  /\ DataStream.motion moderateStream = 3
  /\ DataStream.newMotionScan moderateStream
       (DataStream.effectiveDistance moderateStream 990 0 0) = 2
  /\ DataStream.effectiveDistance moderateStream 990 0 0
     = decreaseBound moderateStream
  /\ JS.lt (DataStream.effectiveDistance moderateStream 990 0 0)
           (decreaseBound moderateStream) = false
  /\ DataStream.motion (DataStream.update 990 0 0 200 moderateStream) = 2.
Proof. repeat split; reflexivity. Qed.

(** ** Calibration *)

Lemma feed_cons (d : Sample) (now : Z) (rest : list (Sample * Z))
      (this : DataStream.t) :
  DataStream.feed ((d, now) :: rest) this
  = DataStream.feed rest
      (DataStream.update (sampleX d) (sampleY d) (sampleZ d) now this).
Proof. reflexivity. Qed.

Lemma feed_app (first rest : list (Sample * Z)) (this : DataStream.t) :
  DataStream.feed (first ++ rest) this
  = DataStream.feed rest (DataStream.feed first this).
Proof. unfold DataStream.feed. apply fold_left_app. Qed.

Lemma validSample_rejected (d : Sample) :
  validSample d = true -> rejected (sampleX d) (sampleY d) (sampleZ d) = false.
Proof. unfold validSample. apply negb_true_iff. Qed.

(** No call of [update] sets [calibrating]: a calibrated stream stays
    calibrated whatever it is fed. *)
Lemma update_stays_calibrated (ax ay az : JS.number) (now : Z)
      (this : DataStream.t) :
  DataStream.calibrating this = false ->
  DataStream.calibrating (DataStream.update ax ay az now this) = false.
Proof.
  intros Hcal. destruct (rejected ax ay az) eqn:Hrej.
  - rewrite update_rejected; assumption.
  - rewrite update_ready; [reflexivity | assumption..].
Qed.

Lemma feed_stays_calibrated (samples : list (Sample * Z)) (this : DataStream.t) :
  DataStream.calibrating this = false ->
  DataStream.calibrating (DataStream.feed samples this) = false
  /\ completions samples this = O.
Proof.
  revert this. induction samples as [|[d now] rest IH]; intros this Hcal.
  - split; [exact Hcal | reflexivity].
  - rewrite feed_cons. cbn [completions]. rewrite Hcal. cbn [andb].
    apply IH. apply update_stays_calibrated, Hcal.
Qed.

(** A calibration that has collected [k] samples ends on the sample that
    makes sixty, and on no other. *)
Lemma feed_calibrating (samples : list (Sample * Z)) :
  forall this : DataStream.t,
    DataStream.calibrating this = true ->
    allValid samples ->
    let k := length (DataStream.calibrationData this) in
    let after := DataStream.feed samples this in
    ((k + length samples < 60)%nat ->
     DataStream.calibrating after = true
     /\ length (DataStream.calibrationData after) = (k + length samples)%nat
     /\ completions samples this = O)
    /\ ((60 <= k + length samples)%nat -> (k < 60)%nat ->
        DataStream.calibrating after = false
        /\ completions samples this = 1%nat).
Proof.
  induction samples as [|[d now] rest IH]; intros this Hcal Hvalid k after.
  - subst after k. cbn. split.
    + intros _. rewrite Nat.add_0_r. auto.
    + lia.
  - apply Forall_cons in Hvalid as [Hd Hrest]. cbn [fst] in Hd.
    apply validSample_rejected in Hd.
    subst after. rewrite feed_cons. cbn [completions length]. rewrite Hcal.
    cbn [andb].
    destruct (Nat.lt_ge_cases (S k) 60) as [Hless | Hfull].
    + (* still collecting *)
      pose proof (update_collecting _ _ _ now this Hd Hcal Hless) as Hupd.
      set (next := DataStream.update _ _ _ now this) in *.
      assert (Hnext : DataStream.calibrating next = true) by (rewrite Hupd; reflexivity).
      assert (Hlen : length (DataStream.calibrationData next) = S k).
      { rewrite Hupd. cbn [DataStream.calibrationData].
        rewrite length_app. cbn. subst k. lia. }
      specialize (IH next Hnext Hrest). cbn zeta in IH. rewrite Hlen in IH.
      rewrite Hnext. cbn [negb]. destruct IH as [IHless IHfull]. split.
      * intros Hlt. destruct IHless as (? & ? & ?); [lia|].
        repeat split; [assumption | lia | assumption].
      * intros Hge Hk. apply IHfull; lia.
    + (* this sample completes the calibration *)
      pose proof (update_finishing _ _ _ now this Hd Hcal Hfull) as Hupd.
      cbn zeta in Hupd. destruct Hupd as (Hnext & _).
      set (next := DataStream.update _ _ _ now this) in *.
      rewrite Hnext. cbn [negb].
      destruct (feed_stays_calibrated rest next Hnext) as [Hcalibrated Hnone].
      split; [lia|]. intros _ _. rewrite Hnone. split; [assumption | reflexivity].
Qed.

(** C5.  From the start of a calibration (the flag set, the buffer
    empty) and for every run of valid samples: with fewer than sixty the
    stream is still calibrating and no calibration has completed; with
    sixty or more the stream is calibrated and exactly one calibration
    completed, at the sixtieth sample: after the first 59 the stream is
    still calibrating, after the first 60 it is calibrated, and the
    samples after the sixtieth complete no further one. *)
Theorem calibration_completes_at_sixty (samples : list (Sample * Z))
        (this : DataStream.t) :
  DataStream.calibrating this = true ->
  DataStream.calibrationData this = [] ->
  allValid samples ->
  ((length samples < 60)%nat ->
   DataStream.calibrating (DataStream.feed samples this) = true
   /\ completions samples this = O)
  /\ ((60 <= length samples)%nat ->
      DataStream.calibrating (DataStream.feed samples this) = false
      /\ completions samples this = 1%nat
      /\ DataStream.calibrating (DataStream.feed (take 59 samples) this) = true
      /\ DataStream.calibrating (DataStream.feed (take 60 samples) this) = false
      /\ completions (drop 60 samples)
                     (DataStream.feed (take 60 samples) this) = O).
Proof.
  intros Hcal Hempty Hvalid.
  pose proof (feed_calibrating samples this Hcal Hvalid) as Hall.
  cbn zeta in Hall. rewrite Hempty in Hall. cbn [length] in Hall.
  destruct Hall as [Hless Hfull]. split.
  - intros Hlt. destruct Hless as (? & _ & ?); [lia | auto].
  - intros Hge. destruct Hfull as [Hdone Hone]; [lia..|].
    assert (Hsub : forall n, allValid (take n samples)).
    { intros n. unfold allValid. apply Forall_take, Hvalid. }
    pose proof (feed_calibrating (take 59 samples) this Hcal (Hsub 59%nat)) as H59.
    pose proof (feed_calibrating (take 60 samples) this Hcal (Hsub 60%nat)) as H60.
    cbn zeta in H59, H60. rewrite Hempty in H59, H60. cbn [length] in H59, H60.
    rewrite length_take in H59, H60.
    destruct H59 as [H59 _]. destruct H60 as [_ H60].
    destruct H59 as (Hstill & _); [lia|].
    destruct H60 as (Hready & _); [lia..|].
    repeat split; try assumption.
    apply feed_stays_calibrated, Hready.
Qed.

Lemma calibration_completes_at_sixty_witness :
  DataStream.calibrating
    (DataStream.feed (repeat (mkSample 10 20 30, 7) 59) (DataStream.new 2 0))
  = true
  /\ DataStream.calibrating
       (DataStream.feed (repeat (mkSample 10 20 30, 7) 75) (DataStream.new 2 0))
     = false
  /\ completions (repeat (mkSample 10 20 30, 7) 75) (DataStream.new 2 0) = 1%nat.
Proof.
  assert (Hvalid : forall n, allValid (repeat (mkSample 10 20 30, 7) n)).
  { intros n. induction n; constructor; [reflexivity | assumption]. }
  pose proof (calibration_completes_at_sixty
                (repeat (mkSample 10 20 30, 7) 59) (DataStream.new 2 0)
                eq_refl eq_refl (Hvalid _)) as [Hless _].
  pose proof (calibration_completes_at_sixty
                (repeat (mkSample 10 20 30, 7) 75) (DataStream.new 2 0)
                eq_refl eq_refl (Hvalid _)) as [_ Hfull].
  split; [apply Hless; rewrite repeat_length; lia|].
  destruct Hfull as (? & ? & _); [rewrite repeat_length; lia | auto].
Defined.

(** ** Recalibration *)

Lemma lastShown_cons (d : Sample) (now : Z) (rest : list (Sample * Z))
      (shown : JS.number * JS.number * JS.number) :
  lastShown ((d, now) :: rest) shown
  = lastShown rest (sampleX d, sampleY d, sampleZ d).
Proof.
  unfold lastShown. destruct rest as [|entry rest']; [reflexivity|].
  rewrite last_cons_cons.
  destruct (last (entry :: rest')) as [[d' now']|] eqn:Hlast; [reflexivity|].
  apply last_None in Hlast. discriminate Hlast.
Qed.

(** While a calibration collects, every valid sample is shown as it is
    and the level and the results of the previous calibration stay. *)
Lemma feed_collecting (samples : list (Sample * Z)) :
  forall this : DataStream.t,
    DataStream.calibrating this = true ->
    allValid samples ->
    (length (DataStream.calibrationData this) + length samples < 60)%nat ->
    let during := DataStream.feed samples this in
    DataStream.motion during = DataStream.motion this
    /\ DataStream.lastMotionTime during = DataStream.lastMotionTime this
    /\ calibrationResult during = calibrationResult this
    /\ smoothed during = lastShown samples (smoothed this).
Proof.
  induction samples as [|[d now] rest IH]; intros this Hcal Hvalid Hlen during.
  - subst during. repeat split.
  - apply Forall_cons in Hvalid as [Hd Hrest]. cbn [fst] in Hd.
    apply validSample_rejected in Hd. cbn [length] in Hlen.
    subst during. rewrite feed_cons.
    assert (Hless : (S (length (DataStream.calibrationData this)) < 60)%nat) by lia.
    pose proof (update_collecting _ _ _ now this Hd Hcal Hless) as Hupd.
    set (next := DataStream.update _ _ _ now this) in *.
    assert (Hnext : DataStream.calibrating next = true) by (rewrite Hupd; reflexivity).
    assert (Hdata : length (DataStream.calibrationData next)
                    = S (length (DataStream.calibrationData this))).
    { rewrite Hupd. cbn [DataStream.calibrationData]. rewrite length_app. cbn. lia. }
    destruct (IH next Hnext Hrest) as (Hm & Ht & Hc & Hs); [lia|].
    rewrite Hm, Ht, Hc, Hs, lastShown_cons.
    repeat split; rewrite Hupd; reflexivity.
Qed.

(** C8 (as amended).  Starting a recalibration sets the stream to
    calibrating with an empty buffer and changes nothing else: the id,
    the colour, the time of the last update, the display and the raw
    values, the results of the previous calibration, the level, the
    distance and the time of the last change of level are all as they
    were.  From then on, for every run of fewer than sixty valid
    samples, the stream is still calibrating, and its level and the
    results of the previous calibration are the ones it had; its
    display values are kept only until the first sample, and after that
    they are the coordinates of the latest sample. *)
Theorem recalibration_keeps_level_and_shows_raw (samples : list (Sample * Z))
        (this : DataStream.t) :
  allValid samples ->
  (length samples < 60)%nat ->
  let restarted := DataStream.startCalibration this in
  let during := DataStream.feed samples restarted in
  DataStream.calibrating restarted = true
  /\ DataStream.calibrationData restarted = []
  /\ DataStream.id restarted = DataStream.id this
  /\ DataStream.color restarted = DataStream.color this
  /\ DataStream.lastUpdate restarted = DataStream.lastUpdate this
  /\ smoothed restarted = smoothed this
  /\ DataStream.rawX restarted = DataStream.rawX this
  /\ DataStream.rawY restarted = DataStream.rawY this
  /\ DataStream.rawZ restarted = DataStream.rawZ this
  /\ calibrationResult restarted = calibrationResult this
  /\ DataStream.motion restarted = DataStream.motion this
  /\ DataStream.distance restarted = DataStream.distance this
  /\ DataStream.lastMotionTime restarted = DataStream.lastMotionTime this
  /\ DataStream.calibrating during = true
  /\ DataStream.motion during = DataStream.motion this
  /\ calibrationResult during = calibrationResult this
  /\ smoothed during = lastShown samples (smoothed this).
Proof.
  intros Hvalid Hlen restarted during.
  assert (Hcal : DataStream.calibrating restarted = true) by reflexivity.
  destruct (feed_collecting samples restarted Hcal Hvalid) as (Hm & _ & Hc & Hs);
    [cbn; lia|].
  destruct (feed_calibrating samples restarted Hcal Hvalid) as [Hstill _].
  destruct Hstill as (Hduring & _); [cbn; lia|].
  do 13 (split; [reflexivity|]).
  split; [exact Hduring|]. split; [exact Hm|]. split; [exact Hc | exact Hs].
Qed.

Lemma recalibration_keeps_level_and_shows_raw_witness :
  DataStream.motion
    (DataStream.feed [(mkSample 1 2 3, 300); (mkSample 4 5 6, 350)]
                     (DataStream.startCalibration slightStream)) = 2
  /\ smoothed
       (DataStream.feed [(mkSample 1 2 3, 300); (mkSample 4 5 6, 350)]
                        (DataStream.startCalibration slightStream))
     = (4, 5, 6)%float
  /\ DataStream.lastUpdate (DataStream.startCalibration slightStream)
     = DataStream.lastUpdate slightStream.
Proof.
  assert (Hvalid : allValid [(mkSample 1 2 3, 300); (mkSample 4 5 6, 350)]).
  { repeat constructor. }
  pose proof (recalibration_keeps_level_and_shows_raw
                [(mkSample 1 2 3, 300); (mkSample 4 5 6, 350)] slightStream
                Hvalid) as H.
  cbn zeta in H.
  destruct H as (_ & _ & _ & _ & Hupdate & _ & _ & _ & _ & _ & _ & _ & _
                 & _ & Hm & _ & Hs); [cbn; lia|].
  split; [exact Hm|]. split; [exact Hs | exact Hupdate].
Defined.

(** C8 (as stated) fails for the display values: the stream at level 2
    shows 90 on the x axis; after recalibration is started, one valid
    sample is enough to replace that by the sample's own coordinate,
    while the calibration is far from complete. *)
Lemma recalibration_overwrites_display :
  DataStream.calibrating slightStream = false
  /\ DataStream.x slightStream = 90%float
  /\ DataStream.calibrating
       (DataStream.feed [(mkSample 1 2 3, 300)]
                        (DataStream.startCalibration slightStream)) = true
  /\ DataStream.x
       (DataStream.feed [(mkSample 1 2 3, 300)]
                        (DataStream.startCalibration slightStream)) = 1%float
  /\ smoothed
       (DataStream.feed [(mkSample 1 2 3, 300)]
                        (DataStream.startCalibration slightStream))
     <> smoothed slightStream.
Proof.
  repeat (split; [reflexivity|]).
  intros H. apply (f_equal (fun v => PrimFloat.eqb (fst (fst v)) 1)) in H.
  vm_compute in H. discriminate H.
Qed.

(** ** The thresholds array *)

Lemma newMotionStuck_range (this : DataStream.t) (effective : JS.number) (now : Z) :
  0 <= DataStream.motion this <= 5 ->
  0 <= DataStream.newMotionStuck this effective now <= 6.
Proof.
  intros Hlevel. unfold DataStream.newMotionStuck.
  destruct (DataStream.stuckReset this effective now); [lia|].
  destruct (newMotionHysteresis_cases this effective) as [-> | ->]; [|lia].
  destruct (newMotionScan_range this effective) as [-> | ?]; lia.
Qed.

(** A calibrated stream has six thresholds, and the level is one of 0
    to 5, in every stream the sketch can hold. *)
Lemma reachable_invariant (this : DataStream.t) :
  reachable this ->
  (DataStream.calibrating this = false ->
   length (DataStream.motionThresholds this) = 6%nat)
  /\ 0 <= DataStream.motion this <= 5.
Proof.
  induction 1 as [id now | ax ay az now this Hreach [IHlen IHlevel]
                  | this Hreach [IHlen IHlevel]].
  - split; [discriminate | cbn; lia].
  - destruct (rejected ax ay az) eqn:Hrej.
    { rewrite update_rejected by assumption. auto. }
    destruct (DataStream.calibrating this) eqn:Hcal.
    + destruct (Nat.lt_ge_cases (S (length (DataStream.calibrationData this))) 60)
        as [Hless | Hfull].
      * rewrite (update_collecting _ _ _ now this Hrej Hcal Hless).
        split; [discriminate | exact IHlevel].
      * destruct (update_finishing _ _ _ now this Hrej Hcal Hfull)
          as (_ & Hsix & _ & Hmotion & _).
        rewrite Hmotion. auto.
    + rewrite (update_ready _ _ _ now this Hrej Hcal). cbn zeta.
      cbn [DataStream.calibrating DataStream.motionThresholds DataStream.motion].
      split; [intros _; apply IHlen; reflexivity|].
      pose proof (newMotionStuck_range this
                    (DataStream.applyDeadzone this
                       (DataStream.euclideanDistance this ax ay az)) now IHlevel).
      lia.
  - split; [discriminate | exact IHlevel].
Qed.

(** The scan entered at level [n - 1] reads below [n] only. *)
Lemma scanReads_below (n : nat) (thresholds : list JS.number)
      (effective : JS.number) :
  Forall (fun i => (i < n)%nat) (DataStream.scanReads n thresholds effective).
Proof.
  induction n as [|level IH]; cbn [DataStream.scanReads]; constructor; [lia|].
  destruct (JS.ge effective (JS.toNumber (thresholds !! level))); [constructor|].
  eapply Forall_impl; [exact IH|]. cbn. lia.
Qed.

(** C9.  In every stream the sketch can hold, a calibrated stream has
    six thresholds, and every read of [motionThresholds] that a call of
    [update] makes (index 0 for the hysteresis, the scan from 5 down,
    index [motion - 1] in the decrease check) is inside the array; a
    stream that is calibrating, which may still carry the four default
    thresholds, reads none. *)
Theorem threshold_reads_in_bounds (ax ay az : JS.number) (this : DataStream.t) :
  reachable this ->
  (DataStream.calibrating this = false ->
   length (DataStream.motionThresholds this) = 6%nat)
  /\ (DataStream.calibrating this = true -> thresholdReads ax ay az this = [])
  /\ Forall (inBounds this) (thresholdReads ax ay az this)
  /\ (DataStream.calibrating this = false ->
      forall effective : JS.number,
        Forall (fun i => is_Some (DataStream.motionThresholds this !! i))
               (DataStream.scanReads 6 (DataStream.motionThresholds this)
                                     effective)).
Proof.
  intros Hreach. destruct (reachable_invariant this Hreach) as [Hsix Hlevel].
  split; [exact Hsix|]. split; [|split].
  - intros Hcal. unfold thresholdReads. rewrite Hcal.
    destruct (rejected ax ay az); reflexivity.
  - unfold thresholdReads.
    destruct (rejected ax ay az); [constructor|].
    destruct (DataStream.calibrating this) eqn:Hcal; [constructor|].
    specialize (Hsix eq_refl). unfold inBounds. rewrite Hsix.
    apply Forall_app. split; [constructor; [lia | constructor]|].
    apply Forall_app. split.
    + apply Forall_map.
      eapply Forall_impl; [apply scanReads_below|]. cbn. lia.
    + destruct (_ && _) eqn:Hread; [|constructor].
      apply andb_true_iff in Hread as [_ Hindex].
      apply Z.leb_le in Hindex. constructor; [lia | constructor].
  - intros Hcal effective. specialize (Hsix Hcal).
    eapply Forall_impl; [apply scanReads_below|].
    intros i Hi. cbv beta in Hi. apply lookup_lt_is_Some. lia.
Qed.

Lemma reachable_feed (samples : list (Sample * Z)) (this : DataStream.t) :
  reachable this -> reachable (DataStream.feed samples this).
Proof.
  revert this. induction samples as [|[d now] rest IH]; intros this Hreach.
  - exact Hreach.
  - rewrite feed_cons. apply IH, reachable_update, Hreach.
Qed.

Lemma threshold_reads_in_bounds_witness :
  length (DataStream.motionThresholds slightStream) = 6%nat
  /\ thresholdReads 2000 0 0 slightStream = [0; 5; 4; 3]
  /\ Forall (inBounds slightStream) (thresholdReads 2000 0 0 slightStream)
  /\ thresholdReads 2000 0 0 (DataStream.new 3 0) = [].
Proof.
  assert (Hslight : reachable slightStream).
  { apply reachable_update, reachable_feed, reachable_new. }
  destruct (threshold_reads_in_bounds 2000 0 0 slightStream Hslight)
    as (Hsix & _ & Hreads & _).
  destruct (threshold_reads_in_bounds 2000 0 0 (DataStream.new 3 0)
              (reachable_new 3 0)) as (_ & Hnone & _).
  split; [apply Hsix; reflexivity|].
  split; [reflexivity|].
  split; [exact Hreads | apply Hnone; reflexivity].
Defined.

(** ** The stuck-motion reset *)

(** A still sample has effective distance 0, and the deadzone is above 0. *)
Lemma stillSample_effective (this : DataStream.t) (entry : Sample * Z) :
  stillSample this entry ->
  DataStream.effectiveDistance this (sampleX (fst entry)) (sampleY (fst entry))
                               (sampleZ (fst entry)) = 0%float
  /\ JS.lt 0 (DataStream.deadzone this) = true.
Proof.
  unfold stillSample, DataStream.effectiveDistance, DataStream.applyDeadzone.
  intros [_ Hbelow].
  destruct (JS.lt (DataStream.euclideanDistance this _ _ _) (DataStream.deadzone this))
    eqn:Hdead.
  - split; [reflexivity | exact Hbelow].
  - congruence.
Qed.

(** The distance 0 reaches no threshold when none is at or below 0. *)
Lemma scanFrom_zero (n : nat) (thresholds : list JS.number) (start : Z) :
  Forall (fun t => JS.ge 0 t = false) thresholds ->
  DataStream.scanFrom n thresholds 0 start = start.
Proof.
  intros Habove. induction n as [|level IH]; [reflexivity|].
  cbn [DataStream.scanFrom]. rewrite IH.
  destruct (thresholds !! level) as [t|] eqn:Hlookup; cbn [JS.toNumber].
  - rewrite (proj1 (Forall_lookup _ _) Habove level t Hlookup). reflexivity.
  - reflexivity.
Qed.

Lemma newMotionHysteresis_zero (this : DataStream.t) :
  thresholdsAboveZero this ->
  DataStream.newMotionHysteresis this 0 = DataStream.motion this.
Proof.
  intros Habove. unfold DataStream.newMotionHysteresis, DataStream.newMotionScan.
  rewrite (scanFrom_zero 6 _ _ Habove), Z.ltb_irrefl. reflexivity.
Qed.

Lemma same_calibration_still (a b : DataStream.t) (entry : Sample * Z) :
  calibrationResult a = calibrationResult b ->
  stillSample a entry -> stillSample b entry.
Proof.
  unfold calibrationResult, stillSample, DataStream.effectiveDistance,
    DataStream.applyDeadzone, DataStream.euclideanDistance.
  intros Hsame. injection Hsame as -> -> -> _ _ -> _. auto.
Qed.

Lemma same_calibration_above (a b : DataStream.t) :
  calibrationResult a = calibrationResult b ->
  thresholdsAboveZero a -> thresholdsAboveZero b.
Proof.
  unfold calibrationResult, thresholdsAboveZero.
  intros Hsame. injection Hsame as _ _ _ _ _ _ ->. auto.
Qed.

Lemma resetsFired_app (first rest : list (Sample * Z)) :
  forall this : DataStream.t,
    resetsFired (first ++ rest) this
    = (resetsFired first this
       + resetsFired rest (DataStream.feed first this))%nat.
Proof.
  induction first as [|[d now] first IH]; intros this; [reflexivity|].
  cbn [app resetsFired]. rewrite IH, feed_cons. lia.
Qed.

(** One still sample on a calibrated stream: the reset fires exactly when
    the level is above 0 and more than 2000 ms have passed since the level
    last changed; it then sets the level to 0 and stamps the time;
    otherwise level and stamp stay. *)
Lemma still_step (d : Sample) (now : Z) (this : DataStream.t) :
  DataStream.calibrating this = false ->
  0 <= DataStream.motion this <= 5 ->
  thresholdsAboveZero this ->
  stillSample this (d, now) ->
  let fired := (0 <? DataStream.motion this)
               && (2000 <? now - DataStream.lastMotionTime this) in
  let after := DataStream.update (sampleX d) (sampleY d) (sampleZ d) now this in
  resetsFired [(d, now)] this = (if fired then 1 else 0)%nat
  /\ DataStream.motion after = (if fired then 0 else DataStream.motion this)
  /\ DataStream.lastMotionTime after
     = (if fired then now else DataStream.lastMotionTime this)
  /\ DataStream.calibrating after = false
  /\ calibrationResult after = calibrationResult this.
Proof.
  intros Hcal Hlevel Habove Hstill fired after.
  destruct (stillSample_effective this (d, now) Hstill) as [Hzero Hdead].
  destruct Hstill as [Hvalid _]. cbn [fst] in *.
  apply validSample_rejected in Hvalid.
  assert (Hreset : DataStream.stuckReset this 0 now = fired).
  { unfold DataStream.stuckReset.
    rewrite (newMotionHysteresis_zero this Habove), Z.eqb_refl, Hdead.
    subst fired. rewrite !andb_true_r. reflexivity. }
  subst after. cbn [resetsFired].
  rewrite (update_ready _ _ _ now this Hvalid Hcal). cbn zeta.
  fold (DataStream.effectiveDistance this (sampleX d) (sampleY d) (sampleZ d)).
  rewrite Hvalid, Hcal, Hzero. unfold DataStream.newMotionStuck.
  rewrite Hreset, (newMotionHysteresis_zero this Habove).
  cbn [negb andb DataStream.motion DataStream.lastMotionTime
       DataStream.calibrating].
  destruct fired eqn:Hfired.
  - apply andb_true_iff in Hfired as [Hpos _]. apply Z.ltb_lt in Hpos.
    destruct (Z.eqb_spec 0 (DataStream.motion this)); [lia|].
    repeat split.
  - rewrite Z.eqb_refl. repeat split. lia.
Qed.

(** Still samples inside the 2000 ms leave level and stamp alone. *)
Lemma still_run_holds (samples : list (Sample * Z)) :
  forall this : DataStream.t,
    DataStream.calibrating this = false ->
    0 <= DataStream.motion this <= 5 ->
    thresholdsAboveZero this ->
    Forall (stillSample this) samples ->
    Forall (fun entry => DataStream.motion this = 0
                         \/ snd entry - DataStream.lastMotionTime this <= 2000)
           samples ->
    let after := DataStream.feed samples this in
    resetsFired samples this = O
    /\ DataStream.motion after = DataStream.motion this
    /\ DataStream.lastMotionTime after = DataStream.lastMotionTime this
    /\ DataStream.calibrating after = false
    /\ calibrationResult after = calibrationResult this.
Proof.
  induction samples as [|[d now] rest IH];
    intros this Hcal Hlevel Habove Hstill Hearly after.
  - repeat split. exact Hcal.
  - apply Forall_cons in Hstill as [Hd Hrest].
    apply Forall_cons in Hearly as [Hnow Hlater]. cbn [snd] in Hnow.
    pose proof (still_step d now this Hcal Hlevel Habove Hd) as Hstep.
    cbn zeta in Hstep.
    assert (Hquiet : (0 <? DataStream.motion this)
                     && (2000 <? now - DataStream.lastMotionTime this) = false).
    { apply andb_false_iff. destruct Hnow as [Hzero | Hin].
      - left. apply Z.ltb_ge. lia.
      - right. apply Z.ltb_ge. lia. }
    rewrite Hquiet in Hstep.
    destruct Hstep as (Hfired & Hmotion & Hstamp & Hready & Hsame).
    subst after. rewrite feed_cons.
    change ((d, now) :: rest) with ([(d, now)] ++ rest).
    rewrite resetsFired_app.
    change (DataStream.feed [(d, now)] this)
      with (DataStream.update (sampleX d) (sampleY d) (sampleZ d) now this).
    set (next := DataStream.update (sampleX d) (sampleY d) (sampleZ d) now this) in *.
    destruct (IH next) as (Hnone & Hm & Ht & Hc & Hr).
    + exact Hready.
    + rewrite Hmotion. exact Hlevel.
    + eapply same_calibration_above; [symmetry; exact Hsame | exact Habove].
    + eapply Forall_impl; [exact Hrest|]. intros entry.
      apply same_calibration_still. symmetry. exact Hsame.
    + rewrite Hmotion, Hstamp. exact Hlater.
    + rewrite Hfired, Hnone, Hm, Ht, Hr, Hmotion, Hstamp, Hsame.
      repeat split. exact Hc.
Qed.

(** C6.  A calibrated stream is at a level above 0 and receives still
    samples only.  The samples that arrive within 2000 ms of the last
    change of level leave the level where it is; the first sample that
    arrives later sets the level to 0 and stamps its own time as the
    time of the last change; no still sample after that one changes the
    level or the stamp again.  Over the whole run the reset fires
    exactly once. *)
Theorem stuck_reset_fires_once (before after : list (Sample * Z))
        (d : Sample) (now : Z) (this : DataStream.t) :
  DataStream.calibrating this = false ->
  0 < DataStream.motion this <= 5 ->
  thresholdsAboveZero this ->
  Forall (stillSample this) (before ++ (d, now) :: after) ->
  Forall (fun entry => snd entry - DataStream.lastMotionTime this <= 2000)
         before ->
  2000 < now - DataStream.lastMotionTime this ->
  let held := DataStream.feed before this in
  let reset := DataStream.update (sampleX d) (sampleY d) (sampleZ d) now held in
  let final := DataStream.feed after reset in
  DataStream.motion held = DataStream.motion this
  /\ resetsFired before this = O
  /\ DataStream.motion reset = 0
  /\ DataStream.lastMotionTime reset = now
  /\ DataStream.motion final = 0
  /\ DataStream.lastMotionTime final = now
  /\ resetsFired (before ++ (d, now) :: after) this = 1%nat.
Proof.
  intros Hcal Hlevel Habove Hstill Hearly Hlate held reset final.
  apply Forall_app in Hstill as [Hbefore Hrest].
  apply Forall_cons in Hrest as [Hd Hafter].
  destruct (still_run_holds before this Hcal ltac:(lia) Habove Hbefore)
    as (Hnone & Hm & Ht & Hc & Hr).
  { eapply Forall_impl; [exact Hearly|]. intros entry Hin. right. exact Hin. }
  fold held in Hm, Ht, Hc, Hr.
  assert (Habove' : thresholdsAboveZero held).
  { eapply same_calibration_above; [symmetry; exact Hr | exact Habove]. }
  assert (Hd' : stillSample held (d, now)).
  { eapply same_calibration_still; [symmetry; exact Hr | exact Hd]. }
  pose proof (still_step d now held Hc ltac:(lia) Habove' Hd') as Hstep.
  cbn zeta in Hstep. fold reset in Hstep. rewrite Hm, Ht in Hstep.
  assert (Hfire : (0 <? DataStream.motion this)
                  && (2000 <? now - DataStream.lastMotionTime this) = true).
  { apply andb_true_iff. split; apply Z.ltb_lt; lia. }
  rewrite Hfire in Hstep.
  destruct Hstep as (Hone & Hm1 & Ht1 & Hc1 & Hr1).
  destruct (still_run_holds after reset Hc1 ltac:(lia)) as (Hnone2 & Hm2 & Ht2 & _).
  { eapply same_calibration_above; [symmetry; exact Hr1 | exact Habove']. }
  { eapply Forall_impl; [exact Hafter|]. intros entry Hin.
    eapply same_calibration_still; [symmetry; exact Hr1|].
    eapply same_calibration_still; [symmetry; exact Hr | exact Hin]. }
  { eapply Forall_impl; [exact Hafter|]. intros entry _. left. exact Hm1. }
  fold final in Hm2, Ht2.
  repeat split; try congruence.
  rewrite resetsFired_app. fold held.
  change ((d, now) :: after) with ([(d, now)] ++ after).
  rewrite resetsFired_app.
  change (DataStream.feed [(d, now)] held) with reset.
  rewrite Hnone, Hone, Hnone2. reflexivity.
Qed.

Lemma stuck_reset_fires_once_witness :
  DataStream.motion slightStream = 2
  /\ DataStream.lastMotionTime slightStream = 100
  /\ DataStream.motion
       (DataStream.feed [(mkSample 0 0 0, 500); (mkSample 10 0 0, 2100)]
                        slightStream) = 2
  /\ DataStream.motion
       (DataStream.feed [(mkSample 0 0 0, 500); (mkSample 10 0 0, 2100);
                         (mkSample 0 5 0, 2101)] slightStream) = 0
  /\ resetsFired [(mkSample 0 0 0, 500); (mkSample 10 0 0, 2100);
                  (mkSample 0 5 0, 2101); (mkSample 0 0 3, 2150);
                  (mkSample 0 0 0, 9000)] slightStream = 1%nat.
Proof.
  assert (Hstill : Forall (stillSample slightStream)
                     ([(mkSample 0 0 0, 500); (mkSample 10 0 0, 2100)]
                      ++ (mkSample 0 5 0, 2101)
                      :: [(mkSample 0 0 3, 2150); (mkSample 0 0 0, 9000)])).
  { repeat constructor. }
  assert (Habove : thresholdsAboveZero slightStream).
  { unfold thresholdsAboveZero. vm_compute DataStream.motionThresholds.
    repeat constructor. }
  assert (Hearly : Forall (fun entry => snd entry
                                        - DataStream.lastMotionTime slightStream
                                        <= 2000)
                     [(mkSample 0 0 0, 500); (mkSample 10 0 0, 2100)]).
  { repeat constructor; vm_compute; discriminate. }
  pose proof (stuck_reset_fires_once
                [(mkSample 0 0 0, 500); (mkSample 10 0 0, 2100)]
                [(mkSample 0 0 3, 2150); (mkSample 0 0 0, 9000)]
                (mkSample 0 5 0) 2101 slightStream eq_refl) as Hrun.
  cbn zeta in Hrun.
  destruct Hrun as (Hheld & _ & Hreset & _ & _ & _ & Hone);
    [vm_compute; split; [reflexivity | discriminate]
    | exact Habove | exact Hstill | exact Hearly | reflexivity |].
  split; [reflexivity|]. split; [reflexivity|].
  split; [exact Hheld|]. split; [exact Hreset | exact Hone].
Defined.

(** ** The message parser *)

Lemma streamDigit_range (c : ascii) (id : Z) :
  Pattern.streamDigit c = Some id -> 1 <= id <= 6.
Proof.
  unfold Pattern.streamDigit, JS.digitValue.
  destruct (_ && _) eqn:Hclass; [|discriminate].
  apply andb_true_iff in Hclass as [Hlow Hhigh].
  apply Nat.leb_le in Hlow, Hhigh. intros [= <-]. lia.
Qed.

(** A data line starts with the letter and a digit from 1 to 6. *)
Lemma data_shape (msg : string) (id : Z) :
  Pattern.data msg = Some id ->
  exists (d : ascii) (rest : string),
    msg = String "m" (String d rest) /\ Pattern.streamDigit d = Some id.
Proof.
  destruct msg as [|c [|d rest]]; [discriminate| |]; unfold Pattern.data;
    destruct c as [[] [] [] [] [] [] [] []]; try discriminate.
  intros Hdigit. exists d, rest. split; [reflexivity | exact Hdigit].
Qed.

(** A data line is not a registration line. *)
Lemma data_not_registration (msg : string) (id : Z) :
  Pattern.data msg = Some id -> Pattern.registration msg = None.
Proof.
  intros Hdata. destruct (data_shape msg id Hdata) as (d & rest & -> & _).
  reflexivity.
Qed.

(** A line that neither pattern matches changes no stream. *)
Lemma unmatched_line_ignored (msg : string) (now : Z) (g : Globals) :
  Pattern.registration msg = None ->
  Pattern.data msg = None ->
  streamData (parseMessage msg now g) = streamData g.
Proof. unfold parseMessage. intros -> ->. reflexivity. Qed.

(** A data line is recognised by its first two characters alone. *)
Lemma data_looks_at_two_characters (d : ascii) (rest : string) :
  Pattern.data (String "m" (String d rest)) = Pattern.streamDigit d.
Proof. reflexivity. Qed.

(** C10.  A data line with an id from 1 to 6 in which the pattern of at
    least one axis finds nothing: the stream of that id is created if
    the table has none, calibrating and with an empty buffer, and
    [update] is not called, so that a stream already in the table, and
    every other stream, is exactly as before. *)
Theorem incomplete_data_line_only_registers (msg : string) (id now : Z)
        (g : Globals) :
  Pattern.data msg = Some id ->
  Pattern.axis "x" msg = None \/ Pattern.axis "y" msg = None
  \/ Pattern.axis "z" msg = None ->
  let table := streamData (parseMessage msg now g) in
  1 <= id <= 6
  /\ table = ensureStream id now (streamData g)
  /\ (is_Some (streamData g !! id) -> table = streamData g)
  /\ (streamData g !! id = None ->
      table = <[id := DataStream.new id now]> (streamData g)
      /\ DataStream.calibrating (DataStream.new id now) = true
      /\ DataStream.calibrationData (DataStream.new id now) = [])
  /\ (forall other : Z, other <> id -> table !! other = streamData g !! other).
Proof.
  intros Hdata Hmissing table.
  assert (Htable : table = ensureStream id now (streamData g)).
  { subst table. unfold parseMessage.
    rewrite (data_not_registration msg id Hdata), Hdata.
    destruct Hmissing as [-> | [-> | ->]];
      repeat (destruct (Pattern.axis _ msg)); reflexivity. }
  split.
  { destruct (data_shape msg id Hdata) as (d & rest & _ & Hdigit).
    eapply streamDigit_range. exact Hdigit. }
  split; [exact Htable|]. rewrite Htable. unfold ensureStream.
  split; [|split].
  - intros [s Hs]. rewrite Hs. reflexivity.
  - intros Hnone. rewrite Hnone. repeat split.
  - intros other Hother.
    destruct (streamData g !! id); [reflexivity|].
    apply lookup_insert_ne. congruence.
Qed.

Lemma incomplete_data_line_only_registers_witness :
  streamData (parseMessage "m3 x=12 y=-7" 40 initialGlobals)
  = <[3 := DataStream.new 3 40]> ∅
  /\ streamData (parseMessage "m3 x=12 y=-7" 90
                   (parseMessage "m3 x=1 y=2 z=3" 40 initialGlobals))
     = streamData (parseMessage "m3 x=1 y=2 z=3" 40 initialGlobals).
Proof.
  pose proof (incomplete_data_line_only_registers
                "m3 x=12 y=-7" 3 40 initialGlobals eq_refl) as Hnew.
  pose proof (incomplete_data_line_only_registers
                "m3 x=12 y=-7" 3 90
                (parseMessage "m3 x=1 y=2 z=3" 40 initialGlobals) eq_refl)
    as Hold.
  cbn zeta in Hnew, Hold. split.
  - destruct Hnew as (_ & _ & _ & Hcreate & _);
      [right; right; reflexivity|].
    apply Hcreate. reflexivity.
  - destruct Hold as (_ & _ & Hkeep & _); [right; right; reflexivity|].
    apply Hkeep. vm_compute. eexists. reflexivity.
Defined.

(** C4.  The registration pattern ends with the end of the line, so
    ["S7"] and ["S12"] change nothing, and ["m7 ..."] changes nothing;
    the data pattern has no such end, so in ["m12 x=1 y=1 z=1"] it reads
    the id 1: stream 1 is created and the sample is handed to its
    [update]. *)
Theorem data_line_with_two_digit_id :
  streamData (parseMessage "S7" 0 initialGlobals) = streamData initialGlobals
  /\ streamData (parseMessage "S12" 0 initialGlobals) = streamData initialGlobals
  /\ streamData (parseMessage "m7 x=1 y=1 z=1" 0 initialGlobals)
     = streamData initialGlobals
  /\ Pattern.data "m12 x=1 y=1 z=1" = Some 1
  /\ streamData (parseMessage "m12 x=1 y=1 z=1" 0 initialGlobals) !! 1
     = Some (DataStream.update 1 1 1 0 (DataStream.new 1 0))
  /\ streamData (parseMessage "m12 x=1 y=1 z=1" 0 initialGlobals)
     <> streamData initialGlobals.
Proof.
  do 5 (split; [reflexivity|]).
  intros H. apply (f_equal (fun table => table !! 1)) in H.
  vm_compute in H. discriminate H.
Qed.

(** ** The ingestion scheduler *)

Lemma purgeEvents_console {App : Type} (a b : Scheduler.t App) :
  Scheduler.console a = Scheduler.console b ->
  Scheduler.purgeEvents a = Scheduler.purgeEvents b.
Proof. unfold Scheduler.purgeEvents. intros ->. reflexivity. Qed.

Section SchedulerFacts.

Context {App : Type}.
Variable parseSerialMessage : string -> App -> App.
Variable noData : NoData.

Abbreviation readLoop := (Scheduler.readLoop App parseSerialMessage noData).
Abbreviation clearLoop := (Scheduler.clearLoop noData).
Abbreviation draw := (Scheduler.draw App parseSerialMessage noData).
Abbreviation ticks := (Scheduler.ticks App parseSerialMessage noData).
Abbreviation drained := (Scheduler.drained App parseSerialMessage noData).
Abbreviation afterDrain := (pendingAfterDrain parseSerialMessage noData).

(** The reading loop hands on at most [budget] lines and takes at most
    [budget] lines out of the buffer. *)
Lemma readLoop_bounds (budget : nat) :
  forall (count : nat) (p : Port) (a : App),
    let result := readLoop budget count p a in
    (count <= fst (fst result) <= count + budget)%nat
    /\ opened (snd (fst result)) = opened p
    /\ (length (pendingLines p)
        <= length (pendingLines (snd (fst result))) + budget)%nat
    /\ (length (pendingLines (snd (fst result))) <= length (pendingLines p))%nat.
Proof.
  induction budget as [|budget IH]; intros count p a; cbn zeta.
  - cbn. repeat split; lia.
  - cbn [Scheduler.readLoop]. unfold Scheduler.readUntil.
    destruct (pendingLines p) as [|line rest] eqn:Hlines.
    + destruct noData; cbn; rewrite ?Hlines; cbn; repeat split; lia.
    + destruct (0 <? String.length line)%nat.
      * specialize (IH (S count) {| opened := opened p; pendingLines := rest |}
                       (parseSerialMessage (JS.trim line) a)).
        cbn zeta in IH. cbn [opened pendingLines] in IH.
        destruct IH as (? & ? & ? & ?). cbn [length].
        repeat split; try assumption; lia.
      * cbn. repeat split; lia.
Qed.

(** On lines that are not empty the reading loop takes exactly the
    first [budget] of them, or all if there are fewer. *)
Lemma readLoop_lines (budget : nat) :
  forall (count : nat) (p : Port) (a : App),
    Forall (fun line => (0 <? String.length line)%nat = true) (pendingLines p) ->
    let result := readLoop budget count p a in
    fst (fst result) = (count + Nat.min budget (length (pendingLines p)))%nat
    /\ opened (snd (fst result)) = opened p
    /\ pendingLines (snd (fst result)) = drop budget (pendingLines p).
Proof.
  induction budget as [|budget IH]; intros count p a Hlines; cbn zeta.
  - cbn. rewrite drop_0. repeat split; lia.
  - cbn [Scheduler.readLoop]. unfold Scheduler.readUntil.
    destruct (pendingLines p) as [|line rest] eqn:Hp.
    + destruct noData; cbn; rewrite ?Hp; cbn; repeat split; lia.
    + apply Forall_cons in Hlines as [-> Hrest].
      specialize (IH (S count) {| opened := opened p; pendingLines := rest |}
                     (parseSerialMessage (JS.trim line) a) Hrest).
      cbn zeta in IH. cbn [opened pendingLines] in IH.
      destruct IH as (-> & -> & ->). cbn [length drop].
      repeat split. lia.
Qed.

(** The clearing loop reads at most [budget] times: it takes the first
    [budget] pending lines out, or all if there are fewer, and counts at
    most [budget]. *)
Lemma clearLoop_lines (budget : nat) :
  forall (cleared : nat) (p : Port),
    let result := clearLoop budget cleared p in
    (fst result <= cleared + budget)%nat
    /\ opened (snd result) = opened p
    /\ pendingLines (snd result) = drop budget (pendingLines p).
Proof.
  induction budget as [|budget IH]; intros cleared p; cbn zeta.
  - cbn. rewrite drop_0. repeat split; lia.
  - cbn [Scheduler.clearLoop]. unfold Scheduler.readUntil.
    destruct (pendingLines p) as [|line rest] eqn:Hp.
    + destruct noData.
      * cbn. rewrite Hp. repeat split; lia.
      * specialize (IH (S cleared) p). cbn zeta in IH.
        destruct IH as (? & -> & ->). rewrite Hp, !drop_nil.
        repeat split; lia.
    + specialize (IH (S cleared) {| opened := opened p; pendingLines := rest |}).
      cbn zeta in IH. cbn [opened pendingLines] in IH.
      destruct IH as (? & -> & ->). cbn [drop]. repeat split; lia.
Qed.

(** One tick on an open port, case by case. *)
Lemma draw_cases (st : Scheduler.t App) :
  opened (Scheduler.port st) = true ->
  let st' := draw st in
  (drained st <= MAX_MESSAGES_PER_FRAME)%nat
  /\ opened (Scheduler.port st') = true
  /\ ((drained st < MAX_MESSAGES_PER_FRAME)%nat ->
      Scheduler.consecutiveBacklogFrames st' = O
      /\ Scheduler.console st' = Scheduler.console st
      /\ pendingLines (Scheduler.port st')
         = pendingLines
             (snd (fst (readLoop MAX_MESSAGES_PER_FRAME 0
                          (Scheduler.port st) (Scheduler.app st)))))
  /\ (drained st = MAX_MESSAGES_PER_FRAME ->
      (S (Scheduler.consecutiveBacklogFrames st) < AUTO_CLEAR_THRESHOLD)%nat ->
      Scheduler.consecutiveBacklogFrames st'
      = S (Scheduler.consecutiveBacklogFrames st)
      /\ Scheduler.console st' = Scheduler.console st
      /\ pendingLines (Scheduler.port st')
         = pendingLines
             (snd (fst (readLoop MAX_MESSAGES_PER_FRAME 0
                          (Scheduler.port st) (Scheduler.app st)))))
  /\ (drained st = MAX_MESSAGES_PER_FRAME ->
      (AUTO_CLEAR_THRESHOLD <= S (Scheduler.consecutiveBacklogFrames st))%nat ->
      Scheduler.consecutiveBacklogFrames st' = O
      /\ Scheduler.purgeEvents st' = S (Scheduler.purgeEvents st)
      /\ pendingLines (Scheduler.port st')
         = drop MAX_CLEAR
             (pendingLines
                (snd (fst (readLoop MAX_MESSAGES_PER_FRAME 0
                             (Scheduler.port st) (Scheduler.app st)))))).
Proof.
  intros Hopen st'. subst st'. unfold Scheduler.draw, Scheduler.drained.
  rewrite Hopen.
  pose proof (readLoop_bounds MAX_MESSAGES_PER_FRAME 0
                (Scheduler.port st) (Scheduler.app st)) as Hread.
  cbn zeta in Hread.
  destruct (readLoop MAX_MESSAGES_PER_FRAME 0 (Scheduler.port st)
                     (Scheduler.app st)) as [[n p] a].
  cbn [fst snd] in *. destruct Hread as (Hn & Hp & _).
  rewrite Hopen in Hp.
  split; [lia|].
  destruct (Nat.leb_spec MAX_MESSAGES_PER_FRAME n) as [Hfull | Hless].
  - destruct (Nat.leb_spec AUTO_CLEAR_THRESHOLD
                           (S (Scheduler.consecutiveBacklogFrames st)))
      as [Hpurge | Hcount].
    + unfold Scheduler.clearSerialBuffer.
      cbn [Scheduler.port Scheduler.console Scheduler.app]. rewrite Hp.
      cbn [negb].
      pose proof (clearLoop_lines MAX_CLEAR 0 p) as Hclear.
      cbn zeta in Hclear.
      destruct (clearLoop MAX_CLEAR 0 p) as [cleared p2].
      cbn [fst snd] in *. destruct Hclear as (_ & Hp2 & Hlines).
      cbn [Scheduler.port Scheduler.console
           Scheduler.consecutiveBacklogFrames].
      split; [congruence|].
      split; [lia|]. split; [lia|]. intros _ _.
      split; [reflexivity|]. split; [|exact Hlines].
      unfold Scheduler.purgeEvents. cbn [Scheduler.console].
      rewrite !List.filter_app, !length_app. cbn [List.filter Scheduler.isAutoClearing length].
      destruct (MAX_CLEAR <=? cleared)%nat; cbn; lia.
    + cbn [Scheduler.port Scheduler.console
           Scheduler.consecutiveBacklogFrames].
      split; [exact Hp|]. split; [lia|].
      split; [intros _ _; repeat split | lia].
  - cbn [Scheduler.port Scheduler.console
         Scheduler.consecutiveBacklogFrames].
    split; [exact Hp|].
    split; [intros _; repeat split|].
    split; lia.
Qed.

(** One tick when every pending line is a proper line: the three
    cases by the number of lines pending. *)
Lemma draw_waiting (st : Scheduler.t App) :
  linesWaiting st ->
  let st' := draw st in
  linesWaiting st'
  /\ drained st = Nat.min MAX_MESSAGES_PER_FRAME (Scheduler.pending st)
  /\ afterDrain st = (Scheduler.pending st - MAX_MESSAGES_PER_FRAME)%nat
  /\ ((Scheduler.pending st < MAX_MESSAGES_PER_FRAME)%nat ->
      Scheduler.consecutiveBacklogFrames st' = O
      /\ Scheduler.console st' = Scheduler.console st
      /\ Scheduler.pending st' = O)
  /\ ((MAX_MESSAGES_PER_FRAME <= Scheduler.pending st)%nat ->
      (S (Scheduler.consecutiveBacklogFrames st) < AUTO_CLEAR_THRESHOLD)%nat ->
      Scheduler.consecutiveBacklogFrames st'
      = S (Scheduler.consecutiveBacklogFrames st)
      /\ Scheduler.console st' = Scheduler.console st
      /\ Scheduler.pending st'
         = (Scheduler.pending st - MAX_MESSAGES_PER_FRAME)%nat)
  /\ ((MAX_MESSAGES_PER_FRAME <= Scheduler.pending st)%nat ->
      (AUTO_CLEAR_THRESHOLD <= S (Scheduler.consecutiveBacklogFrames st))%nat ->
      Scheduler.consecutiveBacklogFrames st' = O
      /\ Scheduler.purgeEvents st' = S (Scheduler.purgeEvents st)
      /\ Scheduler.pending st'
         = (Scheduler.pending st - MAX_MESSAGES_PER_FRAME - MAX_CLEAR)%nat).
Proof.
  intros [Hopen Hlines] st'.
  destruct (draw_cases st Hopen) as (_ & Hopen' & Hless & Hcount & Hpurge).
  destruct (readLoop_lines MAX_MESSAGES_PER_FRAME 0 (Scheduler.port st)
                           (Scheduler.app st) Hlines)
    as (Hn & _ & Hrest).
  fold st' in Hopen', Hless, Hcount, Hpurge.
  fold (drained st) in Hn. rewrite Hrest in Hless, Hcount, Hpurge.
  assert (Hafter : afterDrain st
                   = (Scheduler.pending st - MAX_MESSAGES_PER_FRAME)%nat).
  { unfold pendingAfterDrain, Scheduler.pending. rewrite Hrest.
    apply length_drop. }
  assert (Hstill : linesWaiting st').
  { split; [exact Hopen'|].
    destruct (Nat.lt_ge_cases (drained st) MAX_MESSAGES_PER_FRAME)
      as [Hlt | Hge].
    - destruct (Hless Hlt) as (_ & _ & ->). apply Forall_drop, Hlines.
    - assert (Hfull : drained st = MAX_MESSAGES_PER_FRAME) by lia.
      destruct (Nat.lt_ge_cases (S (Scheduler.consecutiveBacklogFrames st))
                                AUTO_CLEAR_THRESHOLD) as [Hc | Hc].
      + destruct (Hcount Hfull Hc) as (_ & _ & ->). apply Forall_drop, Hlines.
      + destruct (Hpurge Hfull Hc) as (_ & _ & ->).
        apply Forall_drop, Forall_drop, Hlines. }
  split; [exact Hstill|]. split; [exact Hn|]. split; [exact Hafter|].
  unfold Scheduler.pending in *. cbn [Nat.add] in Hn.
  split; [|split].
  - intros Hfew. destruct Hless as (-> & -> & ->); [lia|].
    rewrite length_drop. repeat split. lia.
  - intros Hmany Hc. destruct (Hcount ltac:(lia) Hc) as (-> & -> & ->).
    rewrite length_drop. repeat split.
  - intros Hmany Hc. destruct (Hpurge ltac:(lia) Hc) as (-> & -> & ->).
    rewrite !length_drop. repeat split.
Qed.

Lemma ticks_add (j k : nat) (st : Scheduler.t App) :
  ticks (j + k) st = ticks k (ticks j st).
Proof.
  revert st. induction j as [|j IH]; intros st; [reflexivity|].
  cbn [Nat.add Scheduler.ticks]. apply IH.
Qed.

(** While the buffer holds twenty lines for each tick and the counter
    stays below the threshold, each tick takes twenty lines and counts
    one more, and nothing is purged. *)
Lemma ticks_counting (j : nat) :
  forall st : Scheduler.t App,
    linesWaiting st ->
    (Scheduler.consecutiveBacklogFrames st + j < AUTO_CLEAR_THRESHOLD)%nat ->
    (MAX_MESSAGES_PER_FRAME * j <= Scheduler.pending st)%nat ->
    linesWaiting (ticks j st)
    /\ Scheduler.consecutiveBacklogFrames (ticks j st)
       = (Scheduler.consecutiveBacklogFrames st + j)%nat
    /\ Scheduler.pending (ticks j st)
       = (Scheduler.pending st - MAX_MESSAGES_PER_FRAME * j)%nat
    /\ Scheduler.console (ticks j st) = Scheduler.console st.
Proof.
  induction j as [|j IH]; intros st Hwait Hframes Hlines.
  - cbn [Scheduler.ticks].
    split; [exact Hwait|]. split; [lia|]. split; [lia | reflexivity].
  - cbn [Scheduler.ticks].
    destruct (draw_waiting st Hwait) as (Hwait' & _ & _ & _ & Hcount & _).
    destruct Hcount as (Hf & Hc & Hp); [lia..|].
    destruct (IH (draw st) Hwait') as (? & -> & -> & ->); [lia..|].
    rewrite Hf, Hc, Hp.
    split; [assumption|]. split; [lia|]. split; [lia | reflexivity].
Qed.

(** When the lines pending and the ticks already counted do not add up
    to a full threshold, no later tick purges. *)
Lemma ticks_quiet (k : nat) :
  forall st : Scheduler.t App,
    linesWaiting st ->
    (Scheduler.pending st
     + MAX_MESSAGES_PER_FRAME * Scheduler.consecutiveBacklogFrames st
     < MAX_MESSAGES_PER_FRAME * AUTO_CLEAR_THRESHOLD)%nat ->
    Scheduler.console (ticks k st) = Scheduler.console st.
Proof.
  induction k as [|k IH]; intros st Hwait Hroom; [reflexivity|].
  cbn [Scheduler.ticks].
  destruct (draw_waiting st Hwait) as (Hwait' & _ & _ & Hless & Hcount & _).
  destruct (Nat.lt_ge_cases (Scheduler.pending st) MAX_MESSAGES_PER_FRAME)
    as [Hfew | Hmany].
  - destruct (Hless Hfew) as (Hf & Hc & Hp).
    rewrite IH; [exact Hc | exact Hwait' |]. rewrite Hf, Hp.
    unfold MAX_MESSAGES_PER_FRAME, AUTO_CLEAR_THRESHOLD. lia.
  - unfold MAX_MESSAGES_PER_FRAME, AUTO_CLEAR_THRESHOLD in *.
    destruct (Hcount Hmany) as (Hf & Hc & Hp); [lia|].
    rewrite IH; [exact Hc | exact Hwait' |]. rewrite Hf, Hp. lia.
Qed.

(** A backlog of at least sixty full ticks, met with the counter at 0:
    the first 59 ticks only count, the 60th purges once, and what is
    left is the backlog less the sixty times twenty lines read and the
    thousand purged, with the counter at 0 again. *)
Lemma ticks_to_threshold (st : Scheduler.t App) :
  linesWaiting st ->
  Scheduler.consecutiveBacklogFrames st = O ->
  (MAX_MESSAGES_PER_FRAME * AUTO_CLEAR_THRESHOLD <= Scheduler.pending st)%nat ->
  let st60 := ticks AUTO_CLEAR_THRESHOLD st in
  linesWaiting st60
  /\ Scheduler.consecutiveBacklogFrames st60 = O
  /\ Scheduler.purgeEvents st60 = S (Scheduler.purgeEvents st)
  /\ Scheduler.pending st60
     = (Scheduler.pending st
        - MAX_MESSAGES_PER_FRAME * AUTO_CLEAR_THRESHOLD - MAX_CLEAR)%nat
  /\ forall k : nat,
      (k < AUTO_CLEAR_THRESHOLD)%nat ->
      Scheduler.console (ticks k st) = Scheduler.console st.
Proof.
  intros Hwait Hzero Hburst st60.
  destruct (ticks_counting 59 st Hwait) as (Hwait59 & Hf59 & Hp59 & Hc59);
    [unfold AUTO_CLEAR_THRESHOLD; lia
    | unfold MAX_MESSAGES_PER_FRAME, AUTO_CLEAR_THRESHOLD in *; lia|].
  destruct (draw_waiting (ticks 59 st) Hwait59)
    as (Hwait60 & _ & _ & _ & _ & Hlast).
  assert (H60 : st60 = draw (ticks 59 st)).
  { subst st60. change AUTO_CLEAR_THRESHOLD with (59 + 1)%nat.
    rewrite ticks_add. reflexivity. }
  unfold MAX_MESSAGES_PER_FRAME, AUTO_CLEAR_THRESHOLD, MAX_CLEAR in *.
  destruct Hlast as (Hf60 & He60 & Hp60); [lia..|].
  rewrite H60.
  split; [exact Hwait60|]. split; [exact Hf60|].
  split; [rewrite He60; f_equal; apply purgeEvents_console, Hc59|].
  split; [rewrite Hp60, Hp59; lia|].
  intros k Hk.
  apply (ticks_counting k st Hwait);
    [unfold AUTO_CLEAR_THRESHOLD; lia | unfold MAX_MESSAGES_PER_FRAME; lia].
Qed.

End SchedulerFacts.

(** C7 (as amended).  On an open port, one tick hands at most 20 lines
    to the parser.  A tick that hands on exactly 20 adds one to the
    backlog counter, any other tick sets the counter to 0, and neither
    purges, except that the tick on which the counter reaches 60 purges
    once, discarding at most 1000 of the lines still pending, and
    leaves the counter at 0.  For a burst of at least 20 * 60 and fewer
    than 20 * 60 + 1000 + 20 * 60 lines, waiting in the buffer with
    the counter at 0, there is no purge in the first 59 ticks, the 60th
    tick purges and leaves the counter at 0, and no later tick purges:
    exactly one purge in all.  A larger burst is purged again: the
    first purge at tick 60 leaves at least 20 * 60 lines, and tick 120
    purges a second time.  On a port that is not open a tick changes
    nothing at all: buffer, parser state, flag, counter and console are
    as they were, after any number of ticks. *)
Theorem scheduler_tick_and_burst {App : Type}
        (parseSerialMessage : string -> App -> App) (noData : NoData)
        (st : Scheduler.t App) :
  let st' := Scheduler.draw App parseSerialMessage noData st in
  let drained := Scheduler.drained App parseSerialMessage noData st in
  let frames := Scheduler.consecutiveBacklogFrames st in
  (opened (Scheduler.port st) = true ->
   (drained <= 20)%nat
   /\ (drained = 20%nat -> (S frames < 60)%nat ->
       Scheduler.consecutiveBacklogFrames st' = S frames
       /\ Scheduler.purgeEvents st' = Scheduler.purgeEvents st
       /\ Scheduler.pending st' = pendingAfterDrain parseSerialMessage noData st)
   /\ (drained <> 20%nat ->
       Scheduler.consecutiveBacklogFrames st' = O
       /\ Scheduler.purgeEvents st' = Scheduler.purgeEvents st
       /\ Scheduler.pending st' = pendingAfterDrain parseSerialMessage noData st)
   /\ (drained = 20%nat -> (60 <= S frames)%nat ->
       Scheduler.consecutiveBacklogFrames st' = O
       /\ Scheduler.purgeEvents st' = S (Scheduler.purgeEvents st)
       /\ (Scheduler.pending st'
           <= pendingAfterDrain parseSerialMessage noData st
           <= Scheduler.pending st' + 1000)%nat))
  /\ (linesWaiting st -> frames = O ->
      (20 * 60 <= Scheduler.pending st < 20 * 60 + 1000 + 20 * 60)%nat ->
      Scheduler.consecutiveBacklogFrames
        (Scheduler.ticks App parseSerialMessage noData 60 st) = O
      /\ forall k : nat,
          Scheduler.purgeEvents
            (Scheduler.ticks App parseSerialMessage noData k st)
          = (Scheduler.purgeEvents st + if (60 <=? k)%nat then 1 else 0)%nat)
  /\ (linesWaiting st -> frames = O ->
      (20 * 60 + 1000 + 20 * 60 <= Scheduler.pending st)%nat ->
      Scheduler.consecutiveBacklogFrames
        (Scheduler.ticks App parseSerialMessage noData 60 st) = O
      /\ Scheduler.consecutiveBacklogFrames
           (Scheduler.ticks App parseSerialMessage noData 120 st) = O
      /\ forall k : nat,
          (k <= 120)%nat ->
          Scheduler.purgeEvents
            (Scheduler.ticks App parseSerialMessage noData k st)
          = (Scheduler.purgeEvents st
             + (if (60 <=? k)%nat then 1 else 0)
             + (if (120 <=? k)%nat then 1 else 0))%nat)
  /\ (opened (Scheduler.port st) = false ->
      st' = st
      /\ forall k : nat,
          Scheduler.ticks App parseSerialMessage noData k st = st).
Proof.
  intros st' drained frames.
  split; [|split; [|split]].
  - intros Hopen.
    destruct (draw_cases parseSerialMessage noData st Hopen)
      as (Hmax & _ & Hless & Hcount & Hpurge).
    fold st' in Hless, Hcount, Hpurge.
    fold drained in Hmax, Hless, Hcount, Hpurge.
    fold frames in Hcount, Hpurge.
    unfold pendingAfterDrain.
    change MAX_MESSAGES_PER_FRAME with 20%nat in *.
    change AUTO_CLEAR_THRESHOLD with 60%nat in *.
    split; [exact Hmax|]. split; [|split].
    + intros Hfull Hframes. destruct (Hcount Hfull Hframes) as (Hf & Hc & Hp).
      unfold Scheduler.pending.
      rewrite Hf, Hp. repeat split. apply purgeEvents_console, Hc.
    + intros Hother. destruct Hless as (Hf & Hc & Hp); [lia|].
      unfold Scheduler.pending.
      rewrite Hf, Hp. repeat split. apply purgeEvents_console, Hc.
    + intros Hfull Hframes. destruct (Hpurge Hfull Hframes) as (Hf & He & Hp).
      unfold Scheduler.pending.
      rewrite Hf, He, Hp, length_drop. unfold MAX_CLEAR.
      split; [reflexivity|]. split; [reflexivity|]. lia.
  - intros Hwait Hzero Hburst. subst frames.
    (* the first 59 ticks count, the 60th purges, the rest are quiet *)
    destruct (ticks_to_threshold parseSerialMessage noData st Hwait Hzero)
      as (Hwait60 & Hf60 & He60 & Hp60 & Hearly);
      [unfold MAX_MESSAGES_PER_FRAME, AUTO_CLEAR_THRESHOLD; lia|].
    unfold MAX_MESSAGES_PER_FRAME, AUTO_CLEAR_THRESHOLD, MAX_CLEAR in *.
    split; [exact Hf60|].
    intros k. destruct (Nat.leb_spec 60 k) as [Hlate | Hbefore].
    + replace k with (60 + (k - 60))%nat by lia.
      rewrite ticks_add.
      rewrite (purgeEvents_console _
                 (Scheduler.ticks App parseSerialMessage noData 60 st)).
      * rewrite He60. lia.
      * apply ticks_quiet; [exact Hwait60|].
        unfold MAX_MESSAGES_PER_FRAME, AUTO_CLEAR_THRESHOLD. lia.
    + rewrite Nat.add_0_r. apply purgeEvents_console, Hearly, Hbefore.
  - intros Hwait Hzero Hburst. subst frames.
    (* the purge at tick 60 leaves a backlog of sixty full ticks again *)
    destruct (ticks_to_threshold parseSerialMessage noData st Hwait Hzero)
      as (Hwait60 & Hf60 & He60 & Hp60 & Hearly);
      [unfold MAX_MESSAGES_PER_FRAME, AUTO_CLEAR_THRESHOLD; lia|].
    set (st60 := Scheduler.ticks App parseSerialMessage noData
                   AUTO_CLEAR_THRESHOLD st) in *.
    destruct (ticks_to_threshold parseSerialMessage noData st60 Hwait60 Hf60)
      as (_ & Hf120 & He120 & _ & Hbetween);
      [rewrite Hp60;
       unfold MAX_MESSAGES_PER_FRAME, AUTO_CLEAR_THRESHOLD, MAX_CLEAR; lia|].
    assert (Hsplit : forall j : nat,
               Scheduler.ticks App parseSerialMessage noData (60 + j) st
               = Scheduler.ticks App parseSerialMessage noData j st60).
    { intros j. rewrite ticks_add. reflexivity. }
    unfold AUTO_CLEAR_THRESHOLD in Hearly, Hbetween, He120, Hf120.
    split; [exact Hf60|].
    split; [change 120%nat with (60 + 60)%nat; rewrite Hsplit; exact Hf120|].
    intros k Hk.
    destruct (Nat.leb_spec 60 k) as [Hlate | Hbefore].
    + replace k with (60 + (k - 60))%nat at 1 by lia. rewrite Hsplit.
      destruct (Nat.leb_spec 120 k) as [Hlast | Hmiddle].
      * replace (k - 60)%nat with 60%nat by lia. rewrite He120, He60. lia.
      * rewrite (purgeEvents_console _ st60) by (apply Hbetween; lia).
        rewrite He60. lia.
    + destruct (Nat.leb_spec 120 k) as [Hlast | _]; [lia|].
      rewrite !Nat.add_0_r. apply purgeEvents_console, Hearly, Hbefore.
  - intros Hclosed.
    assert (Hdraw : st' = st).
    { subst st'. unfold Scheduler.draw. rewrite Hclosed. reflexivity. }
    split; [exact Hdraw|].
    intros k. induction k as [|k IH]; [reflexivity|].
    cbn [Scheduler.ticks]. fold st'. rewrite Hdraw. exact IH.
Qed.

Lemma burst_linesWaiting (n : nat) : linesWaiting (burst n).
Proof.
  split; [reflexivity|]. cbn [burst Scheduler.port pendingLines].
  induction n as [|n IH]; constructor; [reflexivity | exact IH].
Qed.

Lemma burst_pending (n : nat) : Scheduler.pending (burst n) = n.
Proof. apply repeat_length. Qed.

Lemma scheduler_tick_and_burst_witness :
  Scheduler.purgeEvents (Scheduler.ticks unit ignoreLine ReturnsNull 59 (burst 1201))
  = O
  /\ Scheduler.purgeEvents
       (Scheduler.ticks unit ignoreLine ReturnsNull 500 (burst 1201)) = 1%nat
  /\ Scheduler.consecutiveBacklogFrames
       (Scheduler.ticks unit ignoreLine ReturnsNull 60 (burst 1201)) = O
  /\ (Scheduler.drained unit ignoreLine ReturnsNull (burst 1201) <= 20)%nat.
Proof.
  pose proof (scheduler_tick_and_burst ignoreLine ReturnsNull (burst 1201))
    as Hall.
  cbn zeta in Hall. destruct Hall as (Htick & Hburst & _ & _).
  destruct (Htick eq_refl) as (Hmax & _).
  destruct Hburst as [Hzero Hcount];
    [apply burst_linesWaiting | reflexivity | rewrite burst_pending; lia |].
  split; [exact (Hcount 59%nat)|]. split; [exact (Hcount 500%nat)|].
  split; [exact Hzero | exact Hmax].
Defined.

(** C7 (as stated) fails in its last part: a burst of 3400 lines, which
    is more than 20 * 60, is purged at tick 60 and, the purge being
    capped at 1000 lines, again at tick 120.  And on a port that is not
    open a tick hands on no line and yet leaves the counter as it is. *)
Lemma large_burst_purges_twice :
  (20 * 60 < Scheduler.pending (burst 3400))%nat
  /\ Scheduler.purgeEvents
       (Scheduler.ticks unit ignoreLine ReturnsNull 60 (burst 3400)) = 1%nat
  /\ Scheduler.purgeEvents
       (Scheduler.ticks unit ignoreLine ReturnsNull 120 (burst 3400)) = 2%nat
  /\ Scheduler.consecutiveBacklogFrames
       (Scheduler.draw unit ignoreLine ReturnsNull
          (Scheduler.mk {| opened := false; pendingLines := [] |}
                        tt true 5%nat [])) = 5%nat.
Proof.
  split; [rewrite burst_pending; lia|].
  split; [vm_compute; reflexivity|].
  split; [vm_compute; reflexivity | reflexivity].
Qed.

(** * Further properties of the stream class *)

(** ** Comparisons *)

Lemma SFltb_asym (f g : spec_float) : SFltb f g = true -> SFltb g f = false.
Proof.
  unfold SFltb, SFcompare.
  destruct f as [sf | sf | | sf mf ef], g as [sg | sg | | sg mg eg];
    try discriminate; try reflexivity;
    try (destruct sf; try discriminate; try reflexivity;
         destruct sg; try discriminate; reflexivity).
  assert (Hman : Pos.compare_cont Eq mg mf
                 = CompOpp (Pos.compare_cont Eq mf mg)).
  { rewrite Pos.compare_cont_antisym. reflexivity. }
  destruct sf, sg; try discriminate; try reflexivity;
    rewrite (Z.compare_antisym ef eg), Hman;
    destruct (ef ?= eg)%Z; cbn [CompOpp]; try discriminate; try reflexivity;
    destruct (Pos.compare_cont Eq mf mg); cbn; try discriminate; reflexivity.
Qed.

Lemma lt_asym (a b : JS.number) : JS.lt a b = true -> JS.lt b a = false.
Proof. unfold JS.lt. rewrite !ltb_spec. apply SFltb_asym. Qed.

Lemma lt_nan_left (a : JS.number) : JS.lt PrimFloat.nan a = false.
Proof. unfold JS.lt. rewrite ltb_spec. reflexivity. Qed.

(** [Math.max(a, b)] is never below [a]. *)
Lemma max_not_below_left (a b : JS.number) : JS.lt (JS.max a b) a = false.
Proof.
  unfold JS.max.
  destruct (PrimFloat.is_nan a || PrimFloat.is_nan b); [apply lt_nan_left|].
  destruct (PrimFloat.ltb a b) eqn:Hab; [apply lt_asym, Hab|].
  destruct (PrimFloat.ltb b a) eqn:Hba; [apply lt_irrefl|].
  destruct (PrimFloat.classify a); try apply lt_irrefl. exact Hba.
Qed.

(** ** Invariants of the streams the sketch can hold *)

(** X1.  In every stream the sketch can hold, the calibration buffer
    holds fewer than sixty samples while the stream is calibrating and
    exactly sixty once it is calibrated: the buffer never grows past the
    sixty samples a calibration uses. *)
Theorem calibration_buffer_invariant (this : DataStream.t) :
  reachable this ->
  (DataStream.calibrating this = true ->
   (length (DataStream.calibrationData this) < 60)%nat)
  /\ (DataStream.calibrating this = false ->
      length (DataStream.calibrationData this) = 60%nat).
Proof.
  induction 1 as [id now | ax ay az now this Hreach [IHcal IHready]
                  | this Hreach _].
  - split; [intros _; cbn; lia | discriminate].
  - destruct (rejected ax ay az) eqn:Hrej.
    { rewrite update_rejected by assumption. auto. }
    destruct (DataStream.calibrating this) eqn:Hcal.
    + specialize (IHcal eq_refl).
      destruct (Nat.lt_ge_cases (S (length (DataStream.calibrationData this))) 60)
        as [Hless | Hfull].
      * rewrite (update_collecting _ _ _ now this Hrej Hcal Hless).
        cbn [DataStream.calibrating DataStream.calibrationData].
        split; [intros _ | discriminate]. rewrite length_app. cbn. lia.
      * destruct (update_finishing _ _ _ now this Hrej Hcal Hfull)
          as (Hdone & _ & Hdata & _).
        rewrite Hdone, Hdata. split; [discriminate | intros _].
        rewrite length_app. cbn. lia.
    + rewrite (update_ready _ _ _ now this Hrej Hcal). cbn zeta.
      cbn [DataStream.calibrating DataStream.calibrationData].
      split; [discriminate | intros _; apply IHready; reflexivity].
  - split; [intros _; cbn; lia | discriminate].
Qed.

Lemma calibration_buffer_invariant_witness :
  length (DataStream.calibrationData slightStream) = 60%nat
  /\ (length (DataStream.calibrationData
                (DataStream.update 1 2 3 400
                   (DataStream.startCalibration slightStream))) < 60)%nat.
Proof.
  assert (Hslight : reachable slightStream).
  { apply reachable_update, reachable_feed, reachable_new. }
  split.
  - apply (calibration_buffer_invariant slightStream Hslight). reflexivity.
  - apply (calibration_buffer_invariant
             (DataStream.update 1 2 3 400 (DataStream.startCalibration slightStream))).
    + apply reachable_update, reachable_startCalibration, Hslight.
    + reflexivity.
Defined.

(** What the sample that completes a calibration installs: a deadzone
    [Math.max(250, ...)] and a first threshold [Math.max(300, ...)]. *)
Lemma update_finishing_floors (ax ay az : JS.number) (now : Z)
      (this : DataStream.t) :
  rejected ax ay az = false ->
  DataStream.calibrating this = true ->
  (60 <= S (length (DataStream.calibrationData this)))%nat ->
  exists v w : JS.number,
    DataStream.deadzone (DataStream.update ax ay az now this) = JS.max 250 v
    /\ DataStream.motionThresholds (DataStream.update ax ay az now this) !! 0%nat
       = Some (JS.max 300 w).
Proof.
  intros Hvalid Hcal Hlen. unfold DataStream.update. fold (rejected ax ay az).
  rewrite Hvalid, Hcal. cbn [DataStream.calibrationData].
  rewrite length_app, Nat.add_1_r.
  destruct (Nat.leb_spec 60 (S (length (DataStream.calibrationData this)))); [|lia].
  eexists. eexists. split; reflexivity.
Qed.

(** X2.  In every stream the sketch can hold the deadzone is never
    below 250, and once the stream is calibrated its first threshold is
    never below 300 (either may be [NaN], when the measured noise is). *)
Theorem deadzone_and_first_threshold_floor (this : DataStream.t) :
  reachable this ->
  JS.lt (DataStream.deadzone this) 250 = false
  /\ (DataStream.calibrating this = false ->
      forall first : JS.number,
        DataStream.motionThresholds this !! 0%nat = Some first ->
        JS.lt first 300 = false).
Proof.
  intros Hreach.
  assert (Hinv : JS.lt (DataStream.deadzone this) 250 = false
                 /\ (DataStream.motionThresholds this
                     = [200; 500; 1000; 2000]%float
                     \/ forall first : JS.number,
                         DataStream.motionThresholds this !! 0%nat = Some first ->
                         JS.lt first 300 = false)).
  { clear - Hreach.
    induction Hreach as [id now | ax ay az now this Hreach [IHdead IHthr]
                         | this Hreach IH].
    - split; [reflexivity | left; reflexivity].
    - destruct (rejected ax ay az) eqn:Hrej.
      { rewrite update_rejected by assumption. auto. }
      destruct (DataStream.calibrating this) eqn:Hcal.
      + destruct (Nat.lt_ge_cases (S (length (DataStream.calibrationData this))) 60)
          as [Hless | Hfull].
        * rewrite (update_collecting _ _ _ now this Hrej Hcal Hless). auto.
        * destruct (update_finishing_floors _ _ _ now this Hrej Hcal Hfull)
            as (v & w & -> & Hfirst).
          split; [apply max_not_below_left|]. right.
          intros first Hlookup. rewrite Hfirst in Hlookup.
          injection Hlookup as <-. apply max_not_below_left.
      + rewrite (update_ready _ _ _ now this Hrej Hcal). auto.
    - exact IH. }
  destruct Hinv as [Hdead Hthr]. split; [exact Hdead|].
  intros Hcal first Hfirst.
  destruct Hthr as [Hdefault | Hfloor]; [|apply Hfloor, Hfirst].
  pose proof (proj1 (reachable_invariant this Hreach) Hcal) as Hsix.
  rewrite Hdefault in Hsix. discriminate Hsix.
Qed.

Lemma deadzone_and_first_threshold_floor_witness :
  JS.lt (DataStream.deadzone slightStream) 250 = false
  /\ JS.lt 300 300 = false.
Proof.
  assert (Hslight : reachable slightStream).
  { apply reachable_update, reachable_feed, reachable_new. }
  destruct (deadzone_and_first_threshold_floor slightStream Hslight)
    as [Hdead Hfirst].
  split; [exact Hdead|]. apply Hfirst; reflexivity.
Defined.

(** X3.  In every stream the sketch can hold, [getMotionLabel] and
    [getMotionColor] find an entry: the level is always an index of
    their six-element arrays. *)
Theorem motion_label_and_color_defined (this : DataStream.t) :
  reachable this ->
  0 <= DataStream.motion this <= 5
  /\ is_Some (DataStream.getMotionLabel this)
  /\ is_Some (DataStream.getMotionColor this).
Proof.
  intros Hreach. destruct (reachable_invariant this Hreach) as [_ Hlevel].
  split; [exact Hlevel|].
  unfold DataStream.getMotionLabel, DataStream.getMotionColor.
  destruct (Z.ltb_spec (DataStream.motion this) 0); [lia|].
  split; apply lookup_lt_is_Some; cbn [length]; lia.
Qed.

Lemma motion_label_and_color_defined_witness :
  is_Some (DataStream.getMotionLabel
             (DataStream.update PrimFloat.infinity 0 0 300 slightStream)).
Proof.
  apply (motion_label_and_color_defined
           (DataStream.update PrimFloat.infinity 0 0 300 slightStream)).
  apply reachable_update, reachable_update, reachable_feed, reachable_new.
Defined.

(** X4.  Every sample that passes the [isNaN] test stamps [lastUpdate]
    with the time of the call, whether the stream is calibrating,
    completing its calibration or calibrated, so that the stream is
    active exactly during the 5000 ms that follow; a sample that is
    turned away leaves the stamp as it was. *)
Theorem accepted_sample_marks_active (ax ay az : JS.number) (now : Z)
        (this : DataStream.t) :
  DataStream.lastUpdate (DataStream.update ax ay az now this)
  = (if rejected ax ay az then DataStream.lastUpdate this else now)
  /\ (rejected ax ay az = false ->
      forall t : Z,
        DataStream.isActive t (DataStream.update ax ay az now this) = true
        <-> t - now < 5000).
Proof.
  assert (Hstamp : DataStream.lastUpdate (DataStream.update ax ay az now this)
                   = (if rejected ax ay az then DataStream.lastUpdate this
                      else now)).
  { unfold DataStream.update. fold (rejected ax ay az).
    destruct (rejected ax ay az); [reflexivity|].
    destruct (DataStream.calibrating this); reflexivity. }
  split; [exact Hstamp|]. intros Hvalid t.
  unfold DataStream.isActive. rewrite Hstamp, Hvalid. apply Z.ltb_lt.
Qed.

Lemma accepted_sample_marks_active_witness :
  DataStream.isActive 5299 (DataStream.update 1 2 3 300 slightStream) = true
  /\ DataStream.isActive 5300 (DataStream.update 1 2 3 300 slightStream) = false.
Proof.
  destruct (accepted_sample_marks_active 1 2 3 300 slightStream) as [_ Hactive].
  split; [apply Hactive; [reflexivity | lia]|].
  apply not_true_is_false. intros H.
  apply (Hactive eq_refl) in H. lia.
Defined.

(** ** Increases of the level *)

(** The scan returns one more than the highest level whose threshold the
    distance reaches. *)
Lemma scanFrom_highest (n level : nat) (thresholds : list JS.number)
      (effective : JS.number) (start : Z) :
  (level < n)%nat ->
  JS.ge effective (JS.toNumber (thresholds !! level)) = true ->
  (forall above : nat, (level < above < n)%nat ->
     JS.ge effective (JS.toNumber (thresholds !! above)) = false) ->
  DataStream.scanFrom n thresholds effective start = Z.of_nat level + 1.
Proof.
  intros Hlevel Hreached Habove.
  induction n as [|top IH]; [lia|]. cbn [DataStream.scanFrom].
  destruct (Nat.eq_dec level top) as [-> | Hne].
  - rewrite Hreached. reflexivity.
  - rewrite (Habove top) by lia. apply IH; [lia|].
    intros above Hbetween. apply Habove. lia.
Qed.

(** X5.  An increase takes effect at once.  On a calibrated stream, when
    the highest threshold the effective distance reaches is the one of
    index [level] (0 to 5) and the current level is [level] or less, the
    level after the call is [level + 1], capped at 5, and the time of
    the call is stamped as the time of the last change: neither the
    hysteresis nor the stuck-motion reset applies. *)
Theorem increase_is_immediate (ax ay az : JS.number) (now : Z)
        (this : DataStream.t) (level : nat) :
  rejected ax ay az = false ->
  DataStream.calibrating this = false ->
  (level < 6)%nat ->
  let effective := DataStream.effectiveDistance this ax ay az in
  JS.ge effective (JS.toNumber (DataStream.motionThresholds this !! level))
  = true ->
  (forall above : nat, (level < above < 6)%nat ->
     JS.ge effective (JS.toNumber (DataStream.motionThresholds this !! above))
     = false) ->
  DataStream.motion this <= Z.of_nat level ->
  let after := DataStream.update ax ay az now this in
  DataStream.motion after = Z.min 5 (Z.of_nat level + 1)
  /\ DataStream.lastMotionTime after = now.
Proof.
  intros Hvalid Hcal Hlevel effective Hreached Habove Hlow after.
  assert (Hscan : DataStream.newMotionScan this effective = Z.of_nat level + 1).
  { apply scanFrom_highest; assumption. }
  assert (Hhys : DataStream.newMotionHysteresis this effective
                 = Z.of_nat level + 1).
  { unfold DataStream.newMotionHysteresis. rewrite Hscan.
    destruct (Z.ltb_spec (Z.of_nat level + 1) (DataStream.motion this));
      [lia | reflexivity]. }
  assert (Hstuck : DataStream.newMotionStuck this effective now
                   = Z.of_nat level + 1).
  { unfold DataStream.newMotionStuck, DataStream.stuckReset. rewrite Hhys.
    destruct (Z.eqb_spec (Z.of_nat level + 1) (DataStream.motion this)); [lia|].
    rewrite andb_false_r. reflexivity. }
  subst after. rewrite (update_ready _ _ _ now this Hvalid Hcal). cbn zeta.
  cbn [DataStream.motion DataStream.lastMotionTime].
  fold (DataStream.effectiveDistance this ax ay az). fold effective.
  rewrite Hstuck.
  destruct (Z.eqb_spec (Z.of_nat level + 1) (DataStream.motion this)); [lia|].
  split; reflexivity.
Qed.

Lemma increase_is_immediate_witness :
  DataStream.motion (DataStream.update 0 5000 0 777 slightStream) = 5
  /\ DataStream.lastMotionTime (DataStream.update 0 5000 0 777 slightStream)
     = 777
  /\ DataStream.motion (DataStream.update 0 0 (-1200) 778 slightStream) = 3.
Proof.
  pose proof (increase_is_immediate 0 5000 0 777 slightStream 5
                eq_refl eq_refl) as Htop.
  pose proof (increase_is_immediate 0 0 (-1200) 778 slightStream 2
                eq_refl eq_refl) as Hmid.
  cbn zeta in Htop, Hmid.
  destruct Htop as [Hfive Hstamp];
    [lia | reflexivity | intros above Habove; lia | vm_compute; discriminate |].
  destruct Hmid as [Hthree _];
    [lia | reflexivity | | vm_compute; discriminate |].
  { intros above Habove.
    assert (Hcases : above = 3%nat \/ above = 4%nat \/ above = 5%nat) by lia.
    destruct Hcases as [-> | [-> | ->]]; reflexivity. }
  split; [exact Hfive|]. split; [exact Hstamp | exact Hthree].
Defined.

(** ** What a sample leaves alone *)

(** X6.  A call of [update] never changes the id or the colour of a
    stream, and it changes the results of calibration (baseline, noise,
    quality, deadzone, thresholds) only in the call that completes a
    calibration: in every other call they are exactly as before. *)
Theorem calibration_results_change_only_on_completion
        (ax ay az : JS.number) (now : Z) (this : DataStream.t) :
  let after := DataStream.update ax ay az now this in
  DataStream.id after = DataStream.id this
  /\ DataStream.color after = DataStream.color this
  /\ (calibrationResult after = calibrationResult this
      \/ (DataStream.calibrating this = true
          /\ DataStream.calibrating after = false
          /\ (60 <= length (DataStream.calibrationData after))%nat)).
Proof.
  intros after. subst after.
  destruct (rejected ax ay az) eqn:Hrej.
  { rewrite update_rejected by assumption. auto. }
  destruct (DataStream.calibrating this) eqn:Hcal.
  - destruct (Nat.lt_ge_cases (S (length (DataStream.calibrationData this))) 60)
      as [Hless | Hfull].
    + rewrite (update_collecting _ _ _ now this Hrej Hcal Hless). auto.
    + destruct (update_finishing _ _ _ now this Hrej Hcal Hfull)
        as (Hdone & _ & Hdata & _).
      split; [|split].
      * unfold DataStream.update. fold (rejected ax ay az). rewrite Hrej, Hcal.
        cbn [DataStream.id]. destruct (60 <=? _)%nat; reflexivity.
      * unfold DataStream.update. fold (rejected ax ay az). rewrite Hrej, Hcal.
        cbn [DataStream.color]. destruct (60 <=? _)%nat; reflexivity.
      * right. split; [reflexivity|]. split; [exact Hdone|].
        rewrite Hdata, length_app. cbn. lia.
  - rewrite (update_ready _ _ _ now this Hrej Hcal). auto.
Qed.

(** * Further properties of the parser and the table *)

Lemma registration_shape (msg : string) (id : Z) :
  Pattern.registration msg = Some id ->
  exists d : ascii,
    msg = String "S" (String d EmptyString) /\ Pattern.streamDigit d = Some id.
Proof.
  destruct msg as [|c [|d [|e rest]]]; [discriminate| | |];
    unfold Pattern.registration;
    destruct c as [[] [] [] [] [] [] [] []]; try discriminate.
  intros Hdigit. exists d. split; [reflexivity | exact Hdigit].
Qed.

(** What one call of [parseMessage] does to the table: nothing, or it
    makes sure a stream with an id from 1 to 6 exists, and then possibly
    hands it one sample. *)
Lemma parseMessage_cases (msg : string) (now : Z) (g : Globals) :
  streamData (parseMessage msg now g) = streamData g
  \/ exists id : Z,
      1 <= id <= 6
      /\ (Pattern.registration msg = Some id \/ Pattern.data msg = Some id)
      /\ (streamData (parseMessage msg now g)
          = ensureStream id now (streamData g)
          \/ exists ax ay az : JS.number,
              Pattern.data msg = Some id
              /\ streamData (parseMessage msg now g)
                 = alter (DataStream.update ax ay az now) id
                         (ensureStream id now (streamData g))).
Proof.
  unfold parseMessage.
  destruct (Pattern.registration msg) as [id|] eqn:Hreg.
  - right. exists id. destruct (registration_shape msg id Hreg) as (d & _ & Hd).
    split; [eapply streamDigit_range; exact Hd|]. auto.
  - destruct (Pattern.data msg) as [id|] eqn:Hdata; [|left; reflexivity].
    right. exists id. destruct (data_shape msg id Hdata) as (d & rest & _ & Hd).
    split; [eapply streamDigit_range; exact Hd|]. split; [auto|].
    destruct (Pattern.axis "x" msg) as [xm|]; [|left; reflexivity].
    destruct (Pattern.axis "y" msg) as [ym|]; [|left; reflexivity].
    destruct (Pattern.axis "z" msg) as [zm|]; [|left; reflexivity].
    right. eexists. eexists. eexists. split; reflexivity.
Qed.

Lemma ensureStream_lookup (id other now : Z) (table : gmap Z DataStream.t) :
  ensureStream id now table !! other
  = match table !! other with
    | Some s => Some s
    | None => if decide (other = id) then Some (DataStream.new id now) else None
    end.
Proof.
  unfold ensureStream. destruct (table !! id) as [s|] eqn:Hid.
  - destruct (table !! other) eqn:Hother; [reflexivity|].
    destruct (decide (other = id)) as [-> | _]; [congruence | reflexivity].
  - destruct (decide (other = id)) as [-> | Hne].
    + rewrite lookup_insert_eq, Hid. reflexivity.
    + rewrite lookup_insert_ne by congruence.
      destruct (table !! other); reflexivity.
Qed.

(** X7.  Registration is idempotent.  A line [S<id>] with an id from 1
    to 6 makes sure the stream exists; when the stream is already in
    the table the table is exactly as before (calibration, baseline and
    level are not reset), so registering a second time changes nothing. *)
Theorem registration_is_idempotent (msg : string) (id now later : Z)
        (g : Globals) :
  Pattern.registration msg = Some id ->
  streamData (parseMessage msg now g) = ensureStream id now (streamData g)
  /\ (is_Some (streamData g !! id) ->
      streamData (parseMessage msg now g) = streamData g)
  /\ (streamData g !! id = None ->
      streamData (parseMessage msg now g) !! id = Some (DataStream.new id now))
  /\ streamData (parseMessage msg later (parseMessage msg now g))
     = streamData (parseMessage msg now g).
Proof.
  intros Hreg.
  assert (Hparse : forall t h,
             streamData (parseMessage msg t h) = ensureStream id t (streamData h)).
  { intros t h. unfold parseMessage. rewrite Hreg. reflexivity. }
  split; [apply Hparse|]. split; [|split].
  - intros [s Hs]. rewrite Hparse. unfold ensureStream. rewrite Hs. reflexivity.
  - intros Hnone. rewrite Hparse, ensureStream_lookup, Hnone.
    destruct (decide (id = id)); [reflexivity | congruence].
  - rewrite (Hparse later), (Hparse now).
    assert (Hin : is_Some (ensureStream id now (streamData g) !! id)).
    { rewrite ensureStream_lookup.
      destruct (streamData g !! id); [eauto|].
      destruct (decide (id = id)); [eauto | congruence]. }
    destruct Hin as [s Hs]. unfold ensureStream at 1. rewrite Hs. reflexivity.
Qed.

Lemma registration_is_idempotent_witness :
  streamData (parseMessage "S4" 900
                (parseMessage "m4 x=1 y=2 z=3" 20
                   (parseMessage "S4" 10 initialGlobals)))
  = streamData (parseMessage "m4 x=1 y=2 z=3" 20
                  (parseMessage "S4" 10 initialGlobals)).
Proof.
  refine (proj1 (proj2 (registration_is_idempotent "S4" 4 900 0
                          (parseMessage "m4 x=1 y=2 z=3" 20
                             (parseMessage "S4" 10 initialGlobals))
                          eq_refl)) _).
  vm_compute. eexists. reflexivity.
Defined.

(** X8.  A line changes at most the stream it addresses, and removes
    none: a stream that is in the table is still there after any line,
    and it is exactly as before unless the line is a data line for its
    id. *)
Theorem line_touches_one_stream (msg : string) (now id : Z) (g : Globals)
        (s : DataStream.t) :
  streamData g !! id = Some s ->
  is_Some (streamData (parseMessage msg now g) !! id)
  /\ (Pattern.data msg <> Some id ->
      streamData (parseMessage msg now g) !! id = Some s).
Proof.
  intros Hs.
  assert (Hensure : forall other t,
             ensureStream other t (streamData g) !! id = Some s).
  { intros other t. rewrite ensureStream_lookup, Hs. reflexivity. }
  destruct (parseMessage_cases msg now g) as [-> | (other & _ & _ & Hcase)].
  - rewrite Hs. eauto.
  - destruct Hcase as [-> | (ax & ay & az & Hdata & ->)].
    + rewrite Hensure. eauto.
    + destruct (decide (id = other)) as [-> | Hne].
      * rewrite lookup_alter_eq, Hensure. cbn. split; [eauto | congruence].
      * rewrite lookup_alter_ne by congruence. rewrite Hensure. eauto.
Qed.

Lemma line_touches_one_stream_witness :
  streamData (parseMessage "m2 x=900 y=0 z=0" 50
                (parseMessage "m1 x=1 y=2 z=3" 20 initialGlobals)) !! 1
  = Some (DataStream.update 1 2 3 20 (DataStream.new 1 20)).
Proof.
  apply (line_touches_one_stream "m2 x=900 y=0 z=0" 50 1
           (parseMessage "m1 x=1 y=2 z=3" 20 initialGlobals)
           (DataStream.update 1 2 3 20 (DataStream.new 1 20))).
  - reflexivity.
  - discriminate.
Defined.

Lemma update_keeps_id (ax ay az : JS.number) (now : Z) (this : DataStream.t) :
  DataStream.id (DataStream.update ax ay az now this) = DataStream.id this.
Proof.
  unfold DataStream.update.
  destruct (_ || _); [reflexivity|].
  destruct (DataStream.calibrating this); [|reflexivity].
  cbn [DataStream.id]. destruct (60 <=? _)%nat; reflexivity.
Qed.

(** X9.  In every table the sketch can reach, every key is an id from 1
    to 6, so the table never holds more than six streams; and each
    stream is stored under its own id and is a stream made by the
    constructor and changed by [update] and [startCalibration] only. *)
Theorem table_invariant (g : Globals) :
  reachableGlobals g ->
  (forall (id : Z) (s : DataStream.t),
      streamData g !! id = Some s ->
      1 <= id <= 6 /\ DataStream.id s = id /\ reachable s)
  /\ (size (streamData g) <= 6)%nat.
Proof.
  intros Hreach.
  assert (Hall : forall (id : Z) (s : DataStream.t),
             streamData g !! id = Some s ->
             1 <= id <= 6 /\ DataStream.id s = id /\ reachable s).
  { induction Hreach as [| msg now g Hreach IH | now g Hreach IH].
    - intros id s. cbn. rewrite lookup_empty. discriminate.
    - assert (Hensure : forall (other id : Z) (s : DataStream.t),
                 1 <= other <= 6 ->
                 ensureStream other now (streamData g) !! id = Some s ->
                 1 <= id <= 6 /\ DataStream.id s = id /\ reachable s).
      { intros other id s Hother. rewrite ensureStream_lookup.
        destruct (streamData g !! id) as [old|] eqn:Hold.
        - intros [= <-]. apply IH, Hold.
        - destruct (decide (id = other)) as [-> | _]; [|discriminate].
          intros [= <-]. split; [exact Hother|].
          split; [reflexivity | apply reachable_new]. }
      intros id s.
      destruct (parseMessage_cases msg now g) as [-> | (other & Hother & _ & Hcase)];
        [apply IH|].
      destruct Hcase as [-> | (ax & ay & az & _ & ->)];
        [apply (Hensure other), Hother|].
      destruct (decide (id = other)) as [-> | Hne].
      + rewrite lookup_alter_eq.
        destruct (ensureStream other now (streamData g) !! other) as [old|] eqn:Hold;
          [|discriminate].
        cbn. intros [= <-].
        destruct (Hensure other other old Hother Hold) as (? & Hid & Hold').
        split; [assumption|]. rewrite update_keeps_id.
        split; [exact Hid | apply reachable_update, Hold'].
      + rewrite lookup_alter_ne by congruence. apply (Hensure other), Hother.
    - intros id s. cbn [recalibrateAll streamData]. rewrite lookup_fmap.
      destruct (streamData g !! id) as [old|] eqn:Hold; [|discriminate].
      cbn. intros [= <-]. destruct (IH id old Hold) as (? & Hid & Hold').
      split; [assumption|].
      destruct (DataStream.isActive now old);
        [split; [exact Hid | apply reachable_startCalibration, Hold'] | auto]. }
  split; [exact Hall|].
  rewrite <- size_dom.
  change 6%nat with (size (list_to_set [1; 2; 3; 4; 5; 6] : gset Z)).
  apply subseteq_size. intros id Hid.
  apply elem_of_dom in Hid as [s Hs]. destruct (Hall id s Hs) as [Hrange _].
  set_unfold. lia.
Qed.

Lemma table_invariant_witness :
  (size (streamData
           (parseAll [("m12 x=1 y=1 z=1"%string, 5%Z); ("S7"%string, 6%Z);
                      ("m61"%string, 7%Z); ("S3"%string, 8%Z)] initialGlobals))
   <= 6)%nat.
Proof.
  apply (table_invariant
           (parseAll [("m12 x=1 y=1 z=1"%string, 5%Z); ("S7"%string, 6%Z);
                      ("m61"%string, 7%Z); ("S3"%string, 8%Z)] initialGlobals)).
  repeat apply reachable_parseMessage. apply reachable_initial.
Defined.

(** * The sender's lines *)

(** ** Integers as text *)

Lemma mod10_cases (n : Z) :
  let d := n mod 10 in
  d = 0 \/ d = 1 \/ d = 2 \/ d = 3 \/ d = 4 \/ d = 5 \/ d = 6 \/ d = 7
  \/ d = 8 \/ d = 9.
Proof. cbn zeta. pose proof (Z.mod_pos_bound n 10). lia. Qed.

(** A digit character is a digit with the right value; it is neither
    white space nor a comma nor a sign nor a letter. *)
Lemma digitChar_facts (n : Z) :
  let c := JS.digitChar (n mod 10) in
  JS.isDigit c = true
  /\ JS.digitValue c = n mod 10
  /\ JS.isSpace c = false
  /\ Ascii.eqb c "," = false
  /\ (forall k : ascii, JS.isDigit k = false -> Ascii.eqb c k = false).
Proof.
  cbn zeta.
  assert (Hletter : forall c : ascii,
             JS.isDigit c = true ->
             forall k : ascii, JS.isDigit k = false -> Ascii.eqb c k = false).
  { intros c Hc k Hk. destruct (Ascii.eqb_spec c k) as [-> | _];
      [congruence | reflexivity]. }
  destruct (mod10_cases n) as [H | [H | [H | [H | [H | [H | [H | [H | [H | H]]]]]]]]];
    cbn zeta in H; rewrite H;
    (repeat split; [apply Hletter; reflexivity]).
Qed.

(** Appending after the digits is the same as writing them in front of
    the longer tail. *)
Lemma digitsOnto_app (fuel : nat) :
  forall (n : Z) (tail rest : string),
    (JS.digitsOnto fuel n tail ++ rest)%string
    = JS.digitsOnto fuel n (tail ++ rest)%string.
Proof.
  induction fuel as [|fuel IH]; intros n tail rest; [reflexivity|].
  cbn [JS.digitsOnto]. destruct (n <? 10); [reflexivity|]. apply IH.
Qed.

Lemma integerToString_app (n : Z) (rest : string) :
  (JS.integerToString n ++ rest)%string = JS.integerOnto n rest.
Proof.
  unfold JS.integerToString, JS.integerOnto.
  destruct (n <? 0).
  - change (String "-" ?s ++ rest)%string with (String "-" (s ++ rest)%string).
    rewrite digitsOnto_app. reflexivity.
  - rewrite digitsOnto_app. reflexivity.
Qed.

(** The text of an integer starts with a digit or, for a negative one,
    with the minus sign and a digit. *)
Lemma digitsOnto_head (fuel : nat) :
  forall (n : Z) (tail : string),
    exists (c : ascii) (s : string),
      JS.digitsOnto (S fuel) n tail = String c s /\ JS.isDigit c = true.
Proof.
  induction fuel as [|fuel IH]; intros n tail.
  - cbn [JS.digitsOnto]. destruct (n <? 10);
      eexists; eexists; (split; [reflexivity | apply digitChar_facts]).
  - change (JS.digitsOnto (S (S fuel)) n tail)
      with (if n <? 10 then String (JS.digitChar (n mod 10)) tail
            else JS.digitsOnto (S fuel) (n / 10)
                   (String (JS.digitChar (n mod 10)) tail)).
    destruct (n <? 10); [|apply IH].
    eexists. eexists. split; [reflexivity | apply digitChar_facts].
Qed.

(** Reading the digits back gives the number, whatever was read before
    and whatever follows. *)
Lemma takeDigits_digitsOnto (fuel : nat) :
  forall (n acc : Z) (count : nat) (tail : string),
    0 <= n < 2 ^ Z.of_nat (S fuel) ->
    exists k : nat,
      JS.takeDigits acc count (JS.digitsOnto (S fuel) n tail)
      = JS.takeDigits (acc * 10 ^ Z.of_nat (S k) + n) (count + S k) tail.
Proof.
  induction fuel as [|fuel IH]; intros n acc count tail Hn.
  - exists O. cbn [JS.digitsOnto].
    assert (Hsmall : n < 10) by (change (2 ^ Z.of_nat 1) with 2 in Hn; lia).
    destruct (Z.ltb_spec n 10); [|lia]. cbn [JS.takeDigits].
    destruct (digitChar_facts n) as (-> & -> & _).
    rewrite Z.mod_small by lia. f_equal; [f_equal; lia | lia].
  - change (JS.digitsOnto (S (S fuel)) n tail)
      with (if n <? 10 then String (JS.digitChar (n mod 10)) tail
            else JS.digitsOnto (S fuel) (n / 10)
                   (String (JS.digitChar (n mod 10)) tail)).
    destruct (Z.ltb_spec n 10) as [Hsmall | Hbig].
    + exists O. cbn [JS.takeDigits].
      destruct (digitChar_facts n) as (-> & -> & _).
      rewrite Z.mod_small by lia. f_equal; [f_equal; lia | lia].
    + destruct (IH (n / 10) acc count (String (JS.digitChar (n mod 10)) tail))
        as [k Hk].
      { split; [apply Z.div_pos; lia|].
        apply Z.div_lt_upper_bound; [lia|].
        rewrite Nat2Z.inj_succ, Z.pow_succ_r in Hn by lia. lia. }
      exists (S k). rewrite Hk. cbn [JS.takeDigits].
      destruct (digitChar_facts n) as (-> & -> & _).
      f_equal; [|lia].
      rewrite (Nat2Z.inj_succ (S k)), Z.pow_succ_r by lia.
      pose proof (Z.div_mod n 10 ltac:(lia)) as Hdiv.
      set (p := 10 ^ Z.of_nat (S k)).
      replace (acc * (10 * p)) with (10 * (acc * p)) by ring. lia.
Qed.

Lemma digitsFuel_enough (n : Z) :
  0 <= n -> 0 <= n < 2 ^ Z.of_nat (JS.digitsFuel n).
Proof.
  intros Hn. split; [exact Hn|]. unfold JS.digitsFuel.
  rewrite Nat2Z.inj_succ, Z2Nat.id by apply Z.log2_nonneg.
  destruct (Z.eq_dec n 0) as [-> | Hne]; [reflexivity|].
  apply Z.log2_spec. lia.
Qed.

(** The digits of a natural number read back as that number. *)
Lemma decimal_digits_read_back (n : Z) :
  0 <= n ->
  exists k : nat,
    JS.takeDigits 0 0 (JS.digitsOnto (JS.digitsFuel n) n EmptyString)
    = (n, S k, EmptyString).
Proof.
  intros Hn.
  destruct (takeDigits_digitsOnto (Z.to_nat (Z.log2 n)) n 0 0 EmptyString
              (digitsFuel_enough n Hn)) as [k Hk].
  exists k. unfold JS.digitsFuel. rewrite Hk. reflexivity.
Qed.

(** [parseFloat] reads the text of an integer back as that integer. *)
Lemma parseFloat_integerToString (n : Z) :
  JS.parseFloat (JS.integerToString n) = JS.ofInteger n.
Proof.
  assert (Hdigits : forall m : Z, 0 <= m ->
            forall negative : bool,
              (let '(negative', s1) :=
                 (negative, JS.digitsOnto (JS.digitsFuel m) m EmptyString) in
               let magnitude :=
                 if String.prefix "Infinity" s1 then PrimFloat.infinity
                 else
                   let '(ip, ipCount, s2) := JS.takeDigits 0 0 s1 in
                   let '(mant, fpCount, s3) :=
                     match s2 with
                     | String "." rest =>
                         let '(mant, c, r) := JS.takeDigits ip 0 rest in (mant, c, r)
                     | _ => (ip, O, s2)
                     end in
                   if ((ipCount + fpCount)%nat =? 0)%nat then PrimFloat.nan
                   else
                     let exponent :=
                       match s3 with
                       | String c rest =>
                           if Ascii.eqb c "e" || Ascii.eqb c "E" then
                             let '(negativeExp, r1) := JS.signOf rest in
                             let '(e, eCount, _) := JS.takeDigits 0 0 r1 in
                             if (eCount =? 0)%nat then 0
                             else if negativeExp then - e else e
                           else 0
                       | EmptyString => 0
                       end in
                     JS.decimalValue mant (exponent - Z.of_nat fpCount) in
               if negative' then PrimFloat.opp magnitude else magnitude)
              = if negative then PrimFloat.opp (JS.decimalValue m 0)
                else JS.decimalValue m 0).
  { intros m Hm negative.
    destruct (decimal_digits_read_back m Hm) as [k Hk].
    destruct (digitsOnto_head (Z.to_nat (Z.log2 m)) m EmptyString)
      as (c & s & Htext & Hc).
    fold (JS.digitsFuel m) in Htext. cbv zeta. rewrite Hk.
    assert (Hinf : String.prefix "Infinity"
                     (JS.digitsOnto (JS.digitsFuel m) m EmptyString) = false).
    { rewrite Htext. cbn [String.prefix].
      destruct (Ascii.ascii_dec "I" c) as [<- | _]; [discriminate Hc | reflexivity]. }
    rewrite Hinf. cbn [Nat.add Nat.eqb]. reflexivity. }
  unfold JS.parseFloat, JS.integerToString, JS.integerOnto, JS.ofInteger.
  destruct (Z.ltb_spec n 0) as [Hneg | Hpos].
  - change (JS.signOf (JS.trimStart (String "-" ?r))) with (true, r).
    apply (Hdigits (- n) ltac:(lia) true).
  - destruct (digitsOnto_head (Z.to_nat (Z.log2 n)) n EmptyString)
      as (c & s & Htext & Hc).
    fold (JS.digitsFuel n) in Htext.
    assert (Hsign : JS.signOf
                      (JS.trimStart (JS.digitsOnto (JS.digitsFuel n) n EmptyString))
                    = (false, JS.digitsOnto (JS.digitsFuel n) n EmptyString)).
    { rewrite Htext. cbn [JS.trimStart].
      assert (Hspace : JS.isSpace c = false).
      { revert Hc. unfold JS.isDigit, JS.isSpace.
        destruct (Nat.leb_spec 48 (nat_of_ascii c)); [|discriminate].
        destruct (Nat.leb_spec (nat_of_ascii c) 57); [|discriminate]. intros _.
        destruct (Nat.leb_spec 9 (nat_of_ascii c)); [|lia].
        destruct (Nat.leb_spec (nat_of_ascii c) 13); [lia|].
        destruct (Nat.eqb_spec (nat_of_ascii c) 32); [lia|].
        destruct (Nat.eqb_spec (nat_of_ascii c) 160); [lia|]. reflexivity. }
      rewrite Hspace. unfold JS.signOf.
      destruct c as [[] [] [] [] [] [] [] []]; try reflexivity; discriminate Hc. }
    rewrite Hsign. apply (Hdigits n Hpos false).
Qed.

(** ** The patterns on the sender's lines *)

Lemma token_digitsOnto (fuel : nat) :
  forall (n : Z) (tail : string),
    Pattern.token (JS.digitsOnto fuel n tail)
    = JS.digitsOnto fuel n (Pattern.token tail).
Proof.
  induction fuel as [|fuel IH]; intros n tail; [reflexivity|].
  assert (Hstep : Pattern.token (String (JS.digitChar (n mod 10)) tail)
                  = String (JS.digitChar (n mod 10)) (Pattern.token tail)).
  { cbn [Pattern.token].
    destruct (digitChar_facts n) as (_ & _ & -> & -> & _). reflexivity. }
  cbn [JS.digitsOnto]. destruct (n <? 10); [exact Hstep|].
  rewrite IH, Hstep. reflexivity.
Qed.

Lemma token_integerOnto (n : Z) (tail : string) :
  Pattern.token (JS.integerOnto n tail) = JS.integerOnto n (Pattern.token tail).
Proof.
  unfold JS.integerOnto. destruct (n <? 0); [|apply token_digitsOnto].
  change (Pattern.token (String "-" ?s)) with (String "-" (Pattern.token s)).
  rewrite token_digitsOnto. reflexivity.
Qed.

(** The search for an axis letter passes over the text of an integer. *)
Lemma axis_digitsOnto (k : ascii) (fuel : nat) :
  JS.isDigit k = false ->
  forall (n : Z) (tail : string),
    Pattern.axis k (JS.digitsOnto fuel n tail) = Pattern.axis k tail.
Proof.
  intros Hk. induction fuel as [|fuel IH]; intros n tail; [reflexivity|].
  assert (Hstep : Pattern.axis k (String (JS.digitChar (n mod 10)) tail)
                  = Pattern.axis k tail).
  { cbn [Pattern.axis].
    destruct (digitChar_facts n) as (_ & _ & _ & _ & Hother).
    rewrite (Hother k Hk). reflexivity. }
  cbn [JS.digitsOnto]. destruct (n <? 10); [exact Hstep|].
  rewrite IH. exact Hstep.
Qed.

Lemma axis_integerOnto (k : ascii) (n : Z) (tail : string) :
  JS.isDigit k = false -> Ascii.eqb "-" k = false ->
  Pattern.axis k (JS.integerOnto n tail) = Pattern.axis k tail.
Proof.
  intros Hk Hminus. unfold JS.integerOnto.
  destruct (n <? 0); [|apply axis_digitsOnto, Hk].
  cbn [Pattern.axis]. rewrite Hminus. apply axis_digitsOnto, Hk.
Qed.

Lemma integerOnto_head (n : Z) (tail : string) :
  exists (c : ascii) (s : string), JS.integerOnto n tail = String c s.
Proof.
  unfold JS.integerOnto. destruct (n <? 0); [eauto|].
  destruct (digitsOnto_head (Z.to_nat (Z.log2 n)) n tail) as (c & s & Htext & _).
  eauto.
Qed.

(** A one-digit number is written as its digit. *)
Lemma integerOnto_digit (n : Z) (tail : string) :
  0 <= n < 10 -> JS.integerOnto n tail = String (JS.digitChar n) tail.
Proof.
  intros Hn. unfold JS.integerOnto, JS.digitsFuel.
  destruct (Z.ltb_spec n 0); [lia|]. cbn [JS.digitsOnto].
  destruct (Z.ltb_spec n 10); [|lia]. rewrite Z.mod_small by lia. reflexivity.
Qed.

(** An axis letter followed by the equals sign and the text of an
    integer, up to the next blank or the end: the pattern finds that
    text. *)
Lemma axis_found (k : ascii) (n : Z) (tail : string) :
  Pattern.token tail = EmptyString ->
  Pattern.axis k (String k (String "=" (JS.integerOnto n tail)))
  = Some (JS.integerToString n).
Proof.
  intros Htail. cbn [Pattern.axis]. rewrite Ascii.eqb_refl.
  rewrite token_integerOnto, Htail. fold (JS.integerToString n).
  unfold JS.integerToString.
  destruct (integerOnto_head n EmptyString) as (c & s & ->). reflexivity.
Qed.

Lemma string_app_assoc (a b c : string) :
  ((a ++ b) ++ c)%string = (a ++ (b ++ c))%string.
Proof.
  induction a as [|ch a IH]; [reflexivity|].
  change (String ch ((a ++ b) ++ c)%string = String ch (a ++ (b ++ c))%string).
  f_equal. exact IH.
Qed.

(** The data line of the sender, character by character. *)
Lemma sender_line_shape (id ax ay az : Z) (rest : string) :
  (Sender.line id ax ay az ++ rest)%string
  = String "m"
      (JS.integerOnto id
         (String " " (String "x" (String "="
            (JS.integerOnto ax
               (String " " (String "y" (String "="
                  (JS.integerOnto ay
                     (String " " (String "z" (String "="
                        (JS.integerOnto az rest))))))))))))).
Proof.
  unfold Sender.line.
  rewrite !string_app_assoc.
  rewrite !integerToString_app. reflexivity.
Qed.

Lemma string_app_nil (s : string) : (s ++ EmptyString)%string = s.
Proof.
  induction s as [|c s IH]; [reflexivity|].
  change (String c (s ++ EmptyString)%string = String c s). f_equal. exact IH.
Qed.

Lemma axis_skip (k c : ascii) (rest : string) :
  Ascii.eqb c k = false ->
  Pattern.axis k (String c rest) = Pattern.axis k rest.
Proof. intros Hc. cbn [Pattern.axis]. rewrite Hc. reflexivity. Qed.

Lemma streamDigit_digitChar (id : Z) :
  1 <= id <= 6 -> Pattern.streamDigit (JS.digitChar id) = Some id.
Proof.
  intros Hid.
  assert (Hcases : id = 1 \/ id = 2 \/ id = 3 \/ id = 4 \/ id = 5 \/ id = 6) by lia.
  destruct Hcases as [-> | [-> | [-> | [-> | [-> | ->]]]]]; reflexivity.
Qed.

(** What the three axis patterns and the data pattern find in the
    sender's line, with anything that starts with a blank or nothing
    after it. *)
Lemma sender_line_fields (id ax ay az : Z) (rest : string) :
  1 <= id <= 6 ->
  Pattern.token rest = EmptyString ->
  let msg := (Sender.line id ax ay az ++ rest)%string in
  Pattern.data msg = Some id
  /\ Pattern.axis "x" msg = Some (JS.integerToString ax)
  /\ Pattern.axis "y" msg = Some (JS.integerToString ay)
  /\ Pattern.axis "z" msg = Some (JS.integerToString az).
Proof.
  intros Hid Hrest msg. subst msg. rewrite sender_line_shape.
  split.
  { rewrite integerOnto_digit by lia. apply streamDigit_digitChar, Hid. }
  split; [|split];
    repeat first [ rewrite axis_skip by reflexivity
                 | rewrite axis_integerOnto by reflexivity ];
    apply axis_found; first [reflexivity | exact Hrest].
Qed.

(** X10.  The data line that the sender builds for a stream id from 1
    to 6 and three integer accelerations is read back in full: the data
    pattern finds the id, each axis pattern finds the text of its own
    value, [parseFloat] turns it back into that integer, and the
    stream of that id, created if need be, is handed exactly the three
    accelerations that were sent. *)
Theorem sender_line_round_trip (id ax ay az now : Z) (g : Globals) :
  1 <= id <= 6 ->
  Z.abs ax < 10 ^ 21 -> Z.abs ay < 10 ^ 21 -> Z.abs az < 10 ^ 21 ->
  let msg := Sender.line id ax ay az in
  Pattern.data msg = Some id
  /\ Pattern.axis "x" msg = Some (JS.integerToString ax)
  /\ Pattern.axis "y" msg = Some (JS.integerToString ay)
  /\ Pattern.axis "z" msg = Some (JS.integerToString az)
  /\ streamData (parseMessage msg now g)
     = alter (DataStream.update (JS.ofInteger ax) (JS.ofInteger ay)
                                (JS.ofInteger az) now)
             id (ensureStream id now (streamData g)).
Proof.
  intros Hid _ _ _ msg.
  destruct (sender_line_fields id ax ay az EmptyString Hid eq_refl)
    as (Hdata & Hx & Hy & Hz).
  cbn zeta in Hdata, Hx, Hy, Hz. rewrite string_app_nil in Hdata, Hx, Hy, Hz.
  fold msg in Hdata, Hx, Hy, Hz.
  repeat (split; [assumption|]).
  unfold parseMessage.
  rewrite (data_not_registration msg id Hdata), Hdata, Hx, Hy, Hz.
  cbn [streamData]. rewrite !parseFloat_integerToString. reflexivity.
Qed.

Lemma sender_line_round_trip_witness :
  streamData (parseMessage (Sender.line 2 (-12) 1024 0) 77 initialGlobals) !! 2
  = Some (DataStream.update (-12) 1024 0 77 (DataStream.new 2 77)).
Proof.
  pose proof (sender_line_round_trip 2 (-12) 1024 0 77 initialGlobals) as Htrip.
  cbn zeta in Htrip.
  destruct Htrip as (_ & _ & _ & _ & ->); [lia | vm_compute; reflexivity..|].
  reflexivity.
Defined.

(** The digits written in front of a tail that is not empty make a text
    of two characters or more. *)
Lemma digitsOnto_long (fuel : nat) :
  forall (n : Z) (d : ascii) (tail : string),
    exists (c c' : ascii) (s : string),
      JS.digitsOnto fuel n (String d tail) = String c (String c' s)
      \/ (fuel = O /\ JS.digitsOnto fuel n (String d tail) = String d tail).
Proof.
  induction fuel as [|fuel IH]; intros n d tail.
  - exists d, d, tail. right. split; reflexivity.
  - cbn [JS.digitsOnto]. destruct (n <? 10).
    + eexists. eexists. eexists. left. reflexivity.
    + destruct (IH (n / 10) (JS.digitChar (n mod 10)) (String d tail))
        as (c & c' & s & [Hlong | [_ Hshort]]).
      * exists c, c', s. left. exact Hlong.
      * eexists. eexists. eexists. left. exact Hshort.
Qed.

(** X11.  The registration text that the sender builds from its stream
    id registers that id exactly when the id is one of 1 to 6; for any
    other id (0, 7, 12, a negative one) the text matches no pattern of
    the parser and changes no stream. *)
Theorem sender_hello_registers_valid_ids (id now : Z) (g : Globals) :
  Pattern.registration (Sender.hello id)
  = (if (1 <=? id) && (id <=? 6) then Some id else None)
  /\ Pattern.data (Sender.hello id) = None
  /\ streamData (parseMessage (Sender.hello id) now g)
     = (if (1 <=? id) && (id <=? 6)
        then ensureStream id now (streamData g)
        else streamData g).
Proof.
  assert (Hreg : Pattern.registration (Sender.hello id)
                 = (if (1 <=? id) && (id <=? 6) then Some id else None)).
  { unfold Sender.hello.
    change ("S" ++ JS.integerToString id)%string
      with (String "S" (JS.integerToString id)).
    unfold JS.integerToString.
    destruct (Z.ltb_spec id 0) as [Hneg | Hpos].
    - destruct (Z.leb_spec 1 id); [lia|]. cbn [andb].
      unfold JS.integerOnto. destruct (Z.ltb_spec id 0); [|lia].
      destruct (digitsOnto_head (Z.to_nat (Z.log2 (- id))) (- id) EmptyString)
        as (c & s & Htext & _).
      fold (JS.digitsFuel (- id)) in Htext. rewrite Htext. reflexivity.
    - destruct (Z.ltb_spec id 10) as [Hsmall | Hbig].
      + rewrite integerOnto_digit by lia.
        assert (Hcases : id = 0 \/ id = 1 \/ id = 2 \/ id = 3 \/ id = 4
                         \/ id = 5 \/ id = 6 \/ id = 7 \/ id = 8 \/ id = 9) by lia.
        destruct Hcases
          as [-> | [-> | [-> | [-> | [-> | [-> | [-> | [-> | [-> | ->]]]]]]]]];
          reflexivity.
      + destruct (Z.leb_spec 1 id); [|lia]. destruct (Z.leb_spec id 6); [lia|].
        cbn [andb]. unfold JS.integerOnto, JS.digitsFuel.
        destruct (Z.ltb_spec id 0); [lia|]. cbn [JS.digitsOnto].
        destruct (Z.ltb_spec id 10); [lia|].
        destruct (digitsOnto_long (Z.to_nat (Z.log2 id)) (id / 10)
                    (JS.digitChar (id mod 10)) EmptyString)
          as (c & c' & s & [-> | [Hfuel _]]); [reflexivity|].
        assert (3 <= Z.log2 id) by (apply Z.log2_le_pow2; lia). lia. }
  assert (Hdata : Pattern.data (Sender.hello id) = None) by reflexivity.
  split; [exact Hreg|]. split; [exact Hdata|].
  unfold parseMessage. rewrite Hreg, Hdata.
  destruct ((1 <=? id) && (id <=? 6)); reflexivity.
Qed.

(** ** The serial part of [draw] in [sketch.js] *)

Lemma parseAll_cons (msg : string) (now : Z) (rest : list (string * Z))
      (g : Globals) :
  parseAll ((msg, now) :: rest) g = parseAll rest (parseMessage msg now g).
Proof. reflexivity. Qed.

Lemma stamped_length (clock : nat -> Z) (lines : list string) :
  forall i : nat, length (stamped clock i lines) = length lines.
Proof.
  induction lines as [|line lines IH]; intros i; [reflexivity|].
  cbn [stamped length]. rewrite IH. reflexivity.
Qed.

(** Every line is counted, whatever it holds. *)
Lemma messageCount_parseMessage (msg : string) (now : Z) (g : Globals) :
  messageCount (parseMessage msg now g) = messageCount g + 1.
Proof.
  unfold parseMessage.
  destruct (Pattern.registration msg); [reflexivity|].
  destruct (Pattern.data msg); [|reflexivity].
  destruct (Pattern.axis "x" msg); [|reflexivity].
  destruct (Pattern.axis "y" msg); [|reflexivity].
  destruct (Pattern.axis "z" msg); reflexivity.
Qed.

Lemma messageCount_parseAll (lines : list (string * Z)) :
  forall g : Globals,
    messageCount (parseAll lines g) = messageCount g + Z.of_nat (length lines).
Proof.
  induction lines as [|[msg now] lines IH]; intros g; [cbn; lia|].
  rewrite parseAll_cons, IH, messageCount_parseMessage. cbn [length]. lia.
Qed.

(** On pending lines that are not empty the loop parses the first
    [budget] of them, each trimmed, in the order they arrived, and
    leaves the others in the buffer. *)
Lemma readLines_in_order (noData : NoData) (clock : nat -> Z) (budget : nat) :
  forall (i : nat) (p : Port) (g : Globals),
    Forall (fun line => (0 <? String.length line)%nat = true) (pendingLines p) ->
    Monitor.readLines noData clock budget i p g
    = ({| opened := opened p; pendingLines := drop budget (pendingLines p) |},
       parseAll (stamped clock i (take budget (pendingLines p))) g).
Proof.
  induction budget as [|budget IH]; intros i p g Hlines.
  - cbn. destruct p; reflexivity.
  - cbn [Monitor.readLines]. unfold Scheduler.readUntil.
    destruct (pendingLines p) as [|line rest] eqn:Hp.
    + destruct noData; cbn; rewrite <- Hp; destruct p; reflexivity.
    + apply Forall_cons in Hlines as [Hline Hrest].
      destruct line as [|c line]; [discriminate Hline|].
      rewrite IH by exact Hrest. reflexivity.
Qed.

(** X12.  One frame of the monitor on an open port whose pending lines
    are proper lines: the first fifty lines, or all if there are fewer,
    are trimmed and parsed one after the other in the order they
    arrived, none twice and none skipped, and the remaining lines stay
    in the buffer for the next frame. *)
Theorem monitor_draw_in_order (noData : NoData) (clock : nat -> Z)
        (st : Monitor.t) :
  opened (Monitor.port st) = true ->
  Forall (fun line => (0 <? String.length line)%nat = true)
         (pendingLines (Monitor.port st)) ->
  Monitor.globals (Monitor.draw noData clock st)
  = parseAll (stamped clock 0 (take 50 (pendingLines (Monitor.port st))))
             (Monitor.globals st)
  /\ pendingLines (Monitor.port (Monitor.draw noData clock st))
     = drop 50 (pendingLines (Monitor.port st))
  /\ messageCount (Monitor.globals (Monitor.draw noData clock st))
     = messageCount (Monitor.globals st)
       + Z.of_nat (Nat.min 50 (length (pendingLines (Monitor.port st)))).
Proof.
  intros Hopen Hlines. unfold Monitor.draw. rewrite Hopen.
  rewrite readLines_in_order by exact Hlines.
  cbn [Monitor.globals Monitor.port pendingLines].
  split; [reflexivity|]. split; [reflexivity|].
  rewrite <- length_take.
  generalize (take 50 (pendingLines (Monitor.port st))) as lines.
  intros lines. rewrite messageCount_parseAll, stamped_length. reflexivity.
Qed.

(** ** From the sender to the table *)

Lemma trimEnd_solid (c : ascii) (rest : string) :
  JS.isSpace c = false ->
  JS.trimEnd (String c rest) = String c (JS.trimEnd rest).
Proof.
  intros Hc. cbn [JS.trimEnd]. rewrite Hc.
  destruct (JS.trimEnd rest); reflexivity.
Qed.

Lemma trimEnd_before_solid (c c' : ascii) (rest : string) :
  JS.isSpace c' = false ->
  JS.trimEnd (String c (String c' rest))
  = String c (JS.trimEnd (String c' rest)).
Proof.
  intros Hc'. rewrite (trimEnd_solid c' rest Hc').
  change (JS.trimEnd (String c (String c' rest)))
    with (match JS.trimEnd (String c' rest) with
          | EmptyString =>
              if JS.isSpace c then EmptyString else String c EmptyString
          | kept => String c kept
          end).
  rewrite (trimEnd_solid c' rest Hc'). reflexivity.
Qed.

Lemma trimEnd_digitsOnto (fuel : nat) :
  forall (n : Z) (tail : string),
    JS.trimEnd (JS.digitsOnto fuel n tail)
    = JS.digitsOnto fuel n (JS.trimEnd tail).
Proof.
  induction fuel as [|fuel IH]; intros n tail; [reflexivity|].
  assert (Hstep : JS.trimEnd (String (JS.digitChar (n mod 10)) tail)
                  = String (JS.digitChar (n mod 10)) (JS.trimEnd tail)).
  { apply trimEnd_solid. apply digitChar_facts. }
  cbn [JS.digitsOnto]. destruct (n <? 10); [exact Hstep|].
  rewrite IH, Hstep. reflexivity.
Qed.

Lemma trimEnd_integerOnto (n : Z) (tail : string) :
  JS.trimEnd (JS.integerOnto n tail) = JS.integerOnto n (JS.trimEnd tail).
Proof.
  unfold JS.integerOnto. destruct (n <? 0); [|apply trimEnd_digitsOnto].
  rewrite trimEnd_solid by reflexivity. rewrite trimEnd_digitsOnto. reflexivity.
Qed.

(** Trimming takes the receiver's line end off the sender's texts and
    nothing else. *)
Lemma trim_forwarded_line (id ax ay az : Z) :
  JS.trim (Receiver.forward (Sender.line id ax ay az))
  = Sender.line id ax ay az.
Proof.
  unfold Receiver.forward, JS.trim.
  rewrite <- (string_app_nil (Sender.line id ax ay az)) at 2.
  rewrite !sender_line_shape.
  change (JS.trimStart (String "m" ?s)) with (String "m" s).
  repeat first [ rewrite trimEnd_solid by reflexivity
               | rewrite trimEnd_before_solid by reflexivity
               | rewrite trimEnd_integerOnto ].
  reflexivity.
Qed.

Lemma trim_forwarded_hello (id : Z) :
  JS.trim (Receiver.forward (Sender.hello id)) = Sender.hello id.
Proof.
  unfold Receiver.forward, JS.trim, Sender.hello.
  rewrite string_app_assoc, integerToString_app.
  change ("S" ++ JS.integerOnto id newline)%string
    with (String "S" (JS.integerOnto id newline)).
  change (JS.trimStart (String "S" ?s)) with (String "S" s).
  rewrite trimEnd_solid by reflexivity. rewrite trimEnd_integerOnto.
  reflexivity.
Qed.

(** A forwarded text is a proper line. *)
Lemma forwarded_not_empty (s : string) :
  (0 <? String.length (Receiver.forward s))%nat = true.
Proof. unfold Receiver.forward. destruct s; reflexivity. Qed.

Lemma sender_line_parsed (id ax ay az now : Z) (g : Globals) :
  1 <= id <= 6 ->
  streamData (parseMessage (Sender.line id ax ay az) now g)
  = alter (DataStream.update (JS.ofInteger ax) (JS.ofInteger ay)
                             (JS.ofInteger az) now)
          id (ensureStream id now (streamData g)).
Proof.
  intros Hid.
  destruct (sender_line_fields id ax ay az EmptyString Hid eq_refl)
    as (Hdata & Hx & Hy & Hz).
  cbn zeta in Hdata, Hx, Hy, Hz. rewrite string_app_nil in Hdata, Hx, Hy, Hz.
  unfold parseMessage.
  rewrite (data_not_registration _ id Hdata), Hdata, Hx, Hy, Hz.
  cbn [streamData]. rewrite !parseFloat_integerToString. reflexivity.
Qed.

(** X13.  From the sender to the table.  The radio link between the
    two boards is not part of these programs: [link] gives, for the text
    handed to [radio.sendString], the text that [radio.onReceivedString]
    receives, and the statement is for a link that delivers the two
    texts of the sender unchanged (with a link that cuts long texts
    short, that is the case only for texts within its length).  A sender with an id from 1 to 6
    starts up and sends one data line; the receiver forwards what it
    receives with a line end; the monitor reads both lines in one frame.
    After that frame the buffer is empty, both lines are counted, and
    the table holds, under that id, the stream made at the time the
    registration was parsed and updated once with the three
    accelerations sent; every other stream is as before. *)
Theorem sender_to_table (link : string -> string)
        (noData : NoData) (clock : nat -> Z)
        (id ax ay az : Z) (g : Globals) :
  1 <= id <= 6 ->
  Z.abs ax < 10 ^ 21 -> Z.abs ay < 10 ^ 21 -> Z.abs az < 10 ^ 21 ->
  link (Sender.hello id) = Sender.hello id ->
  link (Sender.line id ax ay az) = Sender.line id ax ay az ->
  streamData g !! id = None ->
  let st := Monitor.mk
              {| opened := true;
                 pendingLines :=
                   [Receiver.forward (link (Sender.hello id));
                    Receiver.forward (link (Sender.line id ax ay az))] |}
              g in
  let after := Monitor.draw noData clock st in
  pendingLines (Monitor.port after) = []
  /\ messageCount (Monitor.globals after) = messageCount g + 2
  /\ streamData (Monitor.globals after)
     = <[id := DataStream.update (JS.ofInteger ax) (JS.ofInteger ay)
                 (JS.ofInteger az) (clock 1%nat)
                 (DataStream.new id (clock 0%nat))]> (streamData g).
Proof.
  intros Hid _ _ _ Hsame_hello Hsame_line Hnew st after. subst after st.
  rewrite Hsame_hello, Hsame_line.
  unfold Monitor.draw. cbn [Monitor.port Monitor.globals opened].
  rewrite readLines_in_order
    by (cbn [pendingLines]; repeat constructor; apply forwarded_not_empty).
  cbn [Monitor.port Monitor.globals pendingLines].
  split; [reflexivity|].
  change (take 50 [Receiver.forward (Sender.hello id);
                   Receiver.forward (Sender.line id ax ay az)])
    with [Receiver.forward (Sender.hello id);
          Receiver.forward (Sender.line id ax ay az)].
  cbn [stamped]. rewrite trim_forwarded_hello, trim_forwarded_line.
  rewrite !parseAll_cons. cbn [parseAll fold_left].
  split; [rewrite !messageCount_parseMessage; lia|].
  rewrite sender_line_parsed by exact Hid.
  assert (Hhello : streamData (parseMessage (Sender.hello id) (clock 0%nat) g)
                   = <[id := DataStream.new id (clock 0%nat)]> (streamData g)).
  { unfold parseMessage.
    assert (Hreg : Pattern.registration (Sender.hello id) = Some id).
    { unfold Sender.hello.
      change ("S" ++ JS.integerToString id)%string
        with (String "S" (JS.integerToString id)).
      unfold JS.integerToString. rewrite integerOnto_digit by lia.
      apply streamDigit_digitChar, Hid. }
    rewrite Hreg. cbn [streamData]. unfold ensureStream. rewrite Hnew.
    reflexivity. }
  rewrite Hhello. unfold ensureStream. rewrite lookup_insert_eq.
  apply map_eq. intros other.
  destruct (decide (other = id)) as [-> | Hne].
  - rewrite lookup_alter_eq, !lookup_insert_eq. reflexivity.
  - rewrite lookup_alter_ne, !lookup_insert_ne by congruence. reflexivity.
Qed.

Lemma sender_to_table_witness :
  String.length (Sender.line 2 (-12) 1024 0) = 19%nat
  /\ streamData
       (Monitor.globals
          (Monitor.draw ReturnsEmptyString (fun i => 1000 + Z.of_nat i)
             (Monitor.mk
                {| opened := true;
                   pendingLines :=
                     [Receiver.forward (substring 0 19 (Sender.hello 2));
                      Receiver.forward
                        (substring 0 19 (Sender.line 2 (-12) 1024 0))] |}
                initialGlobals)))
     = <[2 := DataStream.update (-12) 1024 0 1001 (DataStream.new 2 1000)]> ∅.
Proof.
  split; [reflexivity|].
  pose proof (sender_to_table (substring 0 19)
                ReturnsEmptyString (fun i => 1000 + Z.of_nat i)
                2 (-12) 1024 0 initialGlobals) as Hpipe.
  cbn zeta in Hpipe.
  destruct Hpipe as (_ & _ & Htable);
    [lia | vm_compute; reflexivity.. | reflexivity |].
  exact Htable.
Defined.

Lemma monitor_draw_in_order_witness :
  pendingLines
    (Monitor.port
       (Monitor.draw ReturnsNull (fun i => Z.of_nat i)
          (Monitor.mk
             {| opened := true;
                pendingLines := repeat (Receiver.forward "S3") 51 |}
             initialGlobals)))
  = [Receiver.forward "S3"]
  /\ messageCount
       (Monitor.globals
          (Monitor.draw ReturnsNull (fun i => Z.of_nat i)
             (Monitor.mk
                {| opened := true;
                   pendingLines := repeat (Receiver.forward "S3") 51 |}
                initialGlobals)))
     = 50.
Proof.
  destruct (monitor_draw_in_order ReturnsNull (fun i => Z.of_nat i)
              (Monitor.mk
                 {| opened := true;
                    pendingLines := repeat (Receiver.forward "S3") 51 |}
                 initialGlobals)) as (_ & Hrest & Hcount).
  - reflexivity.
  - cbn [Monitor.port pendingLines]. repeat constructor.
  - split; [exact Hrest | exact Hcount].
Defined.

(** * Further properties of the ingestion scheduler *)

Section SchedulerMore.

Context {App : Type}.
Variable parseSerialMessage : string -> App -> App.
Variable noData : NoData.

(** The messages the reading loop hands to the parser: the first
    [budget] pending lines, trimmed, in order. *)
Lemma readLoop_app (budget : nat) :
  forall (count : nat) (p : Port) (a : App),
    Forall (fun line => (0 <? String.length line)%nat = true) (pendingLines p) ->
    snd (Scheduler.readLoop App parseSerialMessage noData budget count p a)
    = fold_left (fun acc line => parseSerialMessage (JS.trim line) acc)
                (take budget (pendingLines p)) a.
Proof.
  induction budget as [|budget IH]; intros count p a Hlines; [reflexivity|].
  cbn [Scheduler.readLoop]. unfold Scheduler.readUntil.
  destruct (pendingLines p) as [|line rest] eqn:Hp.
  - destruct noData; reflexivity.
  - apply Forall_cons in Hlines as [-> Hrest].
    rewrite IH by exact Hrest. reflexivity.
Qed.

(** What the clearing loop counts: the lines it took out when an empty
    buffer reads as [null]; every turn of the loop when an empty buffer
    reads as the empty string, which the loop does not test for. *)
Lemma clearLoop_count (budget : nat) :
  forall (cleared : nat) (p : Port),
    fst (Scheduler.clearLoop noData budget cleared p)
    = (cleared
       + match noData with
         | ReturnsNull => Nat.min budget (length (pendingLines p))
         | ReturnsEmptyString => budget
         end)%nat.
Proof.
  induction budget as [|budget IH]; intros cleared p.
  - cbn. destruct noData; lia.
  - cbn [Scheduler.clearLoop]. unfold Scheduler.readUntil.
    destruct (pendingLines p) as [|line rest] eqn:Hp.
    + destruct noData eqn:Hno.
      * cbn. lia.
      * rewrite IH. lia.
    + rewrite IH. cbn [pendingLines length]. destruct noData; lia.
Qed.

End SchedulerMore.

(** X14.  After any tick on an open port the backlog counter is below
    the threshold of 60, and the backlog warning is set exactly when the
    counter is above 0. *)
Theorem backlog_counter_and_flag {App : Type}
        (parseSerialMessage : string -> App -> App) (noData : NoData)
        (st : Scheduler.t App) :
  opened (Scheduler.port st) = true ->
  let st' := Scheduler.draw App parseSerialMessage noData st in
  (Scheduler.consecutiveBacklogFrames st' < 60)%nat
  /\ Scheduler.bufferBacklogDetected st'
     = (0 <? Scheduler.consecutiveBacklogFrames st')%nat.
Proof.
  intros Hopen st'. subst st'. unfold Scheduler.draw. rewrite Hopen.
  pose proof (readLoop_bounds parseSerialMessage noData MAX_MESSAGES_PER_FRAME 0
                (Scheduler.port st) (Scheduler.app st)) as Hread.
  cbn zeta in Hread.
  destruct (Scheduler.readLoop App parseSerialMessage noData
              MAX_MESSAGES_PER_FRAME 0 (Scheduler.port st) (Scheduler.app st))
    as [[n p] a].
  cbn [fst snd] in Hread. destruct Hread as (_ & Hp & _). rewrite Hopen in Hp.
  destruct (MAX_MESSAGES_PER_FRAME <=? n)%nat; [|split; [cbn; lia | reflexivity]].
  destruct (Nat.leb_spec AUTO_CLEAR_THRESHOLD
                         (S (Scheduler.consecutiveBacklogFrames st)))
    as [Hpurge | Hcount].
  - unfold Scheduler.clearSerialBuffer. cbn [Scheduler.port]. rewrite Hp.
    cbn [negb].
    destruct (Scheduler.clearLoop noData MAX_CLEAR 0 p) as [cleared p2].
    cbn. split; [lia | reflexivity].
  - cbn. unfold AUTO_CLEAR_THRESHOLD in Hcount. split; [lia | reflexivity].
Qed.

Lemma backlog_counter_and_flag_witness :
  Scheduler.bufferBacklogDetected
    (Scheduler.ticks unit ignoreLine ReturnsNull 3 (burst 2000)) = true
  /\ (Scheduler.consecutiveBacklogFrames
        (Scheduler.ticks unit ignoreLine ReturnsNull 3 (burst 2000)) < 60)%nat.
Proof.
  destruct (backlog_counter_and_flag ignoreLine ReturnsNull
              (Scheduler.ticks unit ignoreLine ReturnsNull 2 (burst 2000))
              eq_refl) as [Hbelow Hflag].
  split; [|exact Hbelow].
  change (Scheduler.ticks unit ignoreLine ReturnsNull 3 (burst 2000))
    with (Scheduler.draw unit ignoreLine ReturnsNull
            (Scheduler.ticks unit ignoreLine ReturnsNull 2 (burst 2000))).
  rewrite Hflag. reflexivity.
Defined.

(** X15.  [clearSerialBuffer] on a port that is not open returns 0 and
    changes nothing.  On an open port it takes the first 1000 pending
    lines out of the buffer (all of them if there are fewer) without
    parsing any, sets the backlog counter to 0 and the warning off, and
    logs its count.  The count is the number of lines taken out when an
    empty buffer reads as [null]; when an empty buffer reads as the empty
    string, for which the loop has no test, the count is always 1000
    and the buffer is reported as extremely full. *)
Theorem clearSerialBuffer_effect {App : Type} (noData : NoData)
        (st : Scheduler.t App) :
  (opened (Scheduler.port st) = false ->
   Scheduler.clearSerialBuffer App noData st = (O, st))
  /\ (opened (Scheduler.port st) = true ->
      let cleared := fst (Scheduler.clearSerialBuffer App noData st) in
      let st' := snd (Scheduler.clearSerialBuffer App noData st) in
      pendingLines (Scheduler.port st')
      = drop 1000 (pendingLines (Scheduler.port st))
      /\ opened (Scheduler.port st') = true
      /\ Scheduler.app st' = Scheduler.app st
      /\ Scheduler.consecutiveBacklogFrames st' = O
      /\ Scheduler.bufferBacklogDetected st' = false
      /\ cleared = match noData with
                   | ReturnsNull => Nat.min 1000 (Scheduler.pending st)
                   | ReturnsEmptyString => 1000%nat
                   end
      /\ Scheduler.console st'
         = Scheduler.console st ++ [Cleared cleared]
           ++ (if (1000 <=? cleared)%nat then [ExtremelyFull] else [])).
Proof.
  unfold Scheduler.clearSerialBuffer. split.
  - intros ->. reflexivity.
  - intros Hopen. rewrite Hopen. cbn [negb].
    pose proof (clearLoop_lines noData MAX_CLEAR 0 (Scheduler.port st)) as Hlines.
    pose proof (clearLoop_count noData MAX_CLEAR 0 (Scheduler.port st)) as Hcount.
    cbn zeta in Hlines.
    destruct (Scheduler.clearLoop noData MAX_CLEAR 0 (Scheduler.port st))
      as [cleared p].
    cbn [fst snd] in *. destruct Hlines as (_ & Hp & Hdrop).
    cbn [Scheduler.port Scheduler.app Scheduler.consecutiveBacklogFrames
         Scheduler.bufferBacklogDetected Scheduler.console].
    rewrite Hopen in Hp. unfold Scheduler.pending.
    change MAX_CLEAR with 1000%nat in *.
    split; [exact Hdrop|]. split; [exact Hp|].
    split; [reflexivity|]. split; [reflexivity|]. split; [reflexivity|].
    split; [exact Hcount | reflexivity].
Qed.

Lemma clearSerialBuffer_effect_witness :
  fst (Scheduler.clearSerialBuffer unit ReturnsNull (burst 37)) = 37%nat
  /\ fst (Scheduler.clearSerialBuffer unit ReturnsEmptyString (burst 37))
     = 1000%nat
  /\ Scheduler.pending
       (snd (Scheduler.clearSerialBuffer unit ReturnsEmptyString (burst 1234)))
     = 234%nat.
Proof.
  destruct (clearSerialBuffer_effect ReturnsNull (burst 37)) as [_ Hnull].
  destruct (clearSerialBuffer_effect ReturnsEmptyString (burst 37)) as [_ Hempty].
  destruct (clearSerialBuffer_effect ReturnsEmptyString (burst 1234))
    as [_ Hlarge].
  cbn zeta in Hnull, Hempty, Hlarge.
  destruct (Hnull eq_refl) as (_ & _ & _ & _ & _ & Hcount & _).
  destruct (Hempty eq_refl) as (_ & _ & _ & _ & _ & Hall & _).
  destruct (Hlarge eq_refl) as (Hdrop & _).
  split; [rewrite Hcount, burst_pending; reflexivity|].
  split; [exact Hall|].
  unfold Scheduler.pending. rewrite Hdrop, length_drop.
  change (length (pendingLines (Scheduler.port (burst 1234))))
    with (Scheduler.pending (burst 1234)).
  rewrite burst_pending. reflexivity.
Defined.

(** X16.  One tick of the scheduler on an open port whose pending lines
    are proper lines hands the first 20 lines (all if there are fewer),
    trimmed and in the order they arrived, to the parser, whether or not
    the tick purges; the lines a purge discards are never parsed.  The
    buffer afterwards holds the lines after the first 20, less the
    first 1000 of those when the tick purges. *)
Theorem scheduler_draw_in_order {App : Type}
        (parseSerialMessage : string -> App -> App) (noData : NoData)
        (st : Scheduler.t App) :
  linesWaiting st ->
  let st' := Scheduler.draw App parseSerialMessage noData st in
  let purges := (20 <=? Scheduler.pending st)%nat
                && (60 <=? S (Scheduler.consecutiveBacklogFrames st))%nat in
  Scheduler.app st'
  = fold_left (fun acc line => parseSerialMessage (JS.trim line) acc)
              (take 20 (pendingLines (Scheduler.port st))) (Scheduler.app st)
  /\ pendingLines (Scheduler.port st')
     = drop (if purges then 1020 else 20) (pendingLines (Scheduler.port st)).
Proof.
  intros [Hopen Hlines] st' purges. subst st' purges.
  unfold Scheduler.draw, Scheduler.pending. rewrite Hopen.
  pose proof (readLoop_lines parseSerialMessage noData MAX_MESSAGES_PER_FRAME 0
                (Scheduler.port st) (Scheduler.app st) Hlines) as Hread.
  pose proof (readLoop_app parseSerialMessage noData MAX_MESSAGES_PER_FRAME 0
                (Scheduler.port st) (Scheduler.app st) Hlines) as Happ.
  cbn zeta in Hread.
  destruct (Scheduler.readLoop App parseSerialMessage noData
              MAX_MESSAGES_PER_FRAME 0 (Scheduler.port st) (Scheduler.app st))
    as [[n p] a].
  cbn [fst snd] in Hread, Happ. destruct Hread as (Hn & Hp & Hrest).
  rewrite Hopen in Hp. change MAX_MESSAGES_PER_FRAME with 20%nat in *.
  cbn [Nat.add] in Hn.
  destruct (Nat.leb_spec 20 n) as [Hfull | Hless];
    destruct (Nat.leb_spec 20 (length (pendingLines (Scheduler.port st))));
    try lia; cbn [andb].
  - destruct (Nat.leb_spec AUTO_CLEAR_THRESHOLD
                           (S (Scheduler.consecutiveBacklogFrames st)))
      as [Hpurge | Hcount];
      change AUTO_CLEAR_THRESHOLD with 60%nat in *;
      destruct (Nat.leb_spec 60 (S (Scheduler.consecutiveBacklogFrames st)));
      try lia.
    + unfold Scheduler.clearSerialBuffer. cbn [Scheduler.port Scheduler.app].
      rewrite Hp. cbn [negb].
      pose proof (clearLoop_lines noData MAX_CLEAR 0 p) as Hclear.
      cbn zeta in Hclear.
      destruct (Scheduler.clearLoop noData MAX_CLEAR 0 p) as [cleared p2].
      cbn [fst snd] in Hclear. destruct Hclear as (_ & _ & Hdrop).
      cbn [Scheduler.port Scheduler.app snd].
      split; [exact Happ|]. rewrite Hdrop, Hrest, drop_drop. reflexivity.
    + cbn [Scheduler.port Scheduler.app]. split; [exact Happ | exact Hrest].
  - cbn [Scheduler.port Scheduler.app]. split; [exact Happ | exact Hrest].
Qed.

Lemma scheduler_draw_in_order_witness :
  Scheduler.app
    (Scheduler.draw (list string) (fun line seen => seen ++ [line]) ReturnsNull
       (Scheduler.mk
          {| opened := true;
             pendingLines := [Receiver.forward "S1"; Receiver.forward " m1 x=2 "] |}
          [] false 0%nat []))
  = ["S1"%string; "m1 x=2"%string].
Proof.
  refine (eq_trans
            (proj1 (scheduler_draw_in_order
                      (fun line seen => seen ++ [line]) ReturnsNull
                      (Scheduler.mk
                         {| opened := true;
                            pendingLines := [Receiver.forward "S1";
                                             Receiver.forward " m1 x=2 "] |}
                         [] false 0%nat []) _)) _).
  - split; [reflexivity | repeat constructor].
  - reflexivity.
Defined.

(** * The graph sketch *)

(** ** Arithmetic with [NaN], and the bounds of [Math.max] and [Math.min] *)

Lemma add_nan_l (a : JS.number) : (PrimFloat.nan + a)%float = PrimFloat.nan.
Proof.
  apply Prim2SF_inj. rewrite add_spec.
  change (Prim2SF PrimFloat.nan) with S754_nan. reflexivity.
Qed.

Lemma add_nan_r (a : JS.number) : (a + PrimFloat.nan)%float = PrimFloat.nan.
Proof.
  apply Prim2SF_inj. rewrite add_spec.
  change (Prim2SF PrimFloat.nan) with S754_nan.
  destruct (Prim2SF a) as [[] | [] | | [] m e]; reflexivity.
Qed.

Lemma sub_nan_l (a : JS.number) : (PrimFloat.nan - a)%float = PrimFloat.nan.
Proof.
  apply Prim2SF_inj. rewrite sub_spec.
  change (Prim2SF PrimFloat.nan) with S754_nan. reflexivity.
Qed.

Lemma sub_nan_r (a : JS.number) : (a - PrimFloat.nan)%float = PrimFloat.nan.
Proof.
  apply Prim2SF_inj. rewrite sub_spec.
  change (Prim2SF PrimFloat.nan) with S754_nan.
  destruct (Prim2SF a) as [[] | [] | | [] m e]; reflexivity.
Qed.

Lemma mul_nan_l (a : JS.number) : (PrimFloat.nan * a)%float = PrimFloat.nan.
Proof.
  apply Prim2SF_inj. rewrite mul_spec.
  change (Prim2SF PrimFloat.nan) with S754_nan. reflexivity.
Qed.

(** Smoothing towards or from [NaN] gives [NaN]. *)
Lemma smoothValue_nan (current value factor : JS.number) :
  current = PrimFloat.nan \/ value = PrimFloat.nan ->
  GraphStream.smoothValue current value factor = PrimFloat.nan.
Proof.
  unfold GraphStream.smoothValue. intros [-> | ->].
  - apply add_nan_l.
  - rewrite sub_nan_l, mul_nan_l. apply add_nan_r.
Qed.

Lemma max_cases (a b : JS.number) :
  JS.max a b = PrimFloat.nan \/ JS.max a b = a \/ JS.max a b = b.
Proof.
  unfold JS.max. destruct (_ || _); [auto|].
  destruct (PrimFloat.ltb a b); [auto|]. destruct (PrimFloat.ltb b a); [auto|].
  destruct (PrimFloat.classify a); auto.
Qed.

(** [Math.max(a, b)] is never below [b]. *)
Lemma max_not_below_right (a b : JS.number) : JS.lt (JS.max a b) b = false.
Proof.
  unfold JS.max.
  destruct (PrimFloat.is_nan a || PrimFloat.is_nan b); [apply lt_nan_left|].
  destruct (PrimFloat.ltb a b) eqn:Hab; [apply lt_irrefl|].
  destruct (PrimFloat.ltb b a) eqn:Hba; [exact Hab|].
  destruct (PrimFloat.classify a); try exact Hab. apply lt_irrefl.
Qed.

Lemma gt_nan_left (a : JS.number) : JS.gt PrimFloat.nan a = false.
Proof.
  unfold JS.gt. rewrite ltb_spec. change (Prim2SF PrimFloat.nan) with S754_nan.
  unfold SFltb, SFcompare. destruct (Prim2SF a) as [[] | [] | | [] m e]; reflexivity.
Qed.

(** [Math.min(a, b)] is never above [a] nor above [b]. *)
Lemma min_not_above (a b : JS.number) :
  JS.gt (JS.min a b) a = false /\ JS.gt (JS.min a b) b = false.
Proof.
  unfold JS.min.
  destruct (PrimFloat.is_nan a || PrimFloat.is_nan b);
    [split; apply gt_nan_left|].
  destruct (PrimFloat.ltb a b) eqn:Hab.
  { split; [apply gt_irrefl | apply (lt_asym a b Hab)]. }
  destruct (PrimFloat.ltb b a) eqn:Hba.
  { split; [apply (lt_asym b a Hba) | apply gt_irrefl]. }
  destruct (PrimFloat.classify a);
    first [ split; [apply gt_irrefl | exact Hba]
          | split; [exact Hab | apply gt_irrefl] ].
Qed.

(** ** One sample on a graph stream *)

Section GraphCases.

Variables (vx vy vz : JS.number) (now : Z) (this : GraphStream.t).

(** A calibrating stream with fewer than 29 samples collected: the
    sample is stored and counted and nothing else moves. *)
Lemma receive_collecting :
  GraphStream.isCalibrating this = true ->
  (S (GraphStream.calibrationFrames this) < 30)%nat ->
  let after := GraphStream.receive vx vy vz now this in
  GraphStream.isCalibrating after = true
  /\ GraphStream.calibrationFrames after = S (GraphStream.calibrationFrames this)
  /\ GraphStream.calibrationSamples after
     = GraphStream.calibrationSamples this ++ [mkSample vx vy vz]
  /\ graphShown after = graphShown this
  /\ GraphStream.smoothingFactor after = GraphStream.smoothingFactor this.
Proof.
  intros Hcal Hless. unfold GraphStream.receive. rewrite Hcal.
  unfold GraphStream.addCalibrationSample.
  cbn [GraphStream.calibrationFrames].
  destruct (Nat.leb_spec 30 (S (GraphStream.calibrationFrames this))); [lia|].
  cbn. rewrite Hcal. repeat split.
Qed.

(** The sample that makes thirty completes the calibration. *)
Lemma receive_finishing :
  GraphStream.isCalibrating this = true ->
  (30 <= S (GraphStream.calibrationFrames this))%nat ->
  GraphStream.calibrationFrames this
  = length (GraphStream.calibrationSamples this) ->
  let after := GraphStream.receive vx vy vz now this in
  GraphStream.isCalibrating after = false
  /\ GraphStream.isCalibrated after = true
  /\ GraphStream.calibrationFrames after = S (GraphStream.calibrationFrames this)
  /\ GraphStream.calibrationSamples after
     = GraphStream.calibrationSamples this ++ [mkSample vx vy vz]
  /\ GraphStream.xData after = repeat (GraphStream.baselineX after) maxDataPoints
  /\ GraphStream.yData after = repeat (GraphStream.baselineY after) maxDataPoints
  /\ GraphStream.zData after = repeat (GraphStream.baselineZ after) maxDataPoints
  /\ GraphStream.smoothedX after = GraphStream.baselineX after
  /\ GraphStream.smoothedY after = GraphStream.baselineY after
  /\ GraphStream.smoothedZ after = GraphStream.baselineZ after
  /\ exists noise : JS.number,
      GraphStream.smoothingFactor after
      = P5.constrain (P5.map noise 5 50 0.05 0.5) 0.05 0.5.
Proof.
  intros Hcal Hfull Hframes. unfold GraphStream.receive. rewrite Hcal.
  unfold GraphStream.addCalibrationSample.
  cbn [GraphStream.calibrationFrames].
  destruct (Nat.leb_spec 30 (S (GraphStream.calibrationFrames this))); [|lia].
  unfold GraphStream.finishCalibration.
  cbn [GraphStream.calibrationSamples]. rewrite length_app, Nat.add_1_r.
  destruct (Nat.ltb_spec (S (length (GraphStream.calibrationSamples this))) 30);
    [lia|].
  cbn. repeat split. eexists. reflexivity.
Qed.

(** A stream that is not calibrating: the values are smoothed and one
    point is added to each array, the oldest being dropped when the
    arrays are full. *)
Lemma receive_plotting :
  GraphStream.isCalibrating this = false ->
  let after := GraphStream.receive vx vy vz now this in
  GraphStream.isCalibrating after = false
  /\ GraphStream.isCalibrated after = GraphStream.isCalibrated this
  /\ GraphStream.calibrationFrames after = GraphStream.calibrationFrames this
  /\ GraphStream.calibrationSamples after = GraphStream.calibrationSamples this
  /\ GraphStream.smoothingFactor after = GraphStream.smoothingFactor this
  /\ GraphStream.lastUpdate after = now
  /\ (exists (px py pz : JS.number) (tooLong : bool),
        tooLong = (maxDataPoints <? S (length (GraphStream.xData this)))%nat
        /\ GraphStream.xData after = GraphStream.pushed tooLong (GraphStream.xData this) px
        /\ GraphStream.yData after = GraphStream.pushed tooLong (GraphStream.yData this) py
        /\ GraphStream.zData after = GraphStream.pushed tooLong (GraphStream.zData this) pz)
  /\ GraphStream.smoothedX after
     = (if JS.isZero (GraphStream.smoothedX this)
           && JS.isZero (GraphStream.smoothedY this)
           && JS.isZero (GraphStream.smoothedZ this)
        then vx
        else GraphStream.smoothValue (GraphStream.smoothedX this) vx
                                     (GraphStream.smoothingFactor this)).
Proof.
  intros Hcal. unfold GraphStream.receive. rewrite Hcal.
  destruct (JS.isZero (GraphStream.smoothedX this)
            && JS.isZero (GraphStream.smoothedY this)
            && JS.isZero (GraphStream.smoothedZ this));
    cbn -[JS.max PrimFloat.abs GraphStream.snap GraphStream.pushed maxDataPoints
          Nat.ltb];
    rewrite ?Hcal, length_app, Nat.add_1_r;
    (repeat (split; [reflexivity|])); (split; [|reflexivity]);
    eexists; eexists; eexists; eexists;
    (split; [reflexivity|]); repeat split.
Qed.

End GraphCases.

Lemma pushed_length (tooLong : bool) (data : list JS.number) (v : JS.number) :
  length (GraphStream.pushed tooLong data v)
  = (if tooLong then length data else S (length data)).
Proof.
  unfold GraphStream.pushed. destruct tooLong.
  - rewrite length_drop, length_app. cbn. lia.
  - rewrite length_app. cbn. lia.
Qed.

(** The invariants of the graph streams: the frame counter counts the
    samples collected, a calibrating stream has fewer than thirty of
    them, and the three data arrays have one length, at most
    [maxDataPoints]. *)
Lemma graph_invariant (this : GraphStream.t) :
  reachableGraph this ->
  GraphStream.calibrationFrames this
  = length (GraphStream.calibrationSamples this)
  /\ (GraphStream.isCalibrating this = true ->
      (GraphStream.calibrationFrames this < 30)%nat)
  /\ length (GraphStream.yData this) = length (GraphStream.xData this)
  /\ length (GraphStream.zData this) = length (GraphStream.xData this)
  /\ (length (GraphStream.xData this) <= maxDataPoints)%nat.
Proof.
  induction 1 as [id now | vx vy vz now this Hreach (IHf & IHc & IHy & IHz & IHx)
                  | this Hreach IH | this Hreach IH | this Hreach IH
                  | this Hreach IH].
  - cbn. repeat split; [discriminate | lia].
  - destruct (GraphStream.isCalibrating this) eqn:Hcal.
    + specialize (IHc eq_refl).
      destruct (Nat.lt_ge_cases (S (GraphStream.calibrationFrames this)) 30)
        as [Hless | Hfull].
      * destruct (receive_collecting vx vy vz now this Hcal Hless)
          as (Hc & Hf & Hs & Hshown & _).
        injection Hshown as Hx Hy Hz _ _ _ _ _.
        rewrite Hf, Hs, Hx, Hy, Hz, length_app. cbn [length].
        repeat split; try assumption; lia.
      * destruct (receive_finishing vx vy vz now this Hcal Hfull IHf)
          as (Hc & _ & Hf & Hs & Hx & Hy & Hz & _).
        rewrite Hc, Hf, Hs, Hx, Hy, Hz, length_app, !repeat_length.
        cbn [length]. repeat split; [lia | discriminate | lia].
    + destruct (receive_plotting vx vy vz now this Hcal)
        as (Hc & _ & Hf & Hs & _ & _ & (px & py & pz & tooLong & Hlong & Hx & Hy & Hz)
            & _).
      rewrite Hc, Hf, Hs, Hx, Hy, Hz, !pushed_length, IHy, IHz.
      split; [exact IHf|]. split; [discriminate|].
      split; [reflexivity|]. split; [reflexivity|].
      subst tooLong. unfold maxDataPoints in *.
      destruct (Nat.ltb_spec 200 (S (length (GraphStream.xData this)))); lia.
  - unfold GraphStream.startCalibration.
    destruct (_ || _); [|exact IH].
    destruct IH as (_ & _ & IHy & IHz & IHx). cbn.
    repeat split; try assumption; lia.
  - exact IH.
  - exact IH.
  - exact IH.
Qed.

Lemma receiveAll_cons (d : Sample) (now : Z) (rest : list (Sample * Z))
      (this : GraphStream.t) :
  receiveAll ((d, now) :: rest) this
  = receiveAll rest
      (GraphStream.receive (sampleX d) (sampleY d) (sampleZ d) now this).
Proof. reflexivity. Qed.

Lemma reachableGraph_receiveAll (samples : list (Sample * Z))
      (this : GraphStream.t) :
  reachableGraph this -> reachableGraph (receiveAll samples this).
Proof.
  revert this. induction samples as [|[d now] rest IH]; intros this Hreach.
  - exact Hreach.
  - rewrite receiveAll_cons. apply IH, reachableGraph_receive, Hreach.
Qed.

(** The graph stream used as an example: stream 1 after one data point,
    a calibration started by the key, and thirty samples. *)
Lemma graph_example_reachable (samples : list (Sample * Z)) :
  reachableGraph
    (receiveAll samples
       (GraphStream.startCalibration
          (GraphStream.receive 10 20 30 5 (GraphStream.new 1 0)))).
Proof.
  apply reachableGraph_receiveAll, reachableGraph_startCalibration,
    reachableGraph_receive, reachableGraph_new.
Qed.

(** X17.  In every graph stream the sketch can hold, the three data
    arrays have the same length and never more than [maxDataPoints]
    (200) entries, and the frame counter of the calibration is the
    number of samples collected, so that [finishCalibration] is never
    entered with fewer than thirty samples. *)
Theorem graph_arrays_bounded (this : GraphStream.t) :
  reachableGraph this ->
  length (GraphStream.yData this) = length (GraphStream.xData this)
  /\ length (GraphStream.zData this) = length (GraphStream.xData this)
  /\ (length (GraphStream.xData this) <= 200)%nat
  /\ GraphStream.calibrationFrames this
     = length (GraphStream.calibrationSamples this)
  /\ (GraphStream.isCalibrating this = true ->
      (length (GraphStream.calibrationSamples this) < 30)%nat).
Proof.
  intros Hreach.
  destruct (graph_invariant this Hreach) as (Hf & Hc & Hy & Hz & Hx).
  repeat split; try assumption. intros Hcal. rewrite <- Hf. apply Hc, Hcal.
Qed.

Lemma graph_arrays_bounded_witness :
  (length (GraphStream.xData
             (receiveAll (repeat (mkSample 1 2 3, 9%Z) 250)
                (GraphStream.new 4 0))) <= 200)%nat.
Proof.
  apply (graph_arrays_bounded
           (receiveAll (repeat (mkSample 1 2 3, 9%Z) 250) (GraphStream.new 4 0))).
  apply reachableGraph_receiveAll, reachableGraph_new.
Defined.

(** A calibration that has counted [k] samples goes on collecting until
    the count is thirty. *)
Lemma receiveAll_calibrating (samples : list (Sample * Z)) :
  forall this : GraphStream.t,
    GraphStream.isCalibrating this = true ->
    GraphStream.calibrationFrames this
    = length (GraphStream.calibrationSamples this) ->
    let after := receiveAll samples this in
    ((GraphStream.calibrationFrames this + length samples < 30)%nat ->
     GraphStream.isCalibrating after = true
     /\ GraphStream.calibrationFrames after
        = (GraphStream.calibrationFrames this + length samples)%nat
     /\ graphShown after = graphShown this)
    /\ ((GraphStream.calibrationFrames this + length samples = 30)%nat ->
        (0 < length samples)%nat ->
        GraphStream.isCalibrating after = false
        /\ GraphStream.isCalibrated after = true
        /\ GraphStream.xData after = repeat (GraphStream.baselineX after) 200
        /\ GraphStream.yData after = repeat (GraphStream.baselineY after) 200
        /\ GraphStream.zData after = repeat (GraphStream.baselineZ after) 200
        /\ GraphStream.smoothedX after = GraphStream.baselineX after
        /\ GraphStream.smoothedY after = GraphStream.baselineY after
        /\ GraphStream.smoothedZ after = GraphStream.baselineZ after).
Proof.
  induction samples as [|[d now] rest IH]; intros this Hcal Hframes after.
  - subst after. cbn [receiveAll fold_left length].
    split; [intros _; rewrite Nat.add_0_r; auto | lia].
  - subst after. rewrite receiveAll_cons. cbn [length].
    destruct (Nat.lt_ge_cases (S (GraphStream.calibrationFrames this)) 30)
      as [Hless | Hfull].
    + destruct (receive_collecting (sampleX d) (sampleY d) (sampleZ d) now this
                  Hcal Hless) as (Hc & Hf & Hs & Hshown & _).
      set (next := GraphStream.receive _ _ _ now this) in *.
      assert (Hnext : GraphStream.calibrationFrames next
                      = length (GraphStream.calibrationSamples next)).
      { rewrite Hf, Hs, length_app, Hframes. cbn. lia. }
      destruct (IH next Hc Hnext) as [IHless IHfull]. rewrite Hf in *.
      split.
      * intros Hlt. destruct IHless as (? & ? & ?); [lia|].
        split; [assumption|]. split; [lia | congruence].
      * intros Heq _. apply IHfull; [lia|].
        destruct rest; [cbn in Heq; lia | cbn; lia].
    + destruct (receive_finishing (sampleX d) (sampleY d) (sampleZ d) now this
                  Hcal Hfull Hframes)
        as (Hc & Hd & _ & _ & Hx & Hy & Hz & Hsx & Hsy & Hsz & _).
      split; [lia|]. intros Heq _.
      assert (Hrest : rest = []) by (destruct rest; [reflexivity | cbn in Heq; lia]).
      subst rest. cbn [receiveAll fold_left].
      repeat split; assumption.
Qed.

(** X18.  A calibration of a graph stream takes thirty samples.  From
    the moment a stream the sketch can hold is calibrating, with [k]
    samples counted, the samples that follow are only collected: as long
    as fewer than thirty are counted, the data arrays, the smoothed
    values, the calibration flag and the time of the last point are
    exactly as before.  With the sample that makes thirty the stream is
    calibrated, its three arrays hold 200 copies of the new baseline and
    the smoothed values are the baseline. *)
Theorem graph_calibration_takes_thirty (samples : list (Sample * Z))
        (this : GraphStream.t) :
  reachableGraph this ->
  GraphStream.isCalibrating this = true ->
  let after := receiveAll samples this in
  ((GraphStream.calibrationFrames this + length samples < 30)%nat ->
   GraphStream.isCalibrating after = true
   /\ graphShown after = graphShown this)
  /\ ((GraphStream.calibrationFrames this + length samples = 30)%nat ->
      GraphStream.isCalibrating after = false
      /\ GraphStream.isCalibrated after = true
      /\ GraphStream.xData after = repeat (GraphStream.baselineX after) 200
      /\ GraphStream.yData after = repeat (GraphStream.baselineY after) 200
      /\ GraphStream.zData after = repeat (GraphStream.baselineZ after) 200
      /\ GraphStream.smoothedX after = GraphStream.baselineX after
      /\ GraphStream.smoothedY after = GraphStream.baselineY after
      /\ GraphStream.smoothedZ after = GraphStream.baselineZ after).
Proof.
  intros Hreach Hcal after.
  destruct (graph_invariant this Hreach) as (Hframes & Hbelow & _).
  specialize (Hbelow Hcal).
  destruct (receiveAll_calibrating samples this Hcal Hframes) as [Hless Hfull].
  fold after in Hless, Hfull. split.
  - intros Hlt. destruct (Hless Hlt) as (? & _ & ?). auto.
  - intros Heq. apply Hfull; [exact Heq | lia].
Qed.

Lemma graph_calibration_takes_thirty_witness :
  GraphStream.isCalibrating
    (receiveAll (repeat (mkSample 10 20 30, 9) 29)
       (GraphStream.startCalibration
          (GraphStream.receive 10 20 30 5 (GraphStream.new 1 0)))) = true
  /\ GraphStream.isCalibrated
       (receiveAll (repeat (mkSample 10 20 30, 9) 30)
          (GraphStream.startCalibration
             (GraphStream.receive 10 20 30 5 (GraphStream.new 1 0)))) = true.
Proof.
  destruct (graph_calibration_takes_thirty (repeat (mkSample 10 20 30, 9) 29)
              (GraphStream.startCalibration
                 (GraphStream.receive 10 20 30 5 (GraphStream.new 1 0)))
              (graph_example_reachable []) eq_refl) as [Hless _].
  destruct (graph_calibration_takes_thirty (repeat (mkSample 10 20 30, 9) 30)
              (GraphStream.startCalibration
                 (GraphStream.receive 10 20 30 5 (GraphStream.new 1 0)))
              (graph_example_reachable []) eq_refl) as [_ Hfull].
  split.
  - apply Hless. rewrite repeat_length. cbn. lia.
  - apply Hfull. rewrite repeat_length. reflexivity.
Defined.

(** [constrain(n, low, high)] is never below [low], and never above
    [high] when [low] is not. *)
Lemma constrain_bounds (n low high : JS.number) :
  JS.gt low high = false ->
  JS.lt (P5.constrain n low high) low = false
  /\ JS.gt (P5.constrain n low high) high = false.
Proof.
  intros Horder. unfold P5.constrain. split; [apply max_not_below_right|].
  destruct (max_cases (JS.min n high) low) as [-> | [-> | ->]].
  - apply gt_nan_left.
  - apply min_not_above.
  - exact Horder.
Qed.

(** X19.  The smoothing factor stays in its bounds where the code
    bounds it: the factor that a completed calibration of a graph stream
    installs is never below 0.05 and never above 0.5; the key + never
    leaves it below 0.05 and the key - never above 1 (in each case it
    may be [NaN]). *)
Theorem smoothing_factor_bounds (vx vy vz : JS.number) (now : Z)
        (this : GraphStream.t) :
  (reachableGraph this ->
   GraphStream.isCalibrating this = true ->
   GraphStream.calibrationFrames this = 29%nat ->
   let after := GraphStream.receive vx vy vz now this in
   GraphStream.isCalibrated after = true
   /\ JS.lt (GraphStream.smoothingFactor after) 0.05 = false
   /\ JS.gt (GraphStream.smoothingFactor after) 0.5 = false)
  /\ JS.lt (GraphStream.smoothingFactor (GraphStream.increaseSmoothing this))
           0.05 = false
  /\ JS.gt (GraphStream.smoothingFactor (GraphStream.decreaseSmoothing this))
           1 = false.
Proof.
  split; [|split].
  - intros Hreach Hcal Hframes after.
    destruct (graph_invariant this Hreach) as (Hsamples & _).
    destruct (receive_finishing vx vy vz now this Hcal ltac:(lia) Hsamples)
      as (_ & Hdone & _ & _ & _ & _ & _ & _ & _ & _ & noise & Hfactor).
    fold after in Hdone, Hfactor. rewrite Hfactor.
    split; [exact Hdone|]. apply constrain_bounds. reflexivity.
  - cbn [GraphStream.increaseSmoothing GraphStream.withSettings
         GraphStream.smoothingFactor].
    apply max_not_below_left.
  - cbn [GraphStream.decreaseSmoothing GraphStream.withSettings
         GraphStream.smoothingFactor].
    apply min_not_above.
Qed.

Lemma smoothing_factor_bounds_witness :
  JS.gt (GraphStream.smoothingFactor
           (GraphStream.receive 900 20 30 70
              (receiveAll (repeat (mkSample 10 20 30, 9%Z) 29)
                 (GraphStream.startCalibration
                    (GraphStream.receive 10 20 30 5 (GraphStream.new 1 0))))))
        0.5 = false.
Proof.
  destruct (smoothing_factor_bounds 900 20 30 70
              (receiveAll (repeat (mkSample 10 20 30, 9%Z) 29)
                 (GraphStream.startCalibration
                    (GraphStream.receive 10 20 30 5 (GraphStream.new 1 0)))))
    as [Hcalibration _].
  apply Hcalibration.
  - apply graph_example_reachable.
  - reflexivity.
  - reflexivity.
Defined.

(** X20.  The graph sketch has no test for [NaN].  A sample whose x
    value is [NaN] (an x token that is not a number: only a missing
    token gives [null]) makes the smoothed x value of a stream that is
    not calibrating [NaN]; and once the smoothed x value is [NaN] it
    stays [NaN] whatever samples follow, until a calibration completes
    and replaces it by the new baseline. *)
Theorem nan_stays_in_smoothed_value (vx vy vz : JS.number) (now : Z)
        (this : GraphStream.t) :
  let after := GraphStream.receive vx vy vz now this in
  (GraphStream.isCalibrating this = false -> vx = PrimFloat.nan ->
   GraphStream.smoothedX after = PrimFloat.nan)
  /\ (GraphStream.smoothedX this = PrimFloat.nan ->
      GraphStream.smoothedX after = PrimFloat.nan
      \/ (GraphStream.isCalibrating this = true
          /\ GraphStream.isCalibrating after = false)).
Proof.
  intros after. split.
  - intros Hcal ->.
    destruct (receive_plotting PrimFloat.nan vy vz now this Hcal)
      as (_ & _ & _ & _ & _ & _ & _ & Hsmoothed).
    fold after in Hsmoothed. rewrite Hsmoothed.
    destruct (_ && _); [reflexivity | apply smoothValue_nan; auto].
  - intros Hnan. destruct (GraphStream.isCalibrating this) eqn:Hcal.
    + destruct (Nat.lt_ge_cases (S (GraphStream.calibrationFrames this)) 30)
        as [Hless | Hfull].
      * destruct (receive_collecting vx vy vz now this Hcal Hless)
          as (_ & _ & _ & Hshown & _).
        fold after in Hshown. injection Hshown as _ _ _ Hx _ _ _ _.
        left. congruence.
      * right. split; [reflexivity|]. subst after.
        unfold GraphStream.receive. rewrite Hcal.
        unfold GraphStream.addCalibrationSample.
        cbn [GraphStream.calibrationFrames].
        destruct (Nat.leb_spec 30 (S (GraphStream.calibrationFrames this))); [|lia].
        unfold GraphStream.finishCalibration.
        destruct (_ <? 30)%nat; reflexivity.
    + left.
      destruct (receive_plotting vx vy vz now this Hcal)
        as (_ & _ & _ & _ & _ & _ & _ & Hsmoothed).
      fold after in Hsmoothed. rewrite Hsmoothed, Hnan.
      cbn [JS.isZero andb]. change (JS.isZero PrimFloat.nan) with false.
      cbn [andb]. apply smoothValue_nan. auto.
Qed.

Lemma nan_stays_in_smoothed_value_witness :
  GraphStream.smoothedX
    (GraphStream.receive (JS.parseFloat "abc") 2 3 8
       (GraphStream.receive 10 20 30 5 (GraphStream.new 1 0)))
  = PrimFloat.nan.
Proof.
  destruct (nan_stays_in_smoothed_value (JS.parseFloat "abc") 2 3 8
              (GraphStream.receive 10 20 30 5 (GraphStream.new 1 0)))
    as [Hin _].
  apply Hin; reflexivity.
Defined.

(** X21.  The first data line of a sender in the graph sketch.  For a
    stream id from 1 to 6 that the table does not hold and three integer
    accelerations, the sender's line makes the
    stream and plots the three values as they were sent, without any
    smoothing: each data array holds exactly that one value, and the
    smoothed values are the values sent. *)
Theorem graph_first_line_is_plotted_raw (id ax ay az now : Z)
        (g : GraphGlobals) :
  1 <= id <= 6 ->
  Z.abs ax < 10 ^ 21 -> Z.abs ay < 10 ^ 21 -> Z.abs az < 10 ^ 21 ->
  streams g !! id = None ->
  exists s : GraphStream.t,
    streams (parseSerialMessage (Sender.line id ax ay az) now g)
    = <[id := s]> (streams g)
    /\ GraphStream.xData s = [JS.ofInteger ax]
    /\ GraphStream.yData s = [JS.ofInteger ay]
    /\ GraphStream.zData s = [JS.ofInteger az]
    /\ GraphStream.smoothedX s = JS.ofInteger ax
    /\ GraphStream.smoothedY s = JS.ofInteger ay
    /\ GraphStream.smoothedZ s = JS.ofInteger az
    /\ GraphStream.isCalibrating s = false
    /\ GraphStream.lastUpdate s = now.
Proof.
  intros Hid _ _ _ Hnew.
  destruct (sender_line_fields id ax ay az EmptyString Hid eq_refl)
    as (Hdata & Hx & Hy & Hz).
  cbn zeta in Hdata, Hx, Hy, Hz. rewrite string_app_nil in Hdata, Hx, Hy, Hz.
  exists (GraphStream.receive (JS.ofInteger ax) (JS.ofInteger ay)
            (JS.ofInteger az) now (GraphStream.new id now)).
  split.
  - unfold parseSerialMessage.
    rewrite (data_not_registration _ id Hdata), Hdata, Hx, Hy, Hz.
    cbn [fmap option_fmap option_map streams].
    rewrite !parseFloat_integerToString.
    unfold ensureGraphStream. rewrite Hnew.
    apply map_eq. intros other.
    destruct (decide (other = id)) as [-> | Hne].
    + rewrite lookup_alter_eq, !lookup_insert_eq. reflexivity.
    + rewrite lookup_alter_ne, !lookup_insert_ne by congruence. reflexivity.
  - unfold GraphStream.receive. cbn. repeat split.
Qed.

Lemma graph_first_line_is_plotted_raw_witness :
  exists s : GraphStream.t,
    streams (parseSerialMessage (Sender.line 3 5 (-7) 1000) 12
               {| streams := ∅; graphMessageCount := 0 |}) !! 3 = Some s
    /\ GraphStream.xData s = [5%float].
Proof.
  destruct (graph_first_line_is_plotted_raw 3 5 (-7) 1000 12
              {| streams := ∅; graphMessageCount := 0 |})
    as (s & Htable & Hx & _);
    [lia | vm_compute; reflexivity.. | reflexivity |].
  exists s. rewrite Htable, lookup_insert_eq. split; [reflexivity | exact Hx].
Defined.
